(** * Daisy-chain protocol high level analyzers: shallow embedding

    The repository holds two variants of the same incremental frame
    decoder, [src/HighLevelAnalyzer.py] (class [Hla]) and [src/analyzer.py]
    (class [analyzer]).  Both are embedded below, each in a module named
    after its class; what the two files define identically (the masks, the
    frame and command constants, the two label tables and [initPacket]) is
    declared once, before the modules.

    Conventions of the embedding:
    - a Python [int] is a [Z]; [&], [|] and [<<] are [Z.land], [Z.lor] and
      [Z.shiftl];
    - [bytes] is a [list Z] (Python guarantees each element is in 0..255;
      theorems that need the range assume it);
    - [GraphTime] and [GraphTimeDelta] are rationals [Q] (seconds);
    - a [dict] with string keys is a [gmap string _];
    - the attributes of [self] are a record that is passed in and returned;
    - an exception is a value of [exn]: a call yields an [outcome] together
      with the state the object is left in. *)

From Stdlib Require Import ZArith QArith Lia.
From Stdlib Require Import String Ascii HexString.
From stdpp Require Import base option list strings gmap.

#[local] Open Scope string_scope.
#[local] Open Scope Z_scope.

(** ** Constants shared by both files *)

Definition FRAME_TYPE_MASK : Z := 0x80.
Definition REQ_TYPE_MASK : Z := 0x70.
Definition REQ_DATA_SIZE_MASK : Z := 0x07.
Definition RES_DATA_SIZE_MASK : Z := 0x7f.

Definition COMMAND_FRAME : Z := 0x80.
Definition RESPONSE_FRAME : Z := 0x00.
Definition ERROR_FRAME : Z := 0xff.

Definition SINGLE_DEVICE_READ : Z := 0x00.
Definition SINGLE_DEVICE_WRITE : Z := 0x10.
Definition STACK_READ : Z := 0x20.
Definition STACK_WRITE : Z := 0x30.
Definition BROADCAST_READ : Z := 0x40.
Definition BROADCAST_WRITE : Z := 0x50.
Definition BROADCAST_WRITE_REVERSE : Z := 0x60.

Definition FRAME_TYPE_MAP : gmap Z string :=
  <[COMMAND_FRAME := "Command"]> (
  <[RESPONSE_FRAME := "Response"]> ∅).

Definition COMMAND_TYPE_MAP : gmap Z string :=
  <[SINGLE_DEVICE_READ := "Single Device Read"]> (
  <[SINGLE_DEVICE_WRITE := "Single Device Write"]> (
  <[STACK_READ := "Stack Read"]> (
  <[STACK_WRITE := "Stack Write"]> (
  <[BROADCAST_READ := "Broadcast Read"]> (
  <[BROADCAST_WRITE := "Broadcast Write"]> (
  <[BROADCAST_WRITE_REVERSE := "Broadcast Write Reverse"]> ∅)))))).

(** ** Time *)

(** [a < b] on [GraphTime]. *)
Definition time_lt (a b : Q) : bool := negb (Qle_bool b a).

(** ** Frames of the host *)

(** [AnalyzerFrame(type, start_time, end_time, data)].  [V] is the type of
    the values of the [data] dictionary: [option (list Z)] for the frames
    the input analyzer delivers ([bytes] or [None], the source annotates
    [data: bytes]), [string] for the frames the decoder builds. *)
Record AnalyzerFrame (V : Type) := mkAnalyzerFrame {
  type : string;
  start_time : Q;
  end_time : Q;
  data : gmap string V
}.
Arguments mkAnalyzerFrame {V} _ _ _ _.
Arguments type {V} _.
Arguments start_time {V} _.
Arguments end_time {V} _.
Arguments data {V} _.

Abbreviation InFrame := (AnalyzerFrame (option (list Z))).
Abbreviation OutFrame := (AnalyzerFrame string).

(** ** Exceptions and outcomes *)

Inductive exn := AttributeError | TypeError | KeyError.

(** What a call of [onReceived] or [decode] does: return a frame or
    [None], or raise. *)
Inductive outcome :=
| Returns (r : option OutFrame)
| Raises (e : exn).

(** What one round of the body of [for byte in data] does. *)
Inductive flow :=
| Return (r : option OutFrame)
| Continue (result : option OutFrame)
| Raise (e : exn).

(** ** Number formatting *)

Definition hex_digit (upper : bool) (d : Z) : ascii :=
  if d <? 10 then ascii_of_N (Z.to_N (48 + d))
  else ascii_of_N (Z.to_N ((if upper then 55 else 87) + d)).

(** Digits of [n >= 0] in base 16, most significant first, in front of
    [acc]; [fuel] bounds the number of digits. *)
Fixpoint hex_digits (fuel : nat) (upper : bool) (n : Z) (acc : string) : string :=
  match fuel with
  | O => acc
  | S fuel' =>
      let acc' := String (hex_digit upper (n mod 16)) acc in
      if n <? 16 then acc' else hex_digits fuel' upper (n / 16) acc'
  end.

Definition hex_of_nonneg (upper : bool) (n : Z) : string :=
  hex_digits (S (Z.to_nat (Z.log2 n))) upper n "".

Fixpoint zeros (k : nat) : string :=
  match k with O => "" | S k' => String "0" (zeros k') end.

(** ['{:0wx}'.format(n)] and ['{:0wX}'.format(n)]: the sign, then the
    digits padded with zeros on the left so that the whole is at least [w]
    characters wide. *)
Definition format_hex (upper : bool) (w : nat) (n : Z) : string :=
  let sign := if n <? 0 then "-" else "" in
  let digits := hex_of_nonneg upper (Z.abs n) in
  sign ++ zeros (w - String.length sign - String.length digits) ++ digits.

(** [hex(n)]. *)
Definition hex (n : Z) : string := HexString.of_Z n.

(** ** The packet attributes *)

(** The eight [lastPacket*] attributes of [self], which [initPacket]
    creates together. *)
Record Packet := mkPacket {
  lastPacketType : Z;
  lastPacketTime : option Q;
  lastPacketChecksum : Z;
  lastPacketData : string;
  lastPacketDataSize : Z;
  lastPacketCommandType : Z;
  lastPacketDeviceAddress : Z;
  lastPacketRegisterAddress : Z
}.

Definition set_lastPacketType (v : Z) (p : Packet) : Packet :=
  mkPacket v (lastPacketTime p) (lastPacketChecksum p) (lastPacketData p)
    (lastPacketDataSize p) (lastPacketCommandType p)
    (lastPacketDeviceAddress p) (lastPacketRegisterAddress p).
Definition set_lastPacketTime (v : option Q) (p : Packet) : Packet :=
  mkPacket (lastPacketType p) v (lastPacketChecksum p) (lastPacketData p)
    (lastPacketDataSize p) (lastPacketCommandType p)
    (lastPacketDeviceAddress p) (lastPacketRegisterAddress p).
Definition set_lastPacketChecksum (v : Z) (p : Packet) : Packet :=
  mkPacket (lastPacketType p) (lastPacketTime p) v (lastPacketData p)
    (lastPacketDataSize p) (lastPacketCommandType p)
    (lastPacketDeviceAddress p) (lastPacketRegisterAddress p).
Definition set_lastPacketData (v : string) (p : Packet) : Packet :=
  mkPacket (lastPacketType p) (lastPacketTime p) (lastPacketChecksum p) v
    (lastPacketDataSize p) (lastPacketCommandType p)
    (lastPacketDeviceAddress p) (lastPacketRegisterAddress p).
Definition set_lastPacketDataSize (v : Z) (p : Packet) : Packet :=
  mkPacket (lastPacketType p) (lastPacketTime p) (lastPacketChecksum p)
    (lastPacketData p) v (lastPacketCommandType p)
    (lastPacketDeviceAddress p) (lastPacketRegisterAddress p).
Definition set_lastPacketCommandType (v : Z) (p : Packet) : Packet :=
  mkPacket (lastPacketType p) (lastPacketTime p) (lastPacketChecksum p)
    (lastPacketData p) (lastPacketDataSize p) v
    (lastPacketDeviceAddress p) (lastPacketRegisterAddress p).
Definition set_lastPacketDeviceAddress (v : Z) (p : Packet) : Packet :=
  mkPacket (lastPacketType p) (lastPacketTime p) (lastPacketChecksum p)
    (lastPacketData p) (lastPacketDataSize p) (lastPacketCommandType p)
    v (lastPacketRegisterAddress p).
Definition set_lastPacketRegisterAddress (v : Z) (p : Packet) : Packet :=
  mkPacket (lastPacketType p) (lastPacketTime p) (lastPacketChecksum p)
    (lastPacketData p) (lastPacketDataSize p) (lastPacketCommandType p)
    (lastPacketDeviceAddress p) v.

(** [initPacket], the same in both files: every packet attribute gets its
    initial value, whatever it held before. *)
Definition initPacket : Packet :=
  {| lastPacketType := 0;
     lastPacketTime := None;
     lastPacketChecksum := 0;
     lastPacketData := "";
     lastPacketDataSize := 0;
     lastPacketCommandType := 0;
     lastPacketDeviceAddress := 0;
     lastPacketRegisterAddress := 0 |}.

(** The dictionary of the timeout error frame, the same in both files. *)
Definition timeout_frame (T e : Q) : OutFrame :=
  mkAnalyzerFrame "error_frame" T e {["error_reason" := "Transfer Timeout"]}.

(** ** An error monad for the lookups that may raise *)

#[local] Instance exn_ret : MRet (sum exn) := fun _ x => inr x.
#[local] Instance exn_bind : MBind (sum exn) := fun _ _ k m =>
  match m with inl e => inl e | inr x => k x end.

(** [d[k]] on a dictionary: the value, or [KeyError]. *)
Definition getitem {K V} `{Countable K} (d : gmap K V) (k : K) : exn + V :=
  match d !! k with Some v => inr v | None => inl KeyError end.

(** [frame.data.get('data', None)]. *)
Definition get_data (frame : InFrame) : option (list Z) :=
  default None (data frame !! "data").

(** * [src/analyzer.py] *)

Module analyzer.

Inductive TransferState :=
| WAIT_INIT
| WAIT_DEV_ADDR
| WAIT_REG_ADDR_1
| WAIT_REG_ADDR_2
| WAIT_DATA
| WAIT_CRC_1
| WAIT_CRC_2.

#[export] Instance TransferState_eq_dec : EqDecision TransferState.
Proof. solve_decision. Defined.

(** The object: the [frame_timeout] setting the host supplies, the state,
    and the packet attributes, absent until [initPacket] first runs. *)
Record decoder := mkDecoder {
  frame_timeout : Q;
  currentState : TransferState;
  packet : option Packet
}.

Definition set_currentState (s : TransferState) (self : decoder) : decoder :=
  mkDecoder (frame_timeout self) s (packet self).
Definition set_packet (p : Packet) (self : decoder) : decoder :=
  mkDecoder (frame_timeout self) (currentState self) (Some p).

(** [__init__], for a host that has set [frame_timeout]. *)
Definition init (timeout : Q) : decoder :=
  {| frame_timeout := timeout; currentState := WAIT_INIT; packet := None |}.

(** [formatResult].  An [AnalyzerFrame] whose start time is [None] is
    modelled as a [TypeError]. *)
Definition formatResult (self : decoder) (frame : InFrame) : exn + OutFrame :=
  match packet self with
  | None => inl AttributeError
  | Some p =>
      ft ← getitem FRAME_TYPE_MAP (lastPacketType p);
      let frameMessage := ft ++ " - " in
      frameMessage ←
        (if lastPacketType p =? COMMAND_FRAME then
           ct ← getitem COMMAND_TYPE_MAP (lastPacketCommandType p);
           mret (frameMessage ++ ct ++ " ")
         else mret frameMessage);
      let frameMessage :=
        if ((lastPacketType p =? COMMAND_FRAME) &&
            ((lastPacketCommandType p =? SINGLE_DEVICE_WRITE) ||
             (lastPacketCommandType p =? SINGLE_DEVICE_READ)))
           || (lastPacketType p =? RESPONSE_FRAME)
        then frameMessage ++ "Device: 0x"
               ++ format_hex true 4 (lastPacketDeviceAddress p) ++ " "
        else frameMessage in
      let frameMessage :=
        frameMessage ++ "Register: 0x"
          ++ format_hex true 4 (lastPacketRegisterAddress p)
          ++ " Data: " ++ lastPacketData p in
      match lastPacketTime p with
      | None => inl TypeError
      | Some T =>
          inr (mkAnalyzerFrame "frame" T (end_time frame)
                 {["message" := frameMessage]})
      end
  end.

(** A branch of the loop body that works on the packet attributes.  The
    branches other than the first only run after the timeout check of
    [onReceived] has read [lastPacketTime], so the attributes exist there;
    their absence is an [AttributeError]. *)
Definition with_packet (self : decoder) (k : Packet -> flow * decoder)
  : flow * decoder :=
  match packet self with
  | Some p => k p
  | None => (Raise AttributeError, self)
  end.

(** The body of [for byte in data]; [result] is the local variable. *)
Definition on_byte (frame : InFrame) (byte : Z) (self : decoder)
    (result : option OutFrame) : flow * decoder :=
  match currentState self with
  | WAIT_INIT =>
      let p := initPacket in
      let p := set_lastPacketTime (Some (start_time frame)) p in
      if Z.land byte FRAME_TYPE_MASK =? COMMAND_FRAME then
        let p := set_lastPacketType COMMAND_FRAME p in
        let p := set_lastPacketDataSize (Z.land byte REQ_DATA_SIZE_MASK + 1) p in
        let command := Z.land byte REQ_TYPE_MASK in
        let s := if (command =? SINGLE_DEVICE_READ)
                    || (command =? SINGLE_DEVICE_WRITE)
                 then WAIT_DEV_ADDR else WAIT_REG_ADDR_1 in
        let p := set_lastPacketCommandType command p in
        (Return None, set_currentState s (set_packet p self))
      else
        let p := set_lastPacketType RESPONSE_FRAME p in
        let p := set_lastPacketDataSize (Z.land byte RES_DATA_SIZE_MASK + 1) p in
        (Return None, set_currentState WAIT_DEV_ADDR (set_packet p self))
  | WAIT_DEV_ADDR =>
      with_packet self (fun p =>
        let p := set_lastPacketDeviceAddress byte p in
        (Return None, set_currentState WAIT_REG_ADDR_1 (set_packet p self)))
  | WAIT_REG_ADDR_1 =>
      with_packet self (fun p =>
        let p := set_lastPacketRegisterAddress (Z.shiftl byte 8) p in
        (Return None, set_currentState WAIT_REG_ADDR_2 (set_packet p self)))
  | WAIT_REG_ADDR_2 =>
      with_packet self (fun p =>
        let p := set_lastPacketRegisterAddress
                   (Z.lor (lastPacketRegisterAddress p) byte) p in
        (Return None, set_currentState WAIT_DATA (set_packet p self)))
  | WAIT_DATA =>
      with_packet self (fun p =>
        let p := set_lastPacketData
                   (lastPacketData p ++ "0x" ++ format_hex true 2 byte ++ " ") p in
        let p := set_lastPacketDataSize (lastPacketDataSize p - 1) p in
        let s := if lastPacketDataSize p <=? 0 then WAIT_CRC_1 else WAIT_DATA in
        (Return None, set_currentState s (set_packet p self)))
  | WAIT_CRC_1 =>
      with_packet self (fun p =>
        let p := set_lastPacketChecksum (Z.shiftl byte 8) p in
        (Return None, set_currentState WAIT_CRC_2 (set_packet p self)))
  | WAIT_CRC_2 =>
      with_packet self (fun p =>
        let p := set_lastPacketChecksum (Z.lor (lastPacketChecksum p) byte) p in
        let self := set_currentState WAIT_INIT (set_packet p self) in
        match formatResult self frame with
        | inl e => (Raise e, self)
        | inr r => (Continue (Some r), self)
        end)
  end.

(** [for byte in data: ...] followed by [return result]. *)
Fixpoint for_byte_in (frame : InFrame) (bytes : list Z) (self : decoder)
    (result : option OutFrame) : outcome * decoder :=
  match bytes with
  | [] => (Returns result, self)
  | byte :: rest =>
      match on_byte frame byte self result with
      | (Return r, self) => (Returns r, self)
      | (Continue result, self) => for_byte_in frame rest self result
      | (Raise e, self) => (Raises e, self)
      end
  end.

Definition onReceived (self : decoder) (frame : InFrame) : outcome * decoder :=
  match get_data frame with
  | None => (Returns None, self)
  | Some bytes =>
      let loop := for_byte_in frame bytes self None in
      if bool_decide (currentState self ≠ WAIT_INIT) then
        match packet self with
        | None => (Raises AttributeError, self)
        | Some p =>
            match lastPacketTime p with
            | None => (Raises TypeError, self)
            | Some T =>
                if time_lt (T + frame_timeout self)%Q (end_time frame) then
                  (Returns (Some (timeout_frame T (end_time frame))),
                   set_currentState WAIT_INIT self)
                else loop
            end
        end
      else loop
  end.

Definition decode (self : decoder) (frame : InFrame) : outcome * decoder :=
  if negb (String.eqb (type frame) "data") then (Returns None, self)
  else if bool_decide (is_Some (data frame !! "error")) then (Returns None, self)
  else onReceived self frame.

(** The host calls [decode] once per frame of the input analyzer, always
    on the same object: the outcomes in order, and the object at the end. *)
Fixpoint run (self : decoder) (frames : list InFrame)
  : list outcome * decoder :=
  match frames with
  | [] => ([], self)
  | frame :: rest =>
      let '(o, self) := decode self frame in
      let '(out, final) := run self rest in
      (o :: out, final)
  end.

End analyzer.

(** * [src/HighLevelAnalyzer.py] *)

Module Hla.

Definition WAIT_INIT : Z := 0x00.
Definition WAIT_DEV_ADDR : Z := 0x01.
Definition WAIT_REG_ADDR_1 : Z := 0x02.
Definition WAIT_REG_ADDR_2 : Z := 0x03.
Definition WAIT_DATA : Z := 0x04.
Definition WAIT_CRC_1 : Z := 0x05.
Definition WAIT_CRC_2 : Z := 0x06.

(** The object: the [frame_timeout] setting (declared by the class, read
    nowhere in the file), the state, and the packet attributes, absent
    until [initPacket] first runs. *)
Record decoder := mkDecoder {
  frame_timeout : Q;
  currentState : Z;
  packet : option Packet
}.

Definition set_currentState (s : Z) (self : decoder) : decoder :=
  mkDecoder (frame_timeout self) s (packet self).
Definition set_packet (p : Packet) (self : decoder) : decoder :=
  mkDecoder (frame_timeout self) (currentState self) (Some p).

(** [__init__], for a host that has set [frame_timeout]. *)
Definition init (timeout : Q) : decoder :=
  {| frame_timeout := timeout; currentState := WAIT_INIT; packet := None |}.

(** The [AnalyzerFrame('frame', ...)] expression of the last branch of
    [onReceived].  An [AnalyzerFrame] whose start time is [None] is
    modelled as a [TypeError]. *)
Definition frame_result (p : Packet) (frame : InFrame) : exn + OutFrame :=
  ft ← getitem FRAME_TYPE_MAP (lastPacketType p);
  ct ← getitem COMMAND_TYPE_MAP (Z.land (lastPacketCommandType p) REQ_TYPE_MASK);
  let d : gmap string string :=
    <["frame_type" := ft]> (
    <["command_type" := ct]> (
    <["device_address" := hex (lastPacketDeviceAddress p)]> (
    <["register_address" := hex (lastPacketRegisterAddress p)]> (
    <["register_data" := lastPacketData p]> ∅)))) in
  match lastPacketTime p with
  | None => inl TypeError
  | Some T => inr (mkAnalyzerFrame "frame" T (end_time frame) d)
  end.

(** As in [analyzer]: the branches other than the first only run after
    the timeout check has read [lastPacketTime]. *)
Definition with_packet (self : decoder) (k : Packet -> flow * decoder)
  : flow * decoder :=
  match packet self with
  | Some p => k p
  | None => (Raise AttributeError, self)
  end.

(** The body of [for byte in data].  Every branch returns; a state that is
    none of the seven constants falls through to the next byte. *)
Definition on_byte (frame : InFrame) (byte : Z) (self : decoder)
  : flow * decoder :=
  if currentState self =? WAIT_INIT then
    let p := initPacket in
    let p := set_lastPacketTime (Some (start_time frame)) p in
    if Z.land byte FRAME_TYPE_MASK =? COMMAND_FRAME then
      let p := set_lastPacketType COMMAND_FRAME p in
      let p := set_lastPacketDataSize (Z.land byte REQ_DATA_SIZE_MASK + 1) p in
      let command := Z.land byte REQ_TYPE_MASK in
      let s := if (command =? SINGLE_DEVICE_READ)
                  || (command =? SINGLE_DEVICE_WRITE)
               then WAIT_DEV_ADDR else WAIT_REG_ADDR_1 in
      let p := set_lastPacketCommandType command p in
      (Return None, set_currentState s (set_packet p self))
    else
      let p := set_lastPacketType RESPONSE_FRAME p in
      let p := set_lastPacketDataSize (Z.land byte RES_DATA_SIZE_MASK + 1) p in
      (Return None, set_currentState WAIT_DEV_ADDR (set_packet p self))
  else if currentState self =? WAIT_DEV_ADDR then
    with_packet self (fun p =>
      let p := set_lastPacketDeviceAddress byte p in
      (Return None, set_currentState WAIT_REG_ADDR_1 (set_packet p self)))
  else if currentState self =? WAIT_REG_ADDR_1 then
    with_packet self (fun p =>
      let p := set_lastPacketRegisterAddress (Z.shiftl byte 8) p in
      (Return None, set_currentState WAIT_REG_ADDR_2 (set_packet p self)))
  else if currentState self =? WAIT_REG_ADDR_2 then
    with_packet self (fun p =>
      let p := set_lastPacketRegisterAddress
                 (Z.lor (lastPacketRegisterAddress p) byte) p in
      (Return None, set_currentState WAIT_DATA (set_packet p self)))
  else if currentState self =? WAIT_DATA then
    with_packet self (fun p =>
      let p := set_lastPacketData
                 (lastPacketData p ++ "0x" ++ format_hex false 2 byte ++ " ") p in
      let p := set_lastPacketDataSize (lastPacketDataSize p - 1) p in
      let s := if lastPacketDataSize p <=? 0 then WAIT_CRC_1 else WAIT_DATA in
      (Return None, set_currentState s (set_packet p self)))
  else if currentState self =? WAIT_CRC_1 then
    with_packet self (fun p =>
      let p := set_lastPacketChecksum (Z.shiftl byte 8) p in
      (Return None, set_currentState WAIT_CRC_2 (set_packet p self)))
  else if currentState self =? WAIT_CRC_2 then
    with_packet self (fun p =>
      let p := set_lastPacketChecksum (Z.lor (lastPacketChecksum p) byte) p in
      let self := set_currentState WAIT_INIT (set_packet p self) in
      match frame_result p frame with
      | inl e => (Raise e, self)
      | inr r => (Return (Some r), self)
      end)
  else (Continue None, self).

(** [for byte in data: ...]; falling off the end of the function returns
    [None]. *)
Fixpoint for_byte_in (frame : InFrame) (bytes : list Z) (self : decoder)
  : outcome * decoder :=
  match bytes with
  | [] => (Returns None, self)
  | byte :: rest =>
      match on_byte frame byte self with
      | (Return r, self) => (Returns r, self)
      | (Continue _, self) => for_byte_in frame rest self
      | (Raise e, self) => (Raises e, self)
      end
  end.

Definition onReceived (self : decoder) (frame : InFrame) : outcome * decoder :=
  match get_data frame with
  | None => (Returns None, self)
  | Some bytes =>
      let loop := for_byte_in frame bytes self in
      if negb (currentState self =? WAIT_INIT) then
        match packet self with
        | None => (Raises AttributeError, self)
        | Some p =>
            match lastPacketTime p with
            | None => (Raises TypeError, self)
            | Some T =>
                if time_lt (T + (1 # 100))%Q (end_time frame) then
                  (Returns (Some (timeout_frame T (end_time frame))),
                   set_currentState WAIT_INIT self)
                else loop
            end
        end
      else loop
  end.

Definition decode (self : decoder) (frame : InFrame) : outcome * decoder :=
  if negb (String.eqb (type frame) "data") then (Returns None, self)
  else if bool_decide (is_Some (data frame !! "error")) then (Returns None, self)
  else onReceived self frame.

Fixpoint run (self : decoder) (frames : list InFrame)
  : list outcome * decoder :=
  match frames with
  | [] => ([], self)
  | frame :: rest =>
      let '(o, self) := decode self frame in
      let '(out, final) := run self rest in
      (o :: out, final)
  end.

End Hla.

(** * Test inputs *)

(** A data frame of the input analyzer carrying [bytes] from [s] to [e]. *)
Definition chunk (bytes : list Z) (s e : Q) : InFrame :=
  mkAnalyzerFrame "data" s e {["data" := Some bytes]}.

(** One byte per frame, back to back: the [i]-th frame lasts from
    [i * step] to [(i + 1) * step] milliseconds. *)
Fixpoint chunks_from (step i : Z) (bytes : list Z) : list InFrame :=
  match bytes with
  | [] => []
  | b :: rest =>
      chunk [b] (i * step # 1000) ((i + 1) * step # 1000)
      :: chunks_from step (i + 1) rest
  end.


(** * Vocabulary of the statements *)

(** A frame as the input analyzer delivers it for one bus byte: of type
    ['data'], without an ['error'] key, carrying exactly the byte [b]. *)
Definition one_byte (frame : InFrame) (b : Z) : Prop :=
  type frame = "data" /\ data frame !! "error" = None
  /\ get_data frame = Some [b].

(** The chunk ends no later than [D] after [T]: the timeout check, made
    with bound [D] for a packet started at [T], does not fire on it. *)
Definition within (T D : Q) (frame : InFrame) : Prop :=
  (end_time frame <= T + D)%Q.

(** Every byte the frame carries is a byte. *)
Definition bytes_in_range (frame : InFrame) : Prop :=
  forall bytes, get_data frame = Some bytes ->
    Forall (fun b => 0 <= b < 256) bytes.

(** Register address and checksum fit in 16 bits. *)
Definition fits16 (p : Packet) : Prop :=
  0 <= lastPacketRegisterAddress p < 2 ^ 16
  /\ 0 <= lastPacketChecksum p < 2 ^ 16.

(** What [lastPacketData] holds after the bytes of [payload] have been
    appended to [text] one by one, as the [WAIT_DATA] branch does. *)
Definition payload_text (upper : bool) (payload : list Z) (text : string)
  : string :=
  fold_left (fun acc b => acc ++ "0x" ++ format_hex upper 2 b ++ " ")
    payload text.

(** The layout of the message [analyzer.formatResult] builds, by its
    parts: the category label, the command label of a Command, the device
    address where one was taken, the register address, the payload text. *)
Definition frame_message (category : string) (commandType : option string)
    (deviceAddress : option Z) (registerAddress : Z) (payload : string)
  : string :=
  category ++ " - "
  ++ from_option (fun c => c ++ " ") "" commandType
  ++ from_option (fun d => "Device: 0x" ++ format_hex true 4 d ++ " ") ""
       deviceAddress
  ++ "Register: 0x" ++ format_hex true 4 registerAddress
  ++ " Data: " ++ payload.

(** The dictionary of the frame [Hla.onReceived] builds, by its parts. *)
Definition frame_fields (frame_type command_type : string)
    (device_address register_address : Z) (register_data : string)
  : gmap string string :=
  <["frame_type" := frame_type]> (
  <["command_type" := command_type]> (
  <["device_address" := hex device_address]> (
  <["register_address" := hex register_address]> (
  <["register_data" := register_data]> ∅)))).

(** Two objects in [WAIT_INIT] with the same setting answer every frame
    alike, and afterwards are again alike or equal: what the packet
    attributes hold in [WAIT_INIT] is never read. *)
Definition analyzer_alike (s1 s2 : analyzer.decoder) : Prop :=
  s1 = s2 \/
  (analyzer.currentState s1 = analyzer.WAIT_INIT
   /\ analyzer.currentState s2 = analyzer.WAIT_INIT
   /\ analyzer.frame_timeout s1 = analyzer.frame_timeout s2).

Definition Hla_alike (s1 s2 : Hla.decoder) : Prop :=
  s1 = s2 \/
  (Hla.currentState s1 = Hla.WAIT_INIT
   /\ Hla.currentState s2 = Hla.WAIT_INIT
   /\ Hla.frame_timeout s1 = Hla.frame_timeout s2).

(** The packet attributes exist and [lastPacketTime] holds a time. *)
Definition started (p : option Packet) : Prop :=
  exists q T, p = Some q /\ lastPacketTime q = Some T.

(** The class attribute [result_types] of [analyzer]: the display format
    the host uses for a result, by the type of the result. *)
Definition analyzer_result_types : gmap string string :=
  <["frame" := "{{data.message}}"]> (
  <["error" := "Error - Reason: {{data.error_reason}}"]> ∅).

(** The class attribute [result_types] of [Hla]. *)
Definition Hla_result_types : gmap string string :=
  <["frame" := "{{data.frame_type}} - Type: {{data.command_type}}, Address: {{data.device_address}}, Register: {{data.register_address}}, Data: {{data.register_data}}"]> (
  <["error" := "Error - Reason: {{data.error_reason}}"]> ∅).

(** The number [Hla] uses for a state of [analyzer]: the value of the
    member of [TransferState]. *)
Definition state_value (s : analyzer.TransferState) : Z :=
  match s with
  | analyzer.WAIT_INIT => 0
  | analyzer.WAIT_DEV_ADDR => 1
  | analyzer.WAIT_REG_ADDR_1 => 2
  | analyzer.WAIT_REG_ADDR_2 => 3
  | analyzer.WAIT_DATA => 4
  | analyzer.WAIT_CRC_1 => 5
  | analyzer.WAIT_CRC_2 => 6
  end.

(** The remaining-payload counter against the state, given as its number:
    between 0 and 128, at least 1 until the payload is complete, 0 while
    the checksum is awaited. *)
Definition counter_ok (state : Z) (p : Packet) : Prop :=
  0 <= lastPacketDataSize p <= 128
  /\ (1 <= state <= 4 -> 1 <= lastPacketDataSize p)
  /\ (5 <= state <= 6 -> lastPacketDataSize p = 0).

(** Two packets that differ at most in the payload text. *)
Definition same_fields (p q : Packet) : Prop :=
  set_lastPacketData "" p = set_lastPacketData "" q.

(** What the header branch leaves in the type and the command type of a
    packet: a Command with a command type within the mask, or a Response
    with the command type [0] of [initPacket]. *)
Definition header_fields (p : Packet) : Prop :=
  (lastPacketType p = COMMAND_FRAME
   /\ Z.land (lastPacketCommandType p) REQ_TYPE_MASK = lastPacketCommandType p)
  \/ (lastPacketType p = RESPONSE_FRAME /\ lastPacketCommandType p = 0).

(** An object of [analyzer] and one of [Hla] in the same state, with
    packets that hold the same but for the payload text. *)
Definition variants_agree (a : analyzer.decoder) (h : Hla.decoder) : Prop :=
  Hla.currentState h = state_value (analyzer.currentState a)
  /\ match analyzer.packet a, Hla.packet h with
     | None, None => True
     | Some p, Some q => same_fields p q /\ header_fields p
     | _, _ => False
     end.

(** The same outcome, up to the dictionary of a result: both [None], or
    results of the same type over the same span, or the same exception. *)
Definition same_outcome (o1 o2 : outcome) : Prop :=
  match o1, o2 with
  | Returns None, Returns None => True
  | Returns (Some r1), Returns (Some r2) =>
      type r1 = type r2 /\ start_time r1 = start_time r2
      /\ end_time r1 = end_time r2
  | Raises e1, Raises e2 => e1 = e2
  | _, _ => False
  end.

(** Does [s] have [p] as a substring? *)
Fixpoint contains (p s : string) : bool :=
  String.prefix p s ||
  match s with
  | EmptyString => false
  | String _ s' => contains p s'
  end.

(** Is [c] one of the characters of [s]? *)
Fixpoint occurs (c : ascii) (s : string) : bool :=
  match s with
  | EmptyString => false
  | String c' s' => Ascii.eqb c c' || occurs c s'
  end.

(** * Number formatting on examples *)

Example format_hex_2a : format_hex true 4 0x2a = "002A".
Proof. reflexivity. Qed.
Example format_hex_ff : format_hex false 2 0xff = "ff".
Proof. reflexivity. Qed.
Example format_hex_0 : format_hex true 4 0 = "0000".
Proof. reflexivity. Qed.
Example format_hex_neg : format_hex true 4 (-1) = "-001".
Proof. reflexivity. Qed.
Example format_hex_wide : format_hex true 4 0x12345 = "12345".
Proof. reflexivity. Qed.
Example hex_2a : hex 0x2a = "0x2a".
Proof. reflexivity. Qed.

(** * Bit-level facts about the header masks *)

Section Bits.

Lemma land_FRAME_TYPE_MASK (b : Z) :
  Z.land b FRAME_TYPE_MASK = if Z.testbit b 7 then COMMAND_FRAME else RESPONSE_FRAME.
Proof.
  unfold FRAME_TYPE_MASK, COMMAND_FRAME, RESPONSE_FRAME.
  change 0x80 with (2 ^ 7).
  apply Z.bits_inj'; intros n Hn.
  rewrite Z.land_spec, Z.pow2_bits_eqb by lia.
  destruct (Z.eqb_spec 7 n) as [<-|Hne].
  - rewrite andb_true_r. destruct (Z.testbit b 7) eqn:E; [|done].
    by rewrite Z.pow2_bits_true.
  - rewrite andb_false_r. destruct (Z.testbit b 7).
    + by rewrite Z.pow2_bits_false.
    + by rewrite Z.bits_0.
Qed.

Lemma is_command_testbit (b : Z) :
  (Z.land b FRAME_TYPE_MASK =? COMMAND_FRAME) = Z.testbit b 7.
Proof.
  rewrite land_FRAME_TYPE_MASK. by destruct (Z.testbit b 7).
Qed.

Lemma land_REQ_DATA_SIZE_MASK (b : Z) : Z.land b REQ_DATA_SIZE_MASK = b mod 8.
Proof. change REQ_DATA_SIZE_MASK with (Z.ones 3). by rewrite Z.land_ones. Qed.

Lemma land_RES_DATA_SIZE_MASK (b : Z) : Z.land b RES_DATA_SIZE_MASK = b mod 128.
Proof. change RES_DATA_SIZE_MASK with (Z.ones 7). by rewrite Z.land_ones. Qed.

(** The command type the code stores is bits 6-4 of the header, left in
    place: [16 * (bits 6-4 as a number)]. *)
Lemma land_REQ_TYPE_MASK (b : Z) :
  Z.land b REQ_TYPE_MASK = 16 * ((b / 16) mod 8).
Proof.
  change REQ_TYPE_MASK with (Z.shiftl (Z.ones 3) 4).
  change 16 with (2 ^ 4) at 2. rewrite <- Z.shiftr_div_pow2 by lia.
  change 8 with (2 ^ 3). rewrite <- Z.land_ones by lia.
  rewrite Z.mul_comm. change 16 with (2 ^ 4). rewrite <- Z.shiftl_mul_pow2 by lia.
  rewrite Z.shiftl_land.
  apply Z.bits_inj'; intros n Hn.
  rewrite !Z.land_spec.
  destruct (Z.lt_ge_cases n 4).
  - by rewrite (Z.shiftl_spec_low (Z.ones 3)), !andb_false_r.
  - rewrite (Z.shiftl_spec (Z.shiftr b 4)), Z.shiftr_spec by lia.
    by replace (n - 4 + 4) with n by lia.
Qed.

(** The header bits say which of the eight command patterns it is. *)
Lemma REQ_TYPE_MASK_cases (h : Z) :
  let cmd := Z.land h REQ_TYPE_MASK in
  cmd = SINGLE_DEVICE_READ \/ cmd = SINGLE_DEVICE_WRITE \/ cmd = STACK_READ
  \/ cmd = STACK_WRITE \/ cmd = BROADCAST_READ \/ cmd = BROADCAST_WRITE
  \/ cmd = BROADCAST_WRITE_REVERSE \/ cmd = 0x70.
Proof.
  intros cmd. subst cmd. rewrite land_REQ_TYPE_MASK.
  pose proof (Z.mod_pos_bound (h / 16) 8 ltac:(lia)).
  unfold SINGLE_DEVICE_READ, SINGLE_DEVICE_WRITE, STACK_READ, STACK_WRITE,
    BROADCAST_READ, BROADCAST_WRITE, BROADCAST_WRITE_REVERSE. lia.
Qed.

(** The one pattern without an entry in [COMMAND_TYPE_MAP] is [0x70]. *)
Lemma unknown_command_pattern (h : Z) :
  COMMAND_TYPE_MAP !! Z.land h REQ_TYPE_MASK = None <->
  Z.land h REQ_TYPE_MASK = 0x70.
Proof.
  split; [|by intros ->].
  destruct (REQ_TYPE_MASK_cases h) as [Hc|[Hc|[Hc|[Hc|[Hc|[Hc|[Hc|Hc]]]]]]];
    rewrite Hc; done.
Qed.

Lemma lor_bound (a b n : Z) :
  0 <= n -> 0 <= a < 2 ^ n -> 0 <= b < 2 ^ n -> 0 <= Z.lor a b < 2 ^ n.
Proof.
  intros Hn Ha Hb. split; [apply Z.lor_nonneg; lia|].
  destruct (Z.eq_dec a 0) as [->|Ha0]; [rewrite Z.lor_0_l; lia|].
  destruct (Z.eq_dec b 0) as [->|Hb0]; [rewrite Z.lor_0_r; lia|].
  assert (0 < Z.lor a b).
  { pose proof (proj2 (Z.lor_nonneg a b) (conj (proj1 Ha) (proj1 Hb))).
    destruct (Z.eq_dec (Z.lor a b) 0) as [E|]; [|lia].
    apply Z.lor_eq_0_iff in E. lia. }
  apply Z.log2_lt_pow2; [done|].
  rewrite Z.log2_lor by lia.
  apply Z.max_lub_lt; apply Z.log2_lt_pow2; lia.
Qed.

Lemma shiftl8_bound (b : Z) : 0 <= b < 256 -> 0 <= Z.shiftl b 8 < 2 ^ 16.
Proof. intros Hb. rewrite Z.shiftl_mul_pow2 by lia. lia. Qed.

End Bits.

(** [a < b] as the code tests it, against the order on [Q]. *)
Lemma time_lt_spec (a b : Q) : time_lt a b = true <-> (a < b)%Q.
Proof.
  unfold time_lt. rewrite negb_true_iff, <- not_true_iff_false, Qle_bool_iff.
  split; [apply Qnot_le_lt | apply Qlt_not_le].
Qed.

Lemma time_lt_false (a b : Q) : time_lt a b = false <-> (b <= a)%Q.
Proof.
  unfold time_lt. by rewrite negb_false_iff, Qle_bool_iff.
Qed.

(** * What a single call does *)

#[local] Arguments Z.testbit : simpl never.
#[local] Arguments Z.land : simpl never.
#[local] Arguments Z.lor : simpl never.
#[local] Arguments Z.shiftl : simpl never.
#[local] Arguments Qplus : simpl never.
#[local] Arguments Qle_bool : simpl never.
#[local] Arguments String.append !_ _ / : simpl nomatch.

(** The first branch of the loop body: a byte met in [WAIT_INIT] is a
    header, whatever the packet attributes and [result] hold. *)
Lemma analyzer_header_byte (self : analyzer.decoder) (frame : InFrame)
    (byte : Z) (result : option OutFrame) :
  analyzer.currentState self = analyzer.WAIT_INIT ->
  analyzer.on_byte frame byte self result =
    (Return None,
     analyzer.mkDecoder (analyzer.frame_timeout self)
       (if Z.testbit byte 7 &&
           negb (bool_decide (Z.land byte REQ_TYPE_MASK = SINGLE_DEVICE_READ
                              \/ Z.land byte REQ_TYPE_MASK = SINGLE_DEVICE_WRITE))
        then analyzer.WAIT_REG_ADDR_1 else analyzer.WAIT_DEV_ADDR)
       (Some (if Z.testbit byte 7
              then mkPacket COMMAND_FRAME (Some (start_time frame)) 0 ""
                     (Z.land byte REQ_DATA_SIZE_MASK + 1)
                     (Z.land byte REQ_TYPE_MASK) 0 0
              else mkPacket RESPONSE_FRAME (Some (start_time frame)) 0 ""
                     (Z.land byte RES_DATA_SIZE_MASK + 1) 0 0 0))).
Proof.
  intros Hs. unfold analyzer.on_byte. rewrite Hs, is_command_testbit.
  destruct (Z.testbit byte 7); simpl; [|done].
  case_bool_decide as Hc.
  - destruct Hc as [-> | ->]; done.
  - destruct (Z.eqb_spec (Z.land byte REQ_TYPE_MASK) SINGLE_DEVICE_READ);
      destruct (Z.eqb_spec (Z.land byte REQ_TYPE_MASK) SINGLE_DEVICE_WRITE);
      simpl; tauto || done.
Qed.

(** A call that starts in [WAIT_INIT] with at least one byte: only the
    first byte is looked at, and it is taken as a header. *)
Lemma analyzer_header_step (self : analyzer.decoder) (frame : InFrame)
    (byte : Z) (rest : list Z) :
  analyzer.currentState self = analyzer.WAIT_INIT ->
  get_data frame = Some (byte :: rest) ->
  analyzer.onReceived self frame =
    (Returns None,
     analyzer.mkDecoder (analyzer.frame_timeout self)
       (if Z.testbit byte 7 &&
           negb (bool_decide (Z.land byte REQ_TYPE_MASK = SINGLE_DEVICE_READ
                              \/ Z.land byte REQ_TYPE_MASK = SINGLE_DEVICE_WRITE))
        then analyzer.WAIT_REG_ADDR_1 else analyzer.WAIT_DEV_ADDR)
       (Some (if Z.testbit byte 7
              then mkPacket COMMAND_FRAME (Some (start_time frame)) 0 ""
                     (Z.land byte REQ_DATA_SIZE_MASK + 1)
                     (Z.land byte REQ_TYPE_MASK) 0 0
              else mkPacket RESPONSE_FRAME (Some (start_time frame)) 0 ""
                     (Z.land byte RES_DATA_SIZE_MASK + 1) 0 0 0))).
Proof.
  intros Hs Hd. unfold analyzer.onReceived. rewrite Hd, Hs.
  cbn [bool_decide decide_rel analyzer.for_byte_in].
  by rewrite (analyzer_header_byte self frame byte None Hs).
Qed.

Lemma Hla_header_byte (self : Hla.decoder) (frame : InFrame) (byte : Z) :
  Hla.currentState self = Hla.WAIT_INIT ->
  Hla.on_byte frame byte self =
    (Return None,
     Hla.mkDecoder (Hla.frame_timeout self)
       (if Z.testbit byte 7 &&
           negb (bool_decide (Z.land byte REQ_TYPE_MASK = SINGLE_DEVICE_READ
                              \/ Z.land byte REQ_TYPE_MASK = SINGLE_DEVICE_WRITE))
        then Hla.WAIT_REG_ADDR_1 else Hla.WAIT_DEV_ADDR)
       (Some (if Z.testbit byte 7
              then mkPacket COMMAND_FRAME (Some (start_time frame)) 0 ""
                     (Z.land byte REQ_DATA_SIZE_MASK + 1)
                     (Z.land byte REQ_TYPE_MASK) 0 0
              else mkPacket RESPONSE_FRAME (Some (start_time frame)) 0 ""
                     (Z.land byte RES_DATA_SIZE_MASK + 1) 0 0 0))).
Proof.
  intros Hs. unfold Hla.on_byte. rewrite Hs, is_command_testbit. simpl.
  destruct (Z.testbit byte 7); simpl; [|done].
  case_bool_decide as Hc.
  - destruct Hc as [-> | ->]; done.
  - destruct (Z.eqb_spec (Z.land byte REQ_TYPE_MASK) SINGLE_DEVICE_READ);
      destruct (Z.eqb_spec (Z.land byte REQ_TYPE_MASK) SINGLE_DEVICE_WRITE);
      simpl; tauto || done.
Qed.

Lemma Hla_header_step (self : Hla.decoder) (frame : InFrame)
    (byte : Z) (rest : list Z) :
  Hla.currentState self = Hla.WAIT_INIT ->
  get_data frame = Some (byte :: rest) ->
  Hla.onReceived self frame =
    (Returns None,
     Hla.mkDecoder (Hla.frame_timeout self)
       (if Z.testbit byte 7 &&
           negb (bool_decide (Z.land byte REQ_TYPE_MASK = SINGLE_DEVICE_READ
                              \/ Z.land byte REQ_TYPE_MASK = SINGLE_DEVICE_WRITE))
        then Hla.WAIT_REG_ADDR_1 else Hla.WAIT_DEV_ADDR)
       (Some (if Z.testbit byte 7
              then mkPacket COMMAND_FRAME (Some (start_time frame)) 0 ""
                     (Z.land byte REQ_DATA_SIZE_MASK + 1)
                     (Z.land byte REQ_TYPE_MASK) 0 0
              else mkPacket RESPONSE_FRAME (Some (start_time frame)) 0 ""
                     (Z.land byte RES_DATA_SIZE_MASK + 1) 0 0 0))).
Proof.
  intros Hs Hd. unfold Hla.onReceived. rewrite Hd, Hs.
  cbn [negb Z.eqb Hla.WAIT_INIT Hla.for_byte_in].
  by rewrite (Hla_header_byte self frame byte Hs).
Qed.

(** The timeout check of [analyzer.onReceived]: it fires exactly when
    [lastPacketTime + frame_timeout < end_time], and then nothing else
    happens in the call. *)
Lemma analyzer_timeout_fires (self : analyzer.decoder) (frame : InFrame)
    (bytes : list Z) (p : Packet) (T : Q) :
  get_data frame = Some bytes ->
  analyzer.currentState self <> analyzer.WAIT_INIT ->
  analyzer.packet self = Some p ->
  lastPacketTime p = Some T ->
  (T + analyzer.frame_timeout self < end_time frame)%Q ->
  analyzer.onReceived self frame =
    (Returns (Some (timeout_frame T (end_time frame))),
     analyzer.set_currentState analyzer.WAIT_INIT self).
Proof.
  intros Hd Hs Hp HT Hlt. unfold analyzer.onReceived.
  rewrite Hd, Hp, HT. rewrite bool_decide_eq_true_2 by done.
  by rewrite (proj2 (time_lt_spec _ _) Hlt).
Qed.

Lemma analyzer_no_timeout (self : analyzer.decoder) (frame : InFrame)
    (bytes : list Z) (p : Packet) (T : Q) :
  get_data frame = Some bytes ->
  analyzer.packet self = Some p ->
  lastPacketTime p = Some T ->
  (end_time frame <= T + analyzer.frame_timeout self)%Q ->
  analyzer.onReceived self frame = analyzer.for_byte_in frame bytes self None.
Proof.
  intros Hd Hp HT Hle. unfold analyzer.onReceived.
  rewrite Hd, Hp, HT. rewrite (proj2 (time_lt_false _ _) Hle).
  by case_bool_decide.
Qed.

(** The same check in [Hla.onReceived], against the literal [0.01]. *)
Lemma Hla_timeout_fires (self : Hla.decoder) (frame : InFrame)
    (bytes : list Z) (p : Packet) (T : Q) :
  get_data frame = Some bytes ->
  Hla.currentState self <> Hla.WAIT_INIT ->
  Hla.packet self = Some p ->
  lastPacketTime p = Some T ->
  (T + (1 # 100) < end_time frame)%Q ->
  Hla.onReceived self frame =
    (Returns (Some (timeout_frame T (end_time frame))),
     Hla.set_currentState Hla.WAIT_INIT self).
Proof.
  intros Hd Hs Hp HT Hlt. unfold Hla.onReceived.
  rewrite Hd, Hp, HT. apply Z.eqb_neq in Hs. rewrite Hs. simpl.
  by rewrite (proj2 (time_lt_spec _ _) Hlt).
Qed.

Lemma Hla_no_timeout (self : Hla.decoder) (frame : InFrame)
    (bytes : list Z) (p : Packet) (T : Q) :
  get_data frame = Some bytes ->
  Hla.packet self = Some p ->
  lastPacketTime p = Some T ->
  (end_time frame <= T + (1 # 100))%Q ->
  Hla.onReceived self frame = Hla.for_byte_in frame bytes self.
Proof.
  intros Hd Hp HT Hle. unfold Hla.onReceived.
  rewrite Hd, Hp, HT. rewrite (proj2 (time_lt_false _ _) Hle).
  by destruct (negb _).
Qed.

(** [frame_timeout] is read nowhere in [Hla]: two objects that differ
    only in it do the same. *)
Lemma Hla_ignores_frame_timeout (D1 D2 : Q) (s : Z) (p : option Packet)
    (frame : InFrame) :
  (Hla.onReceived (Hla.mkDecoder D1 s p) frame).1 =
  (Hla.onReceived (Hla.mkDecoder D2 s p) frame).1.
Proof.
  unfold Hla.onReceived. destruct (get_data frame) as [bytes|]; [|done].
  assert (Hloop : (Hla.for_byte_in frame bytes (Hla.mkDecoder D1 s p)).1 =
                  (Hla.for_byte_in frame bytes (Hla.mkDecoder D2 s p)).1).
  { revert s p. induction bytes as [|b bytes IH]; intros s p; [done|].
    simpl. unfold Hla.on_byte, Hla.with_packet; simpl.
    repeat (case_match; simplify_eq/=; try done). }
  simpl. repeat (case_match; simplify_eq/=; try done).
Qed.

(** Only the first byte of a chunk is looked at, in [analyzer] unless the
    call starts in [WAIT_CRC_2] ... *)
Lemma analyzer_only_first_byte (frame : InFrame) (self : analyzer.decoder)
    (byte : Z) (rest : list Z) (result : option OutFrame) :
  analyzer.currentState self <> analyzer.WAIT_CRC_2 ->
  analyzer.for_byte_in frame (byte :: rest) self result =
  analyzer.for_byte_in frame [byte] self result.
Proof.
  intros Hs. simpl. unfold analyzer.on_byte, analyzer.with_packet.
  destruct (analyzer.currentState self); try done;
    repeat (case_match; simplify_eq/=; try done).
Qed.

(** ... and in [Hla] in each of its seven states. *)
Lemma Hla_only_first_byte (frame : InFrame) (self : Hla.decoder)
    (byte : Z) (rest : list Z) :
  0 <= Hla.currentState self <= 6 ->
  Hla.for_byte_in frame (byte :: rest) self =
  Hla.for_byte_in frame [byte] self.
Proof.
  intros Hs. simpl. unfold Hla.on_byte, Hla.with_packet.
  unfold Hla.WAIT_INIT, Hla.WAIT_DEV_ADDR, Hla.WAIT_REG_ADDR_1,
    Hla.WAIT_REG_ADDR_2, Hla.WAIT_DATA, Hla.WAIT_CRC_1, Hla.WAIT_CRC_2.
  repeat (case_match; simplify_eq/=; try done); lia.
Qed.

(** In [analyzer], a header byte that follows the last checksum byte in
    the same chunk makes the call return [None]: the frame built for the
    checksum byte is lost. *)
Lemma analyzer_frame_lost (frame : InFrame) (self : analyzer.decoder)
    (p : Packet) (byte header : Z) (rest : list Z) (r : OutFrame) :
  analyzer.currentState self = analyzer.WAIT_CRC_2 ->
  analyzer.packet self = Some p ->
  (analyzer.for_byte_in frame [byte] self None).1 = Returns (Some r) ->
  (analyzer.for_byte_in frame (byte :: header :: rest) self None).1 = Returns None.
Proof.
  intros Hs Hp. simpl. unfold analyzer.on_byte, analyzer.with_packet.
  rewrite Hs, Hp; simpl.
  destruct (analyzer.formatResult _ _); simpl; [done|].
  intros _. by destruct (Z.land header FRAME_TYPE_MASK =? COMMAND_FRAME).
Qed.

(** Every frame a call returns is the timeout error or has type
    ['frame']: the code builds no other result. *)
Lemma analyzer_formatResult_type (self : analyzer.decoder) (frame : InFrame)
    (r : OutFrame) :
  analyzer.formatResult self frame = inr r -> type r = "frame".
Proof.
  unfold analyzer.formatResult. destruct (analyzer.packet self) as [p|]; [|done].
  unfold getitem. intros H.
  repeat (case_match; simplify_eq/=; try done).
Qed.

Lemma analyzer_loop_result (frame : InFrame) (bytes : list Z)
    (self self' : analyzer.decoder) (result : option OutFrame) (r : OutFrame) :
  (forall r0, result = Some r0 -> type r0 = "frame") ->
  analyzer.for_byte_in frame bytes self result = (Returns (Some r), self') ->
  type r = "frame".
Proof.
  revert self result. induction bytes as [|b bytes IH]; intros self result Hres; simpl.
  - intros [= -> ->]. by apply Hres.
  - destruct (analyzer.on_byte frame b self result) as [fl s1] eqn:E.
    unfold analyzer.on_byte, analyzer.with_packet in E.
    destruct fl as [r1|result1|e]; [| |done].
    + intros [= -> ->].
      repeat (case_match; simplify_eq/=; try done).
    + apply IH. intros r0 ->.
      repeat (case_match; simplify_eq/=; try done).
      by eapply analyzer_formatResult_type.
Qed.

Lemma analyzer_results (self self' : analyzer.decoder) (frame : InFrame)
    (r : OutFrame) :
  analyzer.onReceived self frame = (Returns (Some r), self') ->
  type r = "frame" \/ exists T, r = timeout_frame T (end_time frame).
Proof.
  unfold analyzer.onReceived. destruct (get_data frame) as [bytes|]; [|done].
  assert (Hloop : analyzer.for_byte_in frame bytes self None = (Returns (Some r), self')
                  -> type r = "frame")
    by (apply analyzer_loop_result; done).
  simpl. repeat (case_match; simplify_eq/=; try done); eauto.
  intros [= <- <-]. eauto.
Qed.

Lemma Hla_frame_result_type (p : Packet) (frame : InFrame) (r : OutFrame) :
  Hla.frame_result p frame = inr r -> type r = "frame".
Proof.
  unfold Hla.frame_result, getitem. intros H.
  repeat (case_match; simplify_eq/=; try done).
Qed.

Lemma Hla_loop_result (frame : InFrame) (bytes : list Z)
    (self self' : Hla.decoder) (r : OutFrame) :
  Hla.for_byte_in frame bytes self = (Returns (Some r), self') ->
  type r = "frame".
Proof.
  revert self. induction bytes as [|b bytes IH]; intros self; simpl; [done|].
  destruct (Hla.on_byte frame b self) as [fl s1] eqn:E.
  unfold Hla.on_byte, Hla.with_packet in E.
  destruct fl as [r1|result1|e]; [|by apply IH|done].
  intros [= -> ->].
  repeat (case_match; simplify_eq/=; try done).
  by eapply Hla_frame_result_type.
Qed.

Lemma Hla_results (self self' : Hla.decoder) (frame : InFrame) (r : OutFrame) :
  Hla.onReceived self frame = (Returns (Some r), self') ->
  type r = "frame" \/ exists T, r = timeout_frame T (end_time frame).
Proof.
  unfold Hla.onReceived. destruct (get_data frame) as [bytes|]; [|done].
  pose proof (Hla_loop_result frame bytes self self' r) as Hloop.
  simpl. repeat (case_match; simplify_eq/=; try done); eauto.
  intros [= <- <-]. eauto.
Qed.

(** * The claims about a single call *)

(** C1, at a chunk of two bytes.  A new object is handed one data frame
    carrying the header [0x90] (Single Device Write, one payload byte)
    followed by the device address [0x05].  Both classes do exactly what
    they do on the header alone: they stop in [WAIT_DEV_ADDR] with the
    device address still [0]; the second byte is never looked at. *)
Theorem chunk_of_two_bytes_second_dropped :
  analyzer.onReceived (analyzer.init 1) (chunk [0x90; 0x05] 0 1) =
    analyzer.onReceived (analyzer.init 1) (chunk [0x90] 0 1) /\
  analyzer.onReceived (analyzer.init 1) (chunk [0x90; 0x05] 0 1) =
    (Returns None,
     analyzer.mkDecoder 1 analyzer.WAIT_DEV_ADDR
       (Some (mkPacket COMMAND_FRAME (Some 0%Q) 0 "" 1 SINGLE_DEVICE_WRITE 0 0))) /\
  Hla.onReceived (Hla.init 1) (chunk [0x90; 0x05] 0 1) =
    Hla.onReceived (Hla.init 1) (chunk [0x90] 0 1) /\
  Hla.onReceived (Hla.init 1) (chunk [0x90; 0x05] 0 1) =
    (Returns None,
     Hla.mkDecoder 1 Hla.WAIT_DEV_ADDR
       (Some (mkPacket COMMAND_FRAME (Some 0%Q) 0 "" 1 SINGLE_DEVICE_WRITE 0 0))).
Proof. repeat split; reflexivity. Qed.

(** C2 as stated fails: the header [0xF0] is a Command header whose
    command bits [0x70] are in no entry of [COMMAND_TYPE_MAP], and on it a
    new object returns no result at all and leaves [WAIT_INIT] for
    [WAIT_REG_ADDR_1]. *)
Lemma unknown_command_header_no_error :
  Z.testbit 0xF0 7 = true /\
  COMMAND_TYPE_MAP !! Z.land 0xF0 REQ_TYPE_MASK = None /\
  (analyzer.onReceived (analyzer.init 1) (chunk [0xF0] 0 1)).1 = Returns None /\
  analyzer.currentState (analyzer.onReceived (analyzer.init 1) (chunk [0xF0] 0 1)).2
    = analyzer.WAIT_REG_ADDR_1 /\
  (Hla.onReceived (Hla.init 1) (chunk [0xF0] 0 1)).1 = Returns None /\
  Hla.currentState (Hla.onReceived (Hla.init 1) (chunk [0xF0] 0 1)).2
    = Hla.WAIT_REG_ADDR_1.
Proof. repeat split; reflexivity. Qed.

(** C2, amended.  A Command header whose command bits are in no entry
    of the table (they are then the pattern [0x70]) is taken like the
    header of a Stack or Broadcast command: the call returns no result,
    the packet is started with command type [0x70] and payload length
    (bits 2-0)+1, and the next state is [WAIT_REG_ADDR_1].  The only error
    result either class ever returns is the Transfer Timeout one. *)
Theorem unknown_command_header_accepted (frame : InFrame) (byte : Z)
    (rest : list Z) :
  get_data frame = Some (byte :: rest) ->
  Z.testbit byte 7 = true ->
  COMMAND_TYPE_MAP !! Z.land byte REQ_TYPE_MASK = None ->
  Z.land byte REQ_TYPE_MASK = 0x70 /\
  (forall self, analyzer.currentState self = analyzer.WAIT_INIT ->
     analyzer.onReceived self frame =
       (Returns None,
        analyzer.mkDecoder (analyzer.frame_timeout self) analyzer.WAIT_REG_ADDR_1
          (Some (mkPacket COMMAND_FRAME (Some (start_time frame)) 0 ""
                   (byte mod 8 + 1) 0x70 0 0)))) /\
  (forall self, Hla.currentState self = Hla.WAIT_INIT ->
     Hla.onReceived self frame =
       (Returns None,
        Hla.mkDecoder (Hla.frame_timeout self) Hla.WAIT_REG_ADDR_1
          (Some (mkPacket COMMAND_FRAME (Some (start_time frame)) 0 ""
                   (byte mod 8 + 1) 0x70 0 0)))) /\
  (forall self f r self',
     analyzer.onReceived self f = (Returns (Some r), self') ->
     type r = "frame" \/ exists T, r = timeout_frame T (end_time f)) /\
  (forall self f r self',
     Hla.onReceived self f = (Returns (Some r), self') ->
     type r = "frame" \/ exists T, r = timeout_frame T (end_time f)).
Proof.
  intros Hd Hbit Hcmd. apply unknown_command_pattern in Hcmd.
  split; [done|]. split; [|split; [|split]].
  - intros self Hs. rewrite (analyzer_header_step self frame byte rest Hs Hd).
    rewrite Hbit, Hcmd, land_REQ_DATA_SIZE_MASK. done.
  - intros self Hs. rewrite (Hla_header_step self frame byte rest Hs Hd).
    rewrite Hbit, Hcmd, land_REQ_DATA_SIZE_MASK. done.
  - intros self f r self'. apply analyzer_results.
  - intros self f r self'. apply Hla_results.
Qed.

Lemma unknown_command_header_accepted_witness :
  get_data (chunk [0xF3] 0 1) = Some [0xF3] /\
  Z.testbit 0xF3 7 = true /\
  COMMAND_TYPE_MAP !! Z.land 0xF3 REQ_TYPE_MASK = None /\
  analyzer.onReceived (analyzer.init 1) (chunk [0xF3] 0 1) =
    (Returns None,
     analyzer.mkDecoder 1 analyzer.WAIT_REG_ADDR_1
       (Some (mkPacket COMMAND_FRAME (Some 0%Q) 0 "" 4 0x70 0 0))).
Proof.
  do 3 (split; [reflexivity|]).
  apply (proj1 (proj2 (unknown_command_header_accepted
                         (chunk [0xF3] 0 1) 0xF3 [] eq_refl eq_refl eq_refl))
           (analyzer.init 1) eq_refl).
Defined.

(** The lookup of the label is only made when the last checksum byte
    arrives: for command type [0x70] it raises [KeyError], after the state
    has been set back to [WAIT_INIT]. *)
Lemma unknown_command_raises_at_checksum :
  (analyzer.run (analyzer.init 1)
     [chunk [0xF0] 0 0; chunk [0x01] 0 0; chunk [0x00] 0 0; chunk [0xAA] 0 0;
      chunk [0x00] 0 0; chunk [0x00] 0 0]).1
  = [Returns None; Returns None; Returns None; Returns None; Returns None;
     Raises KeyError] /\
  (Hla.run (Hla.init 1)
     [chunk [0xF0] 0 0; chunk [0x01] 0 0; chunk [0x00] 0 0; chunk [0xAA] 0 0;
      chunk [0x00] 0 0; chunk [0x00] 0 0]).1
  = [Returns None; Returns None; Returns None; Returns None; Returns None;
     Raises KeyError].
Proof. split; reflexivity. Qed.

(** C3, at a configured timeout of one second.  An [Hla] object whose
    [frame_timeout] is [1] has taken a header at time [0]; the next chunk
    ends at [1/2], well within the configured second, and is answered with
    Transfer Timeout all the same: the bound compared is [0.01]. *)
Theorem Hla_timeout_bound_not_configured :
  let self := (Hla.onReceived (Hla.init 1) (chunk [0x90] 0 (1 # 1000))).2 in
  let frame := chunk [0x05] (499 # 1000) (1 # 2) in
  Hla.frame_timeout self = 1%Q /\
  Hla.currentState self = Hla.WAIT_DEV_ADDR /\
  (end_time frame <= 0 + Hla.frame_timeout self)%Q /\
  Hla.onReceived self frame =
    (Returns (Some (timeout_frame 0 (1 # 2))),
     Hla.set_currentState Hla.WAIT_INIT self).
Proof. repeat split; try reflexivity. by apply Qle_bool_iff. Qed.

(** In [analyzer] the bound is the setting, for every value of it. *)
Lemma analyzer_timeout_bound_configured (self : analyzer.decoder)
    (frame : InFrame) (bytes : list Z) (p : Packet) (T : Q) :
  get_data frame = Some bytes ->
  analyzer.currentState self <> analyzer.WAIT_INIT ->
  analyzer.packet self = Some p ->
  lastPacketTime p = Some T ->
  analyzer.onReceived self frame =
    if time_lt (T + analyzer.frame_timeout self)%Q (end_time frame)
    then (Returns (Some (timeout_frame T (end_time frame))),
          analyzer.set_currentState analyzer.WAIT_INIT self)
    else analyzer.for_byte_in frame bytes self None.
Proof.
  intros Hd Hs Hp HT. unfold analyzer.onReceived.
  rewrite Hd, Hp, HT. by rewrite bool_decide_eq_true_2.
Qed.

(** C4, at a configured timeout of zero.  An [Hla] object whose
    [frame_timeout] is [0] has taken a header at time [0]; the next chunk
    ends at [0.002], after [T + D = 0], and yet no Transfer Timeout is
    returned: the byte is stored as the device address. *)
Theorem Hla_no_timeout_after_configured_bound :
  let self := (Hla.onReceived (Hla.init 0) (chunk [0x90] 0 (1 # 1000))).2 in
  let frame := chunk [0x05] (1 # 1000) (2 # 1000) in
  Hla.frame_timeout self = 0%Q /\
  Hla.currentState self = Hla.WAIT_DEV_ADDR /\
  (0 + Hla.frame_timeout self < end_time frame)%Q /\
  Hla.onReceived self frame =
    (Returns None,
     Hla.mkDecoder 0 Hla.WAIT_REG_ADDR_1
       (Some (mkPacket COMMAND_FRAME (Some 0%Q) 0 "" 1 SINGLE_DEVICE_WRITE 0x05 0))).
Proof. repeat split; reflexivity. Qed.

(** C7.  A byte met in [WAIT_INIT] is taken as a header, by the loop
    body and so by a call that starts in [WAIT_INIT]: all packet
    attributes are re-initialised, [lastPacketTime] is the chunk's start
    time, and no result is returned.  With bit 7 set the packet is a
    Command, its command type is bits 6-4 (kept in place, that is 16 times
    their value), its payload length is (bits 2-0)+1, and the next state is
    [WAIT_DEV_ADDR] exactly for Single Device Read and Write,
    [WAIT_REG_ADDR_1] otherwise.  With bit 7 clear the packet is a
    Response, its payload length is (bits 6-0)+1 and the next state is
    [WAIT_DEV_ADDR]. *)
Theorem header_byte_transition (frame : InFrame) (byte : Z) :
  let command := 16 * ((byte / 16) mod 8) in
  let single :=
    bool_decide (command = SINGLE_DEVICE_READ \/ command = SINGLE_DEVICE_WRITE) in
  let p :=
    if Z.testbit byte 7
    then mkPacket COMMAND_FRAME (Some (start_time frame)) 0 ""
           (byte mod 8 + 1) command 0 0
    else mkPacket RESPONSE_FRAME (Some (start_time frame)) 0 ""
           (byte mod 128 + 1) 0 0 0 in
  (forall self result,
     analyzer.currentState self = analyzer.WAIT_INIT ->
     analyzer.on_byte frame byte self result =
       (Return None,
        analyzer.mkDecoder (analyzer.frame_timeout self)
          (if Z.testbit byte 7 && negb single
           then analyzer.WAIT_REG_ADDR_1 else analyzer.WAIT_DEV_ADDR)
          (Some p))) /\
  (forall self rest,
     analyzer.currentState self = analyzer.WAIT_INIT ->
     get_data frame = Some (byte :: rest) ->
     analyzer.onReceived self frame =
       (Returns None,
        analyzer.mkDecoder (analyzer.frame_timeout self)
          (if Z.testbit byte 7 && negb single
           then analyzer.WAIT_REG_ADDR_1 else analyzer.WAIT_DEV_ADDR)
          (Some p))) /\
  (forall self,
     Hla.currentState self = Hla.WAIT_INIT ->
     Hla.on_byte frame byte self =
       (Return None,
        Hla.mkDecoder (Hla.frame_timeout self)
          (if Z.testbit byte 7 && negb single
           then Hla.WAIT_REG_ADDR_1 else Hla.WAIT_DEV_ADDR)
          (Some p))) /\
  (forall self rest,
     Hla.currentState self = Hla.WAIT_INIT ->
     get_data frame = Some (byte :: rest) ->
     Hla.onReceived self frame =
       (Returns None,
        Hla.mkDecoder (Hla.frame_timeout self)
          (if Z.testbit byte 7 && negb single
           then Hla.WAIT_REG_ADDR_1 else Hla.WAIT_DEV_ADDR)
          (Some p))).
Proof.
  intros command single p. subst command single p.
  rewrite <- land_REQ_TYPE_MASK, <- land_REQ_DATA_SIZE_MASK,
    <- land_RES_DATA_SIZE_MASK.
  split; [|split; [|split]].
  - intros self result Hs. by apply analyzer_header_byte.
  - intros self rest Hs Hd. by eapply analyzer_header_step.
  - intros self Hs. by apply Hla_header_byte.
  - intros self rest Hs Hd. by eapply Hla_header_step.
Qed.

Lemma header_byte_transition_witness :
  analyzer.on_byte (chunk [0xA2] 3 4) 0xA2 (analyzer.init 1) None =
    (Return None,
     analyzer.mkDecoder 1 analyzer.WAIT_REG_ADDR_1
       (Some (mkPacket COMMAND_FRAME (Some 3%Q) 0 "" 3 STACK_READ 0 0))) /\
  get_data (chunk [0x05] 3 4) = Some [0x05] /\
  Hla.onReceived (Hla.init 1) (chunk [0x05] 3 4) =
    (Returns None,
     Hla.mkDecoder 1 Hla.WAIT_DEV_ADDR
       (Some (mkPacket RESPONSE_FRAME (Some 3%Q) 0 "" 6 0 0 0))).
Proof.
  split; [|split; [reflexivity|]].
  - apply (proj1 (header_byte_transition (chunk [0xA2] 3 4) 0xA2)
             (analyzer.init 1) None eq_refl).
  - apply (proj2 (proj2 (proj2 (header_byte_transition (chunk [0x05] 3 4) 0x05)))
             (Hla.init 1) [] eq_refl eq_refl).
Defined.

(** C9.  A frame whose type is not ['data'], or whose dictionary has an
    ['error'] key, or has no ['data'] entry, makes [decode] return [None]
    and leaves every attribute of the object as it was, whatever its state
    and however late the frame: the timeout check is not reached. *)
Theorem ignored_frame_changes_nothing (frame : InFrame) :
  type frame <> "data" \/ is_Some (data frame !! "error")
    \/ data frame !! "data" = None ->
  (forall self, analyzer.decode self frame = (Returns None, self)) /\
  (forall self, Hla.decode self frame = (Returns None, self)).
Proof.
  intros H. split; intros self.
  - unfold analyzer.decode.
    destruct (String.eqb_spec (type frame) "data") as [Ht|Ht]; simpl; [|done].
    case_bool_decide as He; [done|].
    destruct H as [H|[H|H]]; [done|done|].
    unfold analyzer.onReceived, get_data. by rewrite H.
  - unfold Hla.decode.
    destruct (String.eqb_spec (type frame) "data") as [Ht|Ht]; simpl; [|done].
    case_bool_decide as He; [done|].
    destruct H as [H|[H|H]]; [done|done|].
    unfold Hla.onReceived, get_data. by rewrite H.
Qed.

Lemma ignored_frame_changes_nothing_witness :
  let late : InFrame :=
    mkAnalyzerFrame "data" 100 101 (<["error" := None]> {["data" := Some [0x05]]}) in
  let self := (analyzer.decode (analyzer.init 0) (chunk [0x90] 0 1)).2 in
  is_Some (data late !! "error") /\
  analyzer.currentState self = analyzer.WAIT_DEV_ADDR /\
  analyzer.decode self late = (Returns None, self).
Proof.
  split; [by eexists|]. split; [reflexivity|].
  refine (proj1 (ignored_frame_changes_nothing _ (or_intror (or_introl _))) _).
  by eexists.
Defined.

(** * Whole frames, one byte per chunk *)

(** Normalise attribute assignments on an explicit object. *)
Ltac assign :=
  cbv [analyzer.set_currentState analyzer.set_packet analyzer.frame_timeout
       analyzer.currentState analyzer.packet
       Hla.set_currentState Hla.set_packet Hla.frame_timeout
       Hla.currentState Hla.packet
       set_lastPacketType set_lastPacketTime set_lastPacketChecksum
       set_lastPacketData set_lastPacketDataSize set_lastPacketCommandType
       set_lastPacketDeviceAddress set_lastPacketRegisterAddress
       lastPacketType lastPacketTime lastPacketChecksum lastPacketData
       lastPacketDataSize lastPacketCommandType lastPacketDeviceAddress
       lastPacketRegisterAddress].

Lemma analyzer_run_app (self : analyzer.decoder) (fs1 fs2 : list InFrame) :
  analyzer.run self (fs1 ++ fs2) =
    let '(o1, s1) := analyzer.run self fs1 in
    let '(o2, s2) := analyzer.run s1 fs2 in
    ((o1 ++ o2)%list, s2).
Proof.
  revert self. induction fs1 as [|f fs1 IH]; intros self; simpl.
  - by destruct (analyzer.run self fs2).
  - destruct (analyzer.decode self f) as [o s]. rewrite IH.
    destruct (analyzer.run s fs1) as [o1 s1].
    by destruct (analyzer.run s1 fs2).
Qed.

(** A one-byte chunk that arrives in time goes through the loop body. *)
Lemma analyzer_decode_one_byte (self : analyzer.decoder) (frame : InFrame)
    (b : Z) (p : Packet) (T : Q) :
  one_byte frame b ->
  analyzer.packet self = Some p ->
  lastPacketTime p = Some T ->
  within T (analyzer.frame_timeout self) frame ->
  analyzer.decode self frame = analyzer.for_byte_in frame [b] self None.
Proof.
  intros (Ht & He & Hd) Hp HT Hw.
  transitivity (analyzer.onReceived self frame);
    [|by eapply analyzer_no_timeout].
  unfold analyzer.decode. by rewrite Ht, He.
Qed.

Lemma analyzer_decode_in_progress (D T : Q) (s : analyzer.TransferState)
    (ty chk n cmd dev reg : Z) (text : string) (frame : InFrame) (b : Z) :
  one_byte frame b ->
  within T D frame ->
  let self := analyzer.mkDecoder D s
                (Some (mkPacket ty (Some T) chk text n cmd dev reg)) in
  analyzer.decode self frame = analyzer.for_byte_in frame [b] self None.
Proof.
  intros Hf Hw self.
  eapply analyzer_decode_one_byte; [done|reflexivity|reflexivity|done].
Qed.

Lemma analyzer_payload_run (D T : Q) (ty chk cmd dev reg : Z) (payload : list Z) :
  forall (fs : list InFrame) (text : string) (n : Z),
    Forall2 one_byte fs payload ->
    Forall (within T D) fs ->
    1 <= n -> n = Z.of_nat (length payload) ->
    analyzer.run
      (analyzer.mkDecoder D analyzer.WAIT_DATA
         (Some (mkPacket ty (Some T) chk text n cmd dev reg))) fs =
    (replicate (length payload) (Returns None),
     analyzer.mkDecoder D analyzer.WAIT_CRC_1
       (Some (mkPacket ty (Some T) chk (payload_text true payload text) 0
                cmd dev reg))).
Proof.
  induction payload as [|b payload IH]; intros fs text n H2 Hw Hn Hlen;
    [simpl in Hlen; lia|].
  apply Forall2_cons_inv_r in H2 as (f & fs' & Hf & H2 & ->).
  apply Forall_cons in Hw as [Hwf Hw].
  cbn [analyzer.run].
  rewrite (analyzer_decode_in_progress _ _ _ _ _ _ _ _ _ _ f b Hf Hwf).
  simpl. destruct payload as [|b' payload].
  - apply Forall2_nil_inv_r in H2 as ->. simpl in Hlen. subst n. done.
  - destruct (Z.leb_spec (n - 1) 0) as [Hle|Hgt];
      [simpl in Hlen; lia|].
    assign.
    rewrite (IH fs' _ (n - 1) H2 Hw) by (simpl in *; lia). done.
Qed.

Lemma analyzer_body_run (D T : Q) (ty chk0 n cmd dev reg0 rh rl ch cl : Z)
    (payload : list Z) (frh frl fch fcl : InFrame) (fpay : list InFrame) :
  one_byte frh rh -> one_byte frl rl ->
  Forall2 one_byte fpay payload ->
  one_byte fch ch -> one_byte fcl cl ->
  Forall (within T D) (frh :: frl :: (fpay ++ [fch; fcl])%list) ->
  1 <= n -> n = Z.of_nat (length payload) ->
  let final :=
    analyzer.mkDecoder D analyzer.WAIT_INIT
      (Some (mkPacket ty (Some T) (Z.lor (Z.shiftl ch 8) cl)
               (payload_text true payload "") 0 cmd dev
               (Z.lor (Z.shiftl rh 8) rl))) in
  analyzer.run
    (analyzer.mkDecoder D analyzer.WAIT_REG_ADDR_1
       (Some (mkPacket ty (Some T) chk0 "" n cmd dev reg0)))
    (frh :: frl :: (fpay ++ [fch; fcl])%list) =
  (Returns None :: Returns None ::
     (replicate (length payload) (Returns None)
      ++ [Returns None;
          match analyzer.formatResult final fcl with
          | inl e => Raises e
          | inr r => Returns (Some r)
          end])%list,
   final).
Proof.
  intros Hrh Hrl Hpay Hch Hcl Hw Hn Hlen final.
  apply Forall_cons in Hw as [Hwrh Hw]. apply Forall_cons in Hw as [Hwrl Hw].
  apply Forall_app in Hw as [Hwpay Hw].
  apply Forall_cons in Hw as [Hwch Hw]. apply Forall_cons in Hw as [Hwcl _].
  cbn [analyzer.run].
  rewrite (analyzer_decode_in_progress _ _ _ _ _ _ _ _ _ _ frh rh Hrh Hwrh). simpl; assign.
  rewrite (analyzer_decode_in_progress _ _ _ _ _ _ _ _ _ _ frl rl Hrl Hwrl). simpl; assign.
  rewrite analyzer_run_app.
  rewrite (analyzer_payload_run D T ty chk0 cmd dev _ payload fpay "" n Hpay Hwpay Hn Hlen).
  cbn [analyzer.run].
  rewrite (analyzer_decode_in_progress _ _ _ _ _ _ _ _ _ _ fch ch Hch Hwch). simpl; assign.
  rewrite (analyzer_decode_in_progress _ _ _ _ _ _ _ _ _ _ fcl cl Hcl Hwcl).
  cbn [analyzer.for_byte_in analyzer.on_byte analyzer.currentState
       analyzer.with_packet analyzer.packet].
  fold final.
  change (analyzer.set_currentState _ _) with final.
  by destruct (analyzer.formatResult final fcl).
Qed.

(** The same for [Hla], whose timeout bound is the literal [0.01]. *)

Lemma Hla_run_app (self : Hla.decoder) (fs1 fs2 : list InFrame) :
  Hla.run self (fs1 ++ fs2) =
    let '(o1, s1) := Hla.run self fs1 in
    let '(o2, s2) := Hla.run s1 fs2 in
    ((o1 ++ o2)%list, s2).
Proof.
  revert self. induction fs1 as [|f fs1 IH]; intros self; simpl.
  - by destruct (Hla.run self fs2).
  - destruct (Hla.decode self f) as [o s]. rewrite IH.
    destruct (Hla.run s fs1) as [o1 s1].
    by destruct (Hla.run s1 fs2).
Qed.

Lemma Hla_decode_one_byte (self : Hla.decoder) (frame : InFrame)
    (b : Z) (p : Packet) (T : Q) :
  one_byte frame b ->
  Hla.packet self = Some p ->
  lastPacketTime p = Some T ->
  within T (1 # 100) frame ->
  Hla.decode self frame = Hla.for_byte_in frame [b] self.
Proof.
  intros (Ht & He & Hd) Hp HT Hw.
  transitivity (Hla.onReceived self frame);
    [|by eapply Hla_no_timeout].
  unfold Hla.decode. by rewrite Ht, He.
Qed.

Lemma Hla_decode_in_progress (D T : Q) (s : Z)
    (ty chk n cmd dev reg : Z) (text : string) (frame : InFrame) (b : Z) :
  one_byte frame b ->
  within T (1 # 100) frame ->
  let self := Hla.mkDecoder D s
                (Some (mkPacket ty (Some T) chk text n cmd dev reg)) in
  Hla.decode self frame = Hla.for_byte_in frame [b] self.
Proof.
  intros Hf Hw self.
  eapply Hla_decode_one_byte; [done|reflexivity|reflexivity|done].
Qed.

Lemma Hla_payload_run (D T : Q) (ty chk cmd dev reg : Z) (payload : list Z) :
  forall (fs : list InFrame) (text : string) (n : Z),
    Forall2 one_byte fs payload ->
    Forall (within T (1 # 100)) fs ->
    1 <= n -> n = Z.of_nat (length payload) ->
    Hla.run
      (Hla.mkDecoder D Hla.WAIT_DATA
         (Some (mkPacket ty (Some T) chk text n cmd dev reg))) fs =
    (replicate (length payload) (Returns None),
     Hla.mkDecoder D Hla.WAIT_CRC_1
       (Some (mkPacket ty (Some T) chk (payload_text false payload text) 0
                cmd dev reg))).
Proof.
  induction payload as [|b payload IH]; intros fs text n H2 Hw Hn Hlen;
    [simpl in Hlen; lia|].
  apply Forall2_cons_inv_r in H2 as (f & fs' & Hf & H2 & ->).
  apply Forall_cons in Hw as [Hwf Hw].
  cbn [Hla.run].
  rewrite (Hla_decode_in_progress _ _ _ _ _ _ _ _ _ _ f b Hf Hwf).
  simpl. destruct payload as [|b' payload].
  - apply Forall2_nil_inv_r in H2 as ->. simpl in Hlen. subst n. done.
  - destruct (Z.leb_spec (n - 1) 0) as [Hle|Hgt];
      [simpl in Hlen; lia|].
    assign.
    rewrite (IH fs' _ (n - 1) H2 Hw) by (simpl in *; lia). done.
Qed.

Lemma Hla_body_run (D T : Q) (ty chk0 n cmd dev reg0 rh rl ch cl : Z)
    (payload : list Z) (frh frl fch fcl : InFrame) (fpay : list InFrame) :
  one_byte frh rh -> one_byte frl rl ->
  Forall2 one_byte fpay payload ->
  one_byte fch ch -> one_byte fcl cl ->
  Forall (within T (1 # 100)) (frh :: frl :: (fpay ++ [fch; fcl])%list) ->
  1 <= n -> n = Z.of_nat (length payload) ->
  let p :=
    mkPacket ty (Some T) (Z.lor (Z.shiftl ch 8) cl)
      (payload_text false payload "") 0 cmd dev (Z.lor (Z.shiftl rh 8) rl) in
  Hla.run
    (Hla.mkDecoder D Hla.WAIT_REG_ADDR_1
       (Some (mkPacket ty (Some T) chk0 "" n cmd dev reg0)))
    (frh :: frl :: (fpay ++ [fch; fcl])%list) =
  (Returns None :: Returns None ::
     (replicate (length payload) (Returns None)
      ++ [Returns None;
          match Hla.frame_result p fcl with
          | inl e => Raises e
          | inr r => Returns (Some r)
          end])%list,
   Hla.mkDecoder D Hla.WAIT_INIT (Some p)).
Proof.
  intros Hrh Hrl Hpay Hch Hcl Hw Hn Hlen p.
  apply Forall_cons in Hw as [Hwrh Hw]. apply Forall_cons in Hw as [Hwrl Hw].
  apply Forall_app in Hw as [Hwpay Hw].
  apply Forall_cons in Hw as [Hwch Hw]. apply Forall_cons in Hw as [Hwcl _].
  cbn [Hla.run].
  rewrite (Hla_decode_in_progress _ _ _ _ _ _ _ _ _ _ frh rh Hrh Hwrh). simpl; assign.
  rewrite (Hla_decode_in_progress _ _ _ _ _ _ _ _ _ _ frl rl Hrl Hwrl). simpl; assign.
  rewrite Hla_run_app.
  rewrite (Hla_payload_run D T ty chk0 cmd dev _ payload fpay "" n Hpay Hwpay Hn Hlen).
  cbn [Hla.run].
  rewrite (Hla_decode_in_progress _ _ _ _ _ _ _ _ _ _ fch ch Hch Hwch). simpl; assign.
  rewrite (Hla_decode_in_progress _ _ _ _ _ _ _ _ _ _ fcl cl Hcl Hwcl).
  cbn [Hla.for_byte_in Hla.on_byte Hla.currentState Hla.with_packet Hla.packet
       Z.eqb Hla.WAIT_CRC_2 Hla.WAIT_INIT Hla.WAIT_DEV_ADDR Hla.WAIT_REG_ADDR_1
       Hla.WAIT_REG_ADDR_2 Hla.WAIT_DATA Hla.WAIT_CRC_1 Pos.eqb].
  assign. fold p.
  by destruct (Hla.frame_result p fcl).
Qed.

(** One loop round on an explicit object. *)
Ltac byte_step :=
  cbv [analyzer.for_byte_in analyzer.on_byte analyzer.with_packet
       Hla.for_byte_in Hla.on_byte Hla.with_packet
       Hla.WAIT_INIT Hla.WAIT_DEV_ADDR Hla.WAIT_REG_ADDR_1 Hla.WAIT_REG_ADDR_2
       Hla.WAIT_DATA Hla.WAIT_CRC_1 Hla.WAIT_CRC_2 Z.eqb Pos.eqb
       analyzer.set_currentState analyzer.set_packet analyzer.frame_timeout
       analyzer.currentState analyzer.packet
       Hla.set_currentState Hla.set_packet Hla.frame_timeout
       Hla.currentState Hla.packet
       set_lastPacketType set_lastPacketTime set_lastPacketChecksum
       set_lastPacketData set_lastPacketDataSize set_lastPacketCommandType
       set_lastPacketDeviceAddress set_lastPacketRegisterAddress
       lastPacketType lastPacketTime lastPacketChecksum lastPacketData
       lastPacketDataSize lastPacketCommandType lastPacketDeviceAddress
       lastPacketRegisterAddress].

Lemma analyzer_run_cons (self : analyzer.decoder) (f : InFrame) (fs : list InFrame) :
  analyzer.run self (f :: fs) =
    let '(o, s) := analyzer.decode self f in
    let '(out, final) := analyzer.run s fs in (o :: out, final).
Proof. done. Qed.

Lemma Hla_run_cons (self : Hla.decoder) (f : InFrame) (fs : list InFrame) :
  Hla.run self (f :: fs) =
    let '(o, s) := Hla.decode self f in
    let '(out, final) := Hla.run s fs in (o :: out, final).
Proof. done. Qed.

(** [k] results [x] before and after [n] more are [n + k] of them. *)
Lemma replicate_around {A} (x : A) (n k : nat) (front back l : list A) :
  front = replicate (length front) x ->
  back = replicate (length back) x ->
  (length front + length back = k)%nat ->
  (front ++ replicate n x ++ back ++ l = replicate (k + n) x ++ l)%list.
Proof.
  intros -> -> <-. rewrite !length_replicate.
  rewrite !replicate_add, <- !app_assoc. f_equal.
  rewrite !app_assoc. f_equal.
  rewrite <- !replicate_add. f_equal. lia.
Qed.

Lemma analyzer_decode_data (self : analyzer.decoder) (frame : InFrame) (b : Z) :
  one_byte frame b -> analyzer.decode self frame = analyzer.onReceived self frame.
Proof. intros (Ht & He & Hd). unfold analyzer.decode. by rewrite Ht, He. Qed.

Lemma Hla_decode_data (self : Hla.decoder) (frame : InFrame) (b : Z) :
  one_byte frame b -> Hla.decode self frame = Hla.onReceived self frame.
Proof. intros (Ht & He & Hd). unfold Hla.decode. by rewrite Ht, He. Qed.

(** A whole frame of either category, fed to [analyzer] one byte per
    chunk from [WAIT_INIT], every chunk after the header ending within the
    timeout counted from the start of the header chunk: nothing is
    returned before the last checksum byte, on which [formatResult] is
    applied to the packet assembled from the bytes. *)
Lemma analyzer_frame_run (self : analyzer.decoder)
    (h dev rh rl ch cl : Z) (payload : list Z)
    (f0 frh frl fch fcl : InFrame) (fdevs fpay : list InFrame) :
  let is_cmd := Z.testbit h 7 in
  let cmd := if is_cmd then Z.land h REQ_TYPE_MASK else 0 in
  let needs_dev :=
    negb is_cmd || bool_decide (cmd = SINGLE_DEVICE_READ \/ cmd = SINGLE_DEVICE_WRITE) in
  let final :=
    analyzer.mkDecoder (analyzer.frame_timeout self) analyzer.WAIT_INIT
      (Some (mkPacket (if is_cmd then COMMAND_FRAME else RESPONSE_FRAME)
               (Some (start_time f0)) (Z.lor (Z.shiftl ch 8) cl)
               (payload_text true payload "") 0 cmd
               (if needs_dev then dev else 0)
               (Z.lor (Z.shiftl rh 8) rl))) in
  analyzer.currentState self = analyzer.WAIT_INIT ->
  Z.of_nat (length payload) =
    (if is_cmd then Z.land h REQ_DATA_SIZE_MASK + 1
     else Z.land h RES_DATA_SIZE_MASK + 1) ->
  one_byte f0 h ->
  Forall2 one_byte fdevs (if needs_dev then [dev] else []) ->
  one_byte frh rh -> one_byte frl rl ->
  Forall2 one_byte fpay payload ->
  one_byte fch ch -> one_byte fcl cl ->
  Forall (within (start_time f0) (analyzer.frame_timeout self))
    (fdevs ++ frh :: frl :: fpay ++ [fch; fcl])%list ->
  analyzer.run self (f0 :: fdevs ++ frh :: frl :: fpay ++ [fch; fcl])%list =
  ((replicate (length fdevs + 4 + length payload) (Returns None)
    ++ [match analyzer.formatResult final fcl with
        | inl e => Raises e
        | inr r => Returns (Some r)
        end])%list,
   final).
Proof.
  intros is_cmd cmd needs_dev final Hs Hlen Hf0 Hdevs Hrh Hrl Hpay Hch Hcl Hw.
  assert (Hn : 1 <= Z.of_nat (length payload)).
  { rewrite Hlen, land_REQ_DATA_SIZE_MASK, land_RES_DATA_SIZE_MASK.
    pose proof (Z.mod_pos_bound h 8). pose proof (Z.mod_pos_bound h 128).
    destruct is_cmd; lia. }
  rewrite analyzer_run_cons.
  rewrite (analyzer_decode_data self f0 h Hf0).
  rewrite (analyzer_header_step self f0 h [] Hs (proj2 (proj2 Hf0))).
  fold is_cmd. subst final. revert Hlen Hdevs Hw.
  generalize (analyzer.frame_timeout self) as D. intros D. subst needs_dev cmd.
  destruct is_cmd; simpl negb; simpl orb; [case_bool_decide as Hc|];
    intros Hlen Hdevs Hw; cbn [andb negb].
  - (* a single-device command: the device address byte follows *)
    apply Forall2_cons_inv_r in Hdevs as (fdev & ? & Hdev & ->%Forall2_nil_inv_r & ->).
    apply Forall_cons in Hw as [Hwdev Hw].
    rewrite <- (replicate_around (Returns None) (length payload) _
                  (replicate 4 (Returns None)) [Returns None]) by done.
    simpl app.
    rewrite analyzer_run_cons.
    rewrite (analyzer_decode_in_progress _ _ _ _ _ _ _ _ _ _ fdev dev Hdev Hwdev).
    byte_step.
    rewrite (analyzer_body_run _ _ _ _ _ _ _ _ rh rl ch cl payload frh frl fch fcl fpay)
      by first [done | by symmetry | lia].
    done.
  - (* a stack or broadcast command: the register address follows *)
    apply Forall2_nil_inv_r in Hdevs as ->.
    rewrite <- (replicate_around (Returns None) (length payload) _
                  (replicate 3 (Returns None)) [Returns None]) by done.
    simpl app.
    rewrite (analyzer_body_run _ _ _ _ _ _ _ _ rh rl ch cl payload frh frl fch fcl fpay)
      by first [done | by symmetry | lia].
    done.
  - (* a response: the device address byte follows *)
    apply Forall2_cons_inv_r in Hdevs as (fdev & ? & Hdev & ->%Forall2_nil_inv_r & ->).
    apply Forall_cons in Hw as [Hwdev Hw].
    rewrite <- (replicate_around (Returns None) (length payload) _
                  (replicate 4 (Returns None)) [Returns None]) by done.
    simpl app.
    rewrite analyzer_run_cons.
    rewrite (analyzer_decode_in_progress _ _ _ _ _ _ _ _ _ _ fdev dev Hdev Hwdev).
    byte_step.
    rewrite (analyzer_body_run _ _ _ _ _ _ _ _ rh rl ch cl payload frh frl fch fcl fpay)
      by first [done | by symmetry | lia].
    done.
Qed.

(** The same for [Hla], with its bound of [0.01] and its own result. *)
Lemma Hla_frame_run (self : Hla.decoder)
    (h dev rh rl ch cl : Z) (payload : list Z)
    (f0 frh frl fch fcl : InFrame) (fdevs fpay : list InFrame) :
  let is_cmd := Z.testbit h 7 in
  let cmd := if is_cmd then Z.land h REQ_TYPE_MASK else 0 in
  let needs_dev :=
    negb is_cmd || bool_decide (cmd = SINGLE_DEVICE_READ \/ cmd = SINGLE_DEVICE_WRITE) in
  let p :=
    mkPacket (if is_cmd then COMMAND_FRAME else RESPONSE_FRAME)
      (Some (start_time f0)) (Z.lor (Z.shiftl ch 8) cl)
      (payload_text false payload "") 0 cmd
      (if needs_dev then dev else 0)
      (Z.lor (Z.shiftl rh 8) rl) in
  Hla.currentState self = Hla.WAIT_INIT ->
  Z.of_nat (length payload) =
    (if is_cmd then Z.land h REQ_DATA_SIZE_MASK + 1
     else Z.land h RES_DATA_SIZE_MASK + 1) ->
  one_byte f0 h ->
  Forall2 one_byte fdevs (if needs_dev then [dev] else []) ->
  one_byte frh rh -> one_byte frl rl ->
  Forall2 one_byte fpay payload ->
  one_byte fch ch -> one_byte fcl cl ->
  Forall (within (start_time f0) (1 # 100))
    (fdevs ++ frh :: frl :: fpay ++ [fch; fcl])%list ->
  Hla.run self (f0 :: fdevs ++ frh :: frl :: fpay ++ [fch; fcl])%list =
  ((replicate (length fdevs + 4 + length payload) (Returns None)
    ++ [match Hla.frame_result p fcl with
        | inl e => Raises e
        | inr r => Returns (Some r)
        end])%list,
   Hla.mkDecoder (Hla.frame_timeout self) Hla.WAIT_INIT (Some p)).
Proof.
  intros is_cmd cmd needs_dev p Hs Hlen Hf0 Hdevs Hrh Hrl Hpay Hch Hcl Hw.
  assert (Hn : 1 <= Z.of_nat (length payload)).
  { rewrite Hlen, land_REQ_DATA_SIZE_MASK, land_RES_DATA_SIZE_MASK.
    pose proof (Z.mod_pos_bound h 8). pose proof (Z.mod_pos_bound h 128).
    destruct is_cmd; lia. }
  rewrite Hla_run_cons.
  rewrite (Hla_decode_data self f0 h Hf0).
  rewrite (Hla_header_step self f0 h [] Hs (proj2 (proj2 Hf0))).
  fold is_cmd. subst p. revert Hlen Hdevs Hw.
  generalize (Hla.frame_timeout self) as D. intros D. subst needs_dev cmd.
  destruct is_cmd; simpl negb; simpl orb; [case_bool_decide as Hc|];
    intros Hlen Hdevs Hw; cbn [andb negb].
  - (* a single-device command: the device address byte follows *)
    apply Forall2_cons_inv_r in Hdevs as (fdev & ? & Hdev & ->%Forall2_nil_inv_r & ->).
    apply Forall_cons in Hw as [Hwdev Hw].
    rewrite <- (replicate_around (Returns None) (length payload) _
                  (replicate 4 (Returns None)) [Returns None]) by done.
    simpl app.
    rewrite Hla_run_cons.
    rewrite (Hla_decode_in_progress _ _ _ _ _ _ _ _ _ _ fdev dev Hdev Hwdev).
    byte_step.
    rewrite (Hla_body_run _ _ _ _ _ _ _ _ rh rl ch cl payload frh frl fch fcl fpay)
      by first [done | by symmetry | lia].
    done.
  - (* a stack or broadcast command: the register address follows *)
    apply Forall2_nil_inv_r in Hdevs as ->.
    rewrite <- (replicate_around (Returns None) (length payload) _
                  (replicate 3 (Returns None)) [Returns None]) by done.
    simpl app.
    rewrite (Hla_body_run _ _ _ _ _ _ _ _ rh rl ch cl payload frh frl fch fcl fpay)
      by first [done | by symmetry | lia].
    done.
  - (* a response: the device address byte follows *)
    apply Forall2_cons_inv_r in Hdevs as (fdev & ? & Hdev & ->%Forall2_nil_inv_r & ->).
    apply Forall_cons in Hw as [Hwdev Hw].
    rewrite <- (replicate_around (Returns None) (length payload) _
                  (replicate 4 (Returns None)) [Returns None]) by done.
    simpl app.
    rewrite Hla_run_cons.
    rewrite (Hla_decode_in_progress _ _ _ _ _ _ _ _ _ _ fdev dev Hdev Hwdev).
    byte_step.
    rewrite (Hla_body_run _ _ _ _ _ _ _ _ rh rl ch cl payload frh frl fch fcl fpay)
      by first [done | by symmetry | lia].
    done.
Qed.

(** * The results *)

Lemma append_assoc (a b c : string) : (a ++ b) ++ c = a ++ b ++ c.
Proof. induction a as [|x a IH]; simpl; [done|]. by f_equal. Qed.

Lemma append_empty_r (a : string) : a ++ "" = a.
Proof. induction a as [|x a IH]; simpl; [done|]. by f_equal. Qed.

(** The payload text lists the bytes in the order they arrived, each as
    ["0x"], two hexadecimal digits and a space. *)
Lemma payload_text_in_order (upper : bool) (payload : list Z) :
  forall text,
    payload_text upper payload text =
    text ++ foldr (fun b later => "0x" ++ format_hex upper 2 b ++ " " ++ later)
              "" payload.
Proof.
  unfold payload_text.
  induction payload as [|b payload IH]; intros text; cbn [fold_left foldr].
  - by rewrite append_empty_r.
  - rewrite IH. by rewrite !append_assoc.
Qed.

(** Bring nested appends into one shape. *)
Ltac flatten := do 6 (rewrite ?append_assoc; simpl).

Lemma FRAME_TYPE_MAP_command : FRAME_TYPE_MAP !! COMMAND_FRAME = Some "Command".
Proof. reflexivity. Qed.

Lemma FRAME_TYPE_MAP_response : FRAME_TYPE_MAP !! RESPONSE_FRAME = Some "Response".
Proof. reflexivity. Qed.

Lemma analyzer_formatResult_command (D T : Q) (s : analyzer.TransferState)
    (chk n cmd dev reg : Z) (text label : string) (frame : InFrame) :
  COMMAND_TYPE_MAP !! cmd = Some label ->
  analyzer.formatResult
    (analyzer.mkDecoder D s
       (Some (mkPacket COMMAND_FRAME (Some T) chk text n cmd dev reg))) frame =
  inr (mkAnalyzerFrame "frame" T (end_time frame)
         {["message" :=
             frame_message "Command" (Some label)
               (if bool_decide (cmd = SINGLE_DEVICE_READ \/ cmd = SINGLE_DEVICE_WRITE)
                then Some dev else None)
               reg text]}).
Proof.
  intros Hl. unfold analyzer.formatResult, getitem, frame_message. assign.
  rewrite FRAME_TYPE_MAP_command, Z.eqb_refl, Hl. simpl.
  replace (cmd =? RESPONSE_FRAME) with (cmd =? SINGLE_DEVICE_READ) by done.
  assert ((cmd =? SINGLE_DEVICE_WRITE) || (cmd =? SINGLE_DEVICE_READ) =
          bool_decide (cmd = SINGLE_DEVICE_READ \/ cmd = SINGLE_DEVICE_WRITE)) as ->.
  { destruct (Z.eqb_spec cmd SINGLE_DEVICE_WRITE), (Z.eqb_spec cmd SINGLE_DEVICE_READ);
      case_bool_decide; simpl; tauto || done. }
  case_bool_decide; by flatten.
Qed.

Lemma analyzer_formatResult_response (D T : Q) (s : analyzer.TransferState)
    (chk n cmd dev reg : Z) (text : string) (frame : InFrame) :
  analyzer.formatResult
    (analyzer.mkDecoder D s
       (Some (mkPacket RESPONSE_FRAME (Some T) chk text n cmd dev reg))) frame =
  inr (mkAnalyzerFrame "frame" T (end_time frame)
         {["message" := frame_message "Response" None (Some dev) reg text]}).
Proof.
  unfold analyzer.formatResult, getitem, frame_message. assign.
  rewrite FRAME_TYPE_MAP_response. by flatten.
Qed.

Lemma Hla_frame_result_command (T : Q) (chk n cmd dev reg : Z)
    (text label : string) (frame : InFrame) :
  COMMAND_TYPE_MAP !! Z.land cmd REQ_TYPE_MASK = Some label ->
  Hla.frame_result (mkPacket COMMAND_FRAME (Some T) chk text n cmd dev reg) frame =
  inr (mkAnalyzerFrame "frame" T (end_time frame)
         (frame_fields "Command" label dev reg text)).
Proof.
  intros Hl. unfold Hla.frame_result, getitem, frame_fields. assign.
  by rewrite FRAME_TYPE_MAP_command, Hl.
Qed.

(** For a Response the command type is the [0] of [initPacket], which
    the table reads as Single Device Read. *)
Lemma Hla_frame_result_response (T : Q) (chk n dev reg : Z)
    (text : string) (frame : InFrame) :
  Hla.frame_result (mkPacket RESPONSE_FRAME (Some T) chk text n 0 dev reg) frame =
  inr (mkAnalyzerFrame "frame" T (end_time frame)
         (frame_fields "Response" "Single Device Read" dev reg text)).
Proof. done. Qed.

(** * The claims about whole frames *)




(** The same frame at a configured timeout of one second, in seven chunks
    of five milliseconds, back to back: every chunk ends within one second
    of the start of the header chunk.  [analyzer] returns the frame on the
    last chunk.  [Hla] answers the third chunk, which ends [0.015] after
    that start, with Transfer Timeout, takes the bytes that follow for a
    Response, and returns no frame at all. *)
Lemma Hla_times_out_within_frame_timeout :
  let frames := chunks_from 5 0 [0x90; 0x05; 0x00; 0x2A; 0xFF; 0x00; 0x00] in
  Forall (within (0 # 1000) 1) frames /\
  (analyzer.run (analyzer.init 1) frames).1 =
    (replicate 6 (Returns None)
     ++ [Returns (Some (mkAnalyzerFrame "frame" (0 # 1000) (35 # 1000)
           {["message" :=
               "Command - Single Device Write Device: 0x0005 Register: 0x002A Data: 0xFF "]}))])%list /\
  (Hla.run (Hla.init 1) frames).1 =
    [Returns None; Returns None;
     Returns (Some (timeout_frame (0 # 1000) (15 # 1000)));
     Returns None; Returns None;
     Returns (Some (timeout_frame (15 # 1000) (30 # 1000)));
     Returns None].
Proof.
  split; [|split; reflexivity].
  repeat constructor; by apply Qle_bool_iff.
Qed.

(** * Characters of the rendered numbers *)

Lemma occurs_append (c : ascii) (a b : string) :
  occurs c (a ++ b) = occurs c a || occurs c b.
Proof.
  induction a as [|x a IH]; simpl; [done|]. by rewrite IH, orb_assoc.
Qed.

Lemma prefix_occurs (c : ascii) (p s : string) :
  String.prefix p s = true -> occurs c p = true -> occurs c s = true.
Proof.
  revert s. induction p as [|x p IH]; intros [|y s]; simpl; try done.
  destruct (ascii_dec x y) as [->|]; [|done].
  intros Hp. destruct (Ascii.eqb c y); simpl; [done|]. by apply IH.
Qed.

(** A string that lacks one of the characters of [p] does not contain [p]. *)
Lemma contains_lacking (c : ascii) (p s : string) :
  occurs c p = true -> occurs c s = false -> contains p s = false.
Proof.
  intros Hp. induction s as [|y s IH]; intros Hs.
  - simpl. rewrite orb_false_r. apply not_true_is_false. intros Hpre.
    by rewrite (prefix_occurs c p "" Hpre Hp) in Hs.
  - cbn [contains]. apply orb_false_intro.
    + apply not_true_is_false. intros Hpre.
      by rewrite (prefix_occurs c p (String y s) Hpre Hp) in Hs.
    + apply IH. simpl in Hs. by apply orb_false_elim in Hs as [_ Hs'].
Qed.

Lemma hex_digit_not_v (upper : bool) (d : Z) :
  0 <= d < 16 -> Ascii.eqb "v" (hex_digit upper d) = false.
Proof.
  intros Hd.
  assert (d = 0 \/ d = 1 \/ d = 2 \/ d = 3 \/ d = 4 \/ d = 5 \/ d = 6 \/ d = 7
          \/ d = 8 \/ d = 9 \/ d = 10 \/ d = 11 \/ d = 12 \/ d = 13 \/ d = 14
          \/ d = 15) as H by lia.
  destruct upper; repeat (destruct H as [->|H]; [done|]); by subst.
Qed.

Lemma hex_digits_no_v (upper : bool) (fuel : nat) :
  forall (n : Z) (acc : string),
    occurs "v" acc = false -> occurs "v" (hex_digits fuel upper n acc) = false.
Proof.
  induction fuel as [|fuel IH]; intros n acc Hacc; cbn [hex_digits]; [done|].
  assert (occurs "v" (String (hex_digit upper (n mod 16)) acc) = false) as Hacc'.
  { cbn [occurs]. by rewrite hex_digit_not_v, Hacc by (apply Z.mod_pos_bound; lia). }
  destruct (n <? 16); [done|]. by apply IH.
Qed.

Lemma zeros_no_v (k : nat) : occurs "v" (zeros k) = false.
Proof. induction k; simpl; done. Qed.

Lemma format_hex_no_v (upper : bool) (w : nat) (n : Z) :
  occurs "v" (format_hex upper w n) = false.
Proof.
  unfold format_hex, hex_of_nonneg.
  rewrite !occurs_append, zeros_no_v, hex_digits_no_v by done.
  by destruct (n <? 0).
Qed.

Lemma payload_text_no_v (upper : bool) (payload : list Z) :
  forall text, occurs "v" text = false ->
    occurs "v" (payload_text upper payload text) = false.
Proof.
  induction payload as [|b payload IH]; intros text Ht; [done|].
  cbn [payload_text fold_left]. apply IH.
  by rewrite !occurs_append, Ht, format_hex_no_v.
Qed.

(** * Width of the rendered numbers *)

Lemma length_append (a b : string) :
  String.length (a ++ b) = (String.length a + String.length b)%nat.
Proof. induction a as [|x a IH]; simpl; [done|]. by rewrite IH. Qed.

Lemma length_zeros (k : nat) : String.length (zeros k) = k.
Proof. induction k as [|k IH]; simpl; [done|]. by rewrite IH. Qed.

Lemma hex_digits_length_le (upper : bool) (fuel : nat) :
  forall (w : nat) (n : Z) (acc : string),
    (1 <= w)%nat -> 0 <= n < 16 ^ Z.of_nat w ->
    (String.length (hex_digits fuel upper n acc) <= String.length acc + w)%nat.
Proof.
  induction fuel as [|fuel IH]; intros w n acc Hw Hn; simpl; [lia|].
  destruct (Z.ltb_spec n 16) as [Hlt|Hge]; simpl; [lia|].
  destruct w as [|[|w]]; [lia|simpl in Hn; lia|].
  etrans; [apply (IH (S w))|simpl; lia]; [lia|].
  split; [apply Z.div_pos; lia|].
  apply Z.div_lt_upper_bound; [lia|].
  replace (Z.of_nat (S (S w))) with (1 + Z.of_nat (S w)) in Hn by lia.
  rewrite Z.pow_add_r in Hn by lia. lia.
Qed.

(** Fuel beyond the number of digits changes nothing: the fuel of
    [hex_of_nonneg] never cuts a number short. *)
Lemma hex_digits_fuel (upper : bool) (fuel : nat) :
  forall (n : Z) (acc : string) (more : nat),
    0 <= n < 16 ^ Z.of_nat (S fuel) ->
    hex_digits (S fuel + more) upper n acc = hex_digits (S fuel) upper n acc.
Proof.
  induction fuel as [|fuel IH]; intros n acc more Hn.
  - simpl. destruct (Z.ltb_spec n 16) as [Hlt|Hge]; [done|simpl in Hn; lia].
  - change (S (S fuel) + more)%nat with (S (S fuel + more)).
    cbn [hex_digits]. destruct (Z.ltb_spec n 16) as [Hlt|Hge]; [done|].
    apply IH. split; [apply Z.div_pos; lia|].
    apply Z.div_lt_upper_bound; [lia|].
    replace (Z.of_nat (S (S fuel))) with (1 + Z.of_nat (S fuel)) in Hn by lia.
    rewrite Z.pow_add_r in Hn by lia. lia.
Qed.

Lemma hex_of_nonneg_fuel_enough (n : Z) :
  0 <= n -> n < 16 ^ Z.of_nat (S (Z.to_nat (Z.log2 n))).
Proof.
  intros Hn. destruct (Z.eq_dec n 0) as [->|Hne]; [done|].
  pose proof (Z.log2_nonneg n) as Hl.
  pose proof (proj2 (Z.log2_spec n ltac:(lia))) as Hup.
  eapply Z.lt_le_trans; [exact Hup|].
  replace (Z.of_nat (S (Z.to_nat (Z.log2 n)))) with (Z.succ (Z.log2 n)) by lia.
  apply Z.pow_le_mono_l. lia.
Qed.

(** ['{:04X}'] of a 16-bit number has exactly four characters, and the
    same for any width and a number that fits it. *)
Lemma format_hex_length (upper : bool) (w : nat) (n : Z) :
  (1 <= w)%nat -> 0 <= n < 16 ^ Z.of_nat w ->
  String.length (format_hex upper w n) = w.
Proof.
  intros Hw Hn. unfold format_hex, hex_of_nonneg.
  destruct (Z.ltb_spec n 0) as [|_]; [lia|].
  rewrite Z.abs_eq by lia. simpl String.append.
  rewrite length_append, length_zeros.
  pose proof (hex_digits_length_le upper (S (Z.to_nat (Z.log2 n))) w n "" Hw Hn).
  simpl in *. lia.
Qed.

(** * The address fields of a frame result *)

#[local] Arguments format_hex : simpl never.
#[local] Arguments payload_text : simpl never.

Lemma frame_message_register (category : string) (commandType : option string)
    (deviceAddress : option Z) (registerAddress : Z) (payload : string) :
  exists before,
    frame_message category commandType deviceAddress registerAddress payload =
    before ++ "Register: 0x" ++ format_hex true 4 registerAddress
      ++ " Data: " ++ payload.
Proof.
  exists (category ++ " - "
          ++ from_option (fun c => c ++ " ") "" commandType
          ++ from_option (fun d => "Device: 0x" ++ format_hex true 4 d ++ " ") ""
               deviceAddress).
  unfold frame_message. by rewrite !append_assoc.
Qed.

Lemma prefix_empty (s : string) : String.prefix "" s = true.
Proof. by destruct s. Qed.

(** The message of a Command has the device field exactly for the two
    single-device commands. *)
Lemma command_message_device_field (h dev reg : Z) (label : string)
    (payload : list Z) :
  let cmd := Z.land h REQ_TYPE_MASK in
  let single := bool_decide (cmd = SINGLE_DEVICE_READ \/ cmd = SINGLE_DEVICE_WRITE) in
  COMMAND_TYPE_MAP !! cmd = Some label ->
  contains "Device: 0x"
    (frame_message "Command" (Some label) (if single then Some dev else None)
       reg (payload_text true payload "")) = single.
Proof.
  intros cmd single Hl.
  assert (Hno : contains "Device: 0x"
                  (format_hex true 4 reg ++ " Data: " ++ payload_text true payload "")
                = false).
  { apply (contains_lacking "v"); [done|].
    by rewrite !occurs_append, format_hex_no_v, payload_text_no_v. }
  subst single. unfold frame_message. revert Hl.
  destruct (REQ_TYPE_MASK_cases h) as [Hc|[Hc|[Hc|[Hc|[Hc|[Hc|[Hc|Hc]]]]]]];
    fold cmd in Hc; rewrite Hc; intros Hl; vm_compute in Hl; [..|done];
    injection Hl as <-.
  all: try (rewrite bool_decide_eq_true_2 by (first [by left | by right]);
            simpl; by rewrite prefix_empty).
  all: rewrite bool_decide_eq_false_2 by (by intros [?|?]).
  all: simpl; by rewrite ?Hno.
Qed.

Lemma response_message_device_field (dev reg : Z) (payload : string) :
  contains "Device: 0x" (frame_message "Response" None (Some dev) reg payload)
  = true.
Proof. unfold frame_message. simpl. by rewrite prefix_empty. Qed.

(** C5 as stated fails on [Hla].  A Stack Read frame (header [0xA0],
    register bytes [0x01 0x00], one payload byte, two checksum bytes) has
    no device address byte: after the header the object waits for the
    register address.  The frame [Hla] returns has a ['device_address']
    entry all the same, and its ['register_address'] is ["0x100"], three
    hexadecimal digits. *)
Lemma Hla_stack_read_frame_fields :
  let frames := chunks_from 1 0 [0xA0; 0x01; 0x00; 0x00; 0x00; 0x00] in
  Hla.currentState (Hla.run (Hla.init (1 # 100)) (take 1 frames)).2
    = Hla.WAIT_REG_ADDR_1 /\
  exists r,
    last (Hla.run (Hla.init (1 # 100)) frames).1 = Some (Returns (Some r)) /\
    type r = "frame" /\
    data r !! "device_address" = Some "0x0" /\
    data r !! "register_address" = Some "0x100".
Proof. split; [reflexivity|]. eexists. repeat split; reflexivity. Qed.

(** C5, amended.  A whole frame arrives one byte per chunk and in time;
    its header is a Response header or a Command header whose command type
    is in the table, and its register bytes are bytes.  A device address
    byte is taken exactly when the state after the header is
    [WAIT_DEV_ADDR], that is for a Response and for Single Device Read and
    Write.  The message of the frame [analyzer] returns contains the
    register address as ["Register: 0x"] and exactly four hexadecimal
    digits, and contains a ["Device: 0x"] field if and only if a device
    address byte was taken.  The frame [Hla] returns always has the
    entries ['device_address'] and ['register_address'], each rendered by
    [hex] without padding. *)
Theorem frame_result_address_fields
    (h dev rh rl ch cl : Z) (payload : list Z)
    (f0 frh frl fch fcl : InFrame) (fdevs fpay : list InFrame) :
  let is_cmd := Z.testbit h 7 in
  let cmd := if is_cmd then Z.land h REQ_TYPE_MASK else 0 in
  let taken :=
    negb is_cmd
    || bool_decide (cmd = SINGLE_DEVICE_READ \/ cmd = SINGLE_DEVICE_WRITE) in
  let register := Z.lor (Z.shiftl rh 8) rl in
  let rest := (fdevs ++ frh :: frl :: fpay ++ [fch; fcl])%list in
  (is_cmd = true -> is_Some (COMMAND_TYPE_MAP !! cmd)) ->
  0 <= rh < 256 -> 0 <= rl < 256 ->
  Z.of_nat (length payload) =
    (if is_cmd then Z.land h REQ_DATA_SIZE_MASK + 1
     else Z.land h RES_DATA_SIZE_MASK + 1) ->
  one_byte f0 h ->
  Forall2 one_byte fdevs (if taken then [dev] else []) ->
  one_byte frh rh -> one_byte frl rl ->
  Forall2 one_byte fpay payload ->
  one_byte fch ch -> one_byte fcl cl ->
  (forall self,
     analyzer.currentState self = analyzer.WAIT_INIT ->
     Forall (within (start_time f0) (analyzer.frame_timeout self)) rest ->
     (analyzer.currentState (analyzer.decode self f0).2 = analyzer.WAIT_DEV_ADDR
        <-> taken = true) /\
     exists msg,
       last (analyzer.run self (f0 :: rest)).1 =
         Some (Returns (Some (mkAnalyzerFrame "frame" (start_time f0) (end_time fcl)
                                {["message" := msg]}))) /\
       contains "Device: 0x" msg = taken /\
       (exists before after,
          msg = before ++ "Register: 0x" ++ format_hex true 4 register
                  ++ " Data: " ++ after) /\
       String.length (format_hex true 4 register) = 4%nat) /\
  (forall self,
     Hla.currentState self = Hla.WAIT_INIT ->
     Forall (within (start_time f0) (1 # 100)) rest ->
     (Hla.currentState (Hla.decode self f0).2 = Hla.WAIT_DEV_ADDR
        <-> taken = true) /\
     exists r,
       last (Hla.run self (f0 :: rest)).1 = Some (Returns (Some r)) /\
       type r = "frame" /\
       data r !! "device_address" = Some (hex (if taken then dev else 0)) /\
       data r !! "register_address" = Some (hex register)).
Proof.
  intros is_cmd cmd taken register rest Hknown Hrh Hrl Hlen
    Hf0 Hdevs Hfrh Hfrl Hpay Hfch Hfcl. subst rest.
  assert (Hwidth : String.length (format_hex true 4 register) = 4%nat).
  { apply format_hex_length; [lia|]. change (16 ^ Z.of_nat 4) with (2 ^ 16).
    apply lor_bound; [lia|by apply shiftl8_bound|lia]. }
  split; intros self Hs Hw.
  - split.
    { rewrite (analyzer_decode_data self f0 h Hf0).
      rewrite (analyzer_header_step self f0 h [] Hs (proj2 (proj2 Hf0))).
      subst taken cmd. fold is_cmd. destruct is_cmd; simpl;
        case_bool_decide; simpl; done. }
    rewrite (analyzer_frame_run self h dev rh rl ch cl payload
               f0 frh frl fch fcl fdevs fpay) by done.
    cbn [fst]. rewrite last_snoc. fold is_cmd cmd taken register.
    revert Hknown. subst taken cmd. destruct is_cmd eqn:Hbit; intros Hknown.
    + destruct (Hknown eq_refl) as [label Hlabel].
      rewrite (analyzer_formatResult_command _ _ _ _ _ _ _ _ _ label) by done.
      eexists. split; [reflexivity|]. simpl negb. simpl orb.
      split; [|split; [|done]].
      * pose proof (command_message_device_field h dev register label payload Hlabel) as Hc.
        cbv zeta in Hc. by case_bool_decide.
      * destruct (frame_message_register "Command" (Some label)
                    (if bool_decide (Z.land h REQ_TYPE_MASK = SINGLE_DEVICE_READ
                                     \/ Z.land h REQ_TYPE_MASK = SINGLE_DEVICE_WRITE)
                     then Some dev else None)
                    register (payload_text true payload "")) as [before Hb].
        exists before, (payload_text true payload "").
        rewrite <- Hb. by case_bool_decide.
    + rewrite analyzer_formatResult_response.
      eexists. split; [reflexivity|]. simpl negb. simpl orb.
      split; [apply response_message_device_field|split; [|done]].
      destruct (frame_message_register "Response" None (Some dev)
                  register (payload_text true payload "")) as [before Hb].
      by exists before, (payload_text true payload "").
  - split.
    { rewrite (Hla_decode_data self f0 h Hf0).
      rewrite (Hla_header_step self f0 h [] Hs (proj2 (proj2 Hf0))).
      subst taken cmd. fold is_cmd. destruct is_cmd; simpl;
        case_bool_decide; simpl; done. }
    rewrite (Hla_frame_run self h dev rh rl ch cl payload
               f0 frh frl fch fcl fdevs fpay) by done.
    cbn [fst]. rewrite last_snoc. fold is_cmd cmd taken register.
    revert Hknown. subst taken cmd. destruct is_cmd eqn:Hbit; intros Hknown.
    + destruct (Hknown eq_refl) as [label Hlabel].
      rewrite (Hla_frame_result_command _ _ _ _ _ _ _ label).
      2:{ rewrite <- Hlabel. f_equal.
          rewrite <- Z.land_assoc. by rewrite Z.land_diag. }
      eexists. split; [reflexivity|]. done.
    + rewrite Hla_frame_result_response.
      eexists. split; [reflexivity|]. done.
Qed.

Lemma frame_result_address_fields_witness :
  let frames := chunks_from 1 0 [0xA0; 0x01; 0x00; 0xBC; 0x00; 0x00] in
  (analyzer.currentState
     (analyzer.decode (analyzer.init (1 # 100)) (chunk [0xA0] (0 # 1000) (1 # 1000))).2
   = analyzer.WAIT_DEV_ADDR <-> false = true) /\
  exists msg,
    last (analyzer.run (analyzer.init (1 # 100)) frames).1 =
      Some (Returns (Some (mkAnalyzerFrame "frame" (0 # 1000) (6 # 1000)
                             {["message" := msg]}))) /\
    contains "Device: 0x" msg = false /\
    (exists before after,
       msg = before ++ "Register: 0x" ++ format_hex true 4 0x0100
               ++ " Data: " ++ after) /\
    String.length (format_hex true 4 0x0100) = 4%nat.
Proof.
  apply (proj1 (frame_result_address_fields 0xA0 0 0x01 0x00 0x00 0x00 [0xBC]
                  (chunk [0xA0] (0 # 1000) (1 # 1000))
                  (chunk [0x01] (1 # 1000) (2 # 1000))
                  (chunk [0x00] (2 # 1000) (3 # 1000))
                  (chunk [0x00] (4 # 1000) (5 # 1000))
                  (chunk [0x00] (5 # 1000) (6 # 1000))
                  []
                  [chunk [0xBC] (3 # 1000) (4 # 1000)]
                  ltac:(by eexists) ltac:(lia) ltac:(lia) eq_refl
                  ltac:(by repeat split) ltac:(constructor)
                  ltac:(by repeat split) ltac:(by repeat split)
                  ltac:(by repeat constructor)
                  ltac:(by repeat split) ltac:(by repeat split))
           (analyzer.init (1 # 100)) eq_refl).
  repeat constructor; by apply Qle_bool_iff.
Defined.

(** * Sixteen-bit fields *)

Lemma analyzer_on_byte_fits16 (frame : InFrame) (b : Z)
    (self self' : analyzer.decoder) (result : option OutFrame) (fl : flow) :
  0 <= b < 256 ->
  (forall p, analyzer.packet self = Some p -> fits16 p) ->
  analyzer.on_byte frame b self result = (fl, self') ->
  forall p, analyzer.packet self' = Some p -> fits16 p.
Proof.
  intros Hb Hinv. unfold analyzer.on_byte, analyzer.with_packet.
  destruct (analyzer.packet self) as [q|] eqn:Hq.
  - destruct (Hinv q eq_refl) as [Hreg Hchk].
    pose proof (shiftl8_bound b Hb). pose proof (lor_bound _ b 16 ltac:(lia) Hreg ltac:(lia)).
    pose proof (lor_bound _ b 16 ltac:(lia) Hchk ltac:(lia)).
    intros Hstep p Hp. unfold fits16.
    repeat (case_match; simplify_eq/=; try done); split; first [done|lia].
  - intros Hstep p Hp. unfold fits16.
    repeat (case_match; simplify_eq/=; try done); split; first [done|lia].
Qed.

Lemma analyzer_loop_fits16 (frame : InFrame) (bytes : list Z) :
  forall (self : analyzer.decoder) (result : option OutFrame),
    Forall (fun b => 0 <= b < 256) bytes ->
    (forall p, analyzer.packet self = Some p -> fits16 p) ->
    forall p, analyzer.packet (analyzer.for_byte_in frame bytes self result).2 = Some p ->
      fits16 p.
Proof.
  induction bytes as [|b bytes IH]; intros self result Hb Hinv; simpl; [done|].
  apply Forall_cons in Hb as [Hb Hbs].
  destruct (analyzer.on_byte frame b self result) as [fl s1] eqn:E.
  pose proof (analyzer_on_byte_fits16 frame b self s1 result fl Hb Hinv E) as Hs1.
  destruct fl; [done|by apply IH|done].
Qed.

Lemma analyzer_decode_fits16 (self : analyzer.decoder) (frame : InFrame) :
  bytes_in_range frame ->
  (forall p, analyzer.packet self = Some p -> fits16 p) ->
  forall p, analyzer.packet (analyzer.decode self frame).2 = Some p -> fits16 p.
Proof.
  intros Hb Hinv. unfold analyzer.decode, analyzer.onReceived.
  destruct (get_data frame) as [bytes|] eqn:Hd.
  - pose proof (analyzer_loop_fits16 frame bytes self None (Hb bytes Hd) Hinv) as Hloop.
    repeat case_match; simpl; try done;
      intros pk Hpk; apply Hinv; congruence.
  - repeat case_match; simpl; done.
Qed.

Lemma analyzer_run_fits16 (frames : list InFrame) :
  forall self,
    Forall bytes_in_range frames ->
    (forall p, analyzer.packet self = Some p -> fits16 p) ->
    forall p, analyzer.packet (analyzer.run self frames).2 = Some p -> fits16 p.
Proof.
  induction frames as [|f frames IH]; intros self Hb Hinv; [done|].
  apply Forall_cons in Hb as [Hf Hfs]. simpl.
  pose proof (analyzer_decode_fits16 self f Hf Hinv) as Hs1.
  destruct (analyzer.decode self f) as [o s1].
  specialize (IH s1 Hfs Hs1).
  by destruct (analyzer.run s1 frames).
Qed.

Lemma Hla_on_byte_fits16 (frame : InFrame) (b : Z)
    (self self' : Hla.decoder) (fl : flow) :
  0 <= b < 256 ->
  (forall p, Hla.packet self = Some p -> fits16 p) ->
  Hla.on_byte frame b self = (fl, self') ->
  forall p, Hla.packet self' = Some p -> fits16 p.
Proof.
  intros Hb Hinv. unfold Hla.on_byte, Hla.with_packet.
  destruct (Hla.packet self) as [q|] eqn:Hq.
  - destruct (Hinv q eq_refl) as [Hreg Hchk].
    pose proof (shiftl8_bound b Hb). pose proof (lor_bound _ b 16 ltac:(lia) Hreg ltac:(lia)).
    pose proof (lor_bound _ b 16 ltac:(lia) Hchk ltac:(lia)).
    intros Hstep p Hp. unfold fits16.
    repeat (case_match; simplify_eq/=; try done); split; first [done|lia].
  - intros Hstep p Hp. unfold fits16.
    repeat (case_match; simplify_eq/=; try done); split; first [done|lia].
Qed.

Lemma Hla_loop_fits16 (frame : InFrame) (bytes : list Z) :
  forall (self : Hla.decoder),
    Forall (fun b => 0 <= b < 256) bytes ->
    (forall p, Hla.packet self = Some p -> fits16 p) ->
    forall p, Hla.packet (Hla.for_byte_in frame bytes self).2 = Some p ->
      fits16 p.
Proof.
  induction bytes as [|b bytes IH]; intros self Hb Hinv; simpl; [done|].
  apply Forall_cons in Hb as [Hb Hbs].
  destruct (Hla.on_byte frame b self) as [fl s1] eqn:E.
  pose proof (Hla_on_byte_fits16 frame b self s1 fl Hb Hinv E) as Hs1.
  destruct fl; [done|by apply IH|done].
Qed.

Lemma Hla_decode_fits16 (self : Hla.decoder) (frame : InFrame) :
  bytes_in_range frame ->
  (forall p, Hla.packet self = Some p -> fits16 p) ->
  forall p, Hla.packet (Hla.decode self frame).2 = Some p -> fits16 p.
Proof.
  intros Hb Hinv. unfold Hla.decode, Hla.onReceived.
  destruct (get_data frame) as [bytes|] eqn:Hd.
  - pose proof (Hla_loop_fits16 frame bytes self (Hb bytes Hd) Hinv) as Hloop.
    repeat case_match; simpl; try done;
      intros pk Hpk; apply Hinv; congruence.
  - repeat case_match; simpl; done.
Qed.

Lemma Hla_run_fits16 (frames : list InFrame) :
  forall self,
    Forall bytes_in_range frames ->
    (forall p, Hla.packet self = Some p -> fits16 p) ->
    forall p, Hla.packet (Hla.run self frames).2 = Some p -> fits16 p.
Proof.
  induction frames as [|f frames IH]; intros self Hb Hinv; [done|].
  apply Forall_cons in Hb as [Hf Hfs]. simpl.
  pose proof (Hla_decode_fits16 self f Hf Hinv) as Hs1.
  destruct (Hla.decode self f) as [o s1].
  specialize (IH s1 Hfs Hs1).
  by destruct (Hla.run s1 frames).
Qed.

(** C10.  Whatever frames a new object is handed, as long as the bytes
    they carry are bytes, after any number of them the register address
    and the checksum it holds are non-negative and below [2^16]. *)
Theorem register_and_checksum_fit_16_bits (timeout : Q)
    (frames : list InFrame) (k : nat) :
  Forall bytes_in_range frames ->
  (forall p,
     analyzer.packet (analyzer.run (analyzer.init timeout) (take k frames)).2 = Some p ->
     0 <= lastPacketRegisterAddress p < 2 ^ 16
     /\ 0 <= lastPacketChecksum p < 2 ^ 16) /\
  (forall p,
     Hla.packet (Hla.run (Hla.init timeout) (take k frames)).2 = Some p ->
     0 <= lastPacketRegisterAddress p < 2 ^ 16
     /\ 0 <= lastPacketChecksum p < 2 ^ 16).
Proof.
  intros Hb. pose proof (Forall_take _ k _ Hb) as Hk. split.
  - by apply analyzer_run_fits16.
  - by apply Hla_run_fits16.
Qed.

Lemma register_and_checksum_fit_16_bits_witness :
  let frames := chunks_from 1 0 [0x90; 0x05; 0xAB; 0xCD] in
  let p := mkPacket COMMAND_FRAME (Some (0 # 1000)) 0 "" 1 SINGLE_DEVICE_WRITE
             0x05 0xABCD in
  Forall bytes_in_range frames /\
  analyzer.packet (analyzer.run (analyzer.init 1) (take 4 frames)).2 = Some p /\
  0 <= lastPacketRegisterAddress p < 2 ^ 16 /\
  0 <= lastPacketChecksum p < 2 ^ 16.
Proof.
  assert (H : Forall bytes_in_range
                (chunks_from 1 0 [0x90; 0x05; 0xAB; 0xCD])).
  { repeat constructor; intros bytes [= <-]; repeat constructor; lia. }
  split; [exact H|]. split; [reflexivity|].
  apply (proj1 (register_and_checksum_fit_16_bits 1 _ 4 H)). reflexivity.
Defined.

(** * After a result *)

(** A call that returns a result leaves the object in [WAIT_INIT]. *)
Lemma analyzer_loop_some (frame : InFrame) (bytes : list Z) :
  forall (self self' : analyzer.decoder) (result : option OutFrame) (r : OutFrame),
    (is_Some result -> analyzer.currentState self = analyzer.WAIT_INIT) ->
    analyzer.for_byte_in frame bytes self result = (Returns (Some r), self') ->
    analyzer.currentState self' = analyzer.WAIT_INIT.
Proof.
  induction bytes as [|b bytes IH]; intros self self' result r Hres; simpl.
  - intros [= -> ->]. by apply Hres.
  - destruct (analyzer.on_byte frame b self result) as [fl s1] eqn:E.
    unfold analyzer.on_byte, analyzer.with_packet in E.
    destruct fl as [r1|result1|e]; [| |done].
    + intros [= -> ->].
      repeat (case_match; simplify_eq/=; try done).
    + apply IH. intros _.
      repeat (case_match; simplify_eq/=; try done).
Qed.

(** No call changes the setting. *)
Lemma analyzer_loop_frame_timeout (frame : InFrame) (bytes : list Z) :
  forall (self : analyzer.decoder) (result : option OutFrame),
    analyzer.frame_timeout (analyzer.for_byte_in frame bytes self result).2
    = analyzer.frame_timeout self.
Proof.
  induction bytes as [|b bytes IH]; intros self result; simpl; [done|].
  destruct (analyzer.on_byte frame b self result) as [fl s1] eqn:E.
  assert (analyzer.frame_timeout s1 = analyzer.frame_timeout self) as <-.
  { unfold analyzer.on_byte, analyzer.with_packet in E.
    repeat (case_match; simplify_eq/=; try done). }
  destruct fl; [done|by apply IH|done].
Qed.

Lemma analyzer_decode_frame_timeout (self : analyzer.decoder) (frame : InFrame) :
  analyzer.frame_timeout (analyzer.decode self frame).2
  = analyzer.frame_timeout self.
Proof.
  unfold analyzer.decode, analyzer.onReceived.
  destruct (get_data frame) as [bytes|].
  - pose proof (analyzer_loop_frame_timeout frame bytes self None).
    repeat case_match; simpl; done.
  - repeat case_match; simpl; done.
Qed.

Lemma analyzer_result_resets (self self' : analyzer.decoder) (frame : InFrame)
    (r : OutFrame) :
  analyzer.decode self frame = (Returns (Some r), self') ->
  analyzer.currentState self' = analyzer.WAIT_INIT.
Proof.
  unfold analyzer.decode, analyzer.onReceived.
  destruct (get_data frame) as [bytes|] eqn:Hd.
  - pose proof (analyzer_loop_some frame bytes self self' None r
                  ltac:(by intros [? ?])) as Hloop.
    repeat (case_match; try done); try exact Hloop.
    by intros [= <- <-].
  - repeat (case_match; try done).
Qed.

Lemma Hla_loop_some (frame : InFrame) (bytes : list Z) :
  forall (self self' : Hla.decoder) (r : OutFrame),
    Hla.for_byte_in frame bytes self = (Returns (Some r), self') ->
    Hla.currentState self' = Hla.WAIT_INIT.
Proof.
  induction bytes as [|b bytes IH]; intros self self' r; simpl; [done|].
  destruct (Hla.on_byte frame b self) as [fl s1] eqn:E.
  unfold Hla.on_byte, Hla.with_packet in E.
  destruct fl as [r1|result1|e]; [|by apply IH|done].
  intros [= -> ->].
  repeat (case_match; simplify_eq/=; try done).
Qed.

Lemma Hla_loop_frame_timeout (frame : InFrame) (bytes : list Z) :
  forall (self : Hla.decoder),
    Hla.frame_timeout (Hla.for_byte_in frame bytes self).2
    = Hla.frame_timeout self.
Proof.
  induction bytes as [|b bytes IH]; intros self; simpl; [done|].
  destruct (Hla.on_byte frame b self) as [fl s1] eqn:E.
  assert (Hla.frame_timeout s1 = Hla.frame_timeout self) as <-.
  { unfold Hla.on_byte, Hla.with_packet in E.
    repeat (case_match; simplify_eq/=; try done). }
  destruct fl; [done|by apply IH|done].
Qed.

Lemma Hla_decode_frame_timeout (self : Hla.decoder) (frame : InFrame) :
  Hla.frame_timeout (Hla.decode self frame).2 = Hla.frame_timeout self.
Proof.
  unfold Hla.decode, Hla.onReceived.
  destruct (get_data frame) as [bytes|].
  - pose proof (Hla_loop_frame_timeout frame bytes self).
    repeat case_match; simpl; done.
  - repeat case_match; simpl; done.
Qed.

Lemma Hla_result_resets (self self' : Hla.decoder) (frame : InFrame)
    (r : OutFrame) :
  Hla.decode self frame = (Returns (Some r), self') ->
  Hla.currentState self' = Hla.WAIT_INIT.
Proof.
  unfold Hla.decode, Hla.onReceived.
  destruct (get_data frame) as [bytes|] eqn:Hd.
  - pose proof (Hla_loop_some frame bytes self self' r) as Hloop.
    repeat (case_match; try done); try exact Hloop.
    by intros [= <- <-].
  - repeat (case_match; try done).
Qed.

Lemma analyzer_alike_decode (s1 s2 : analyzer.decoder) (frame : InFrame) :
  analyzer_alike s1 s2 ->
  (analyzer.decode s1 frame).1 = (analyzer.decode s2 frame).1
  /\ analyzer_alike (analyzer.decode s1 frame).2 (analyzer.decode s2 frame).2.
Proof.
  intros [->|(H1 & H2 & HD)]; [split; [done|by left]|].
  unfold analyzer.decode.
  destruct (negb _); [split; [done|by right]|].
  destruct (bool_decide _); [split; [done|by right]|].
  destruct (get_data frame) as [[|b bytes]|] eqn:Hd.
  - unfold analyzer.onReceived. rewrite Hd, H1, H2. simpl.
    split; [done|by right].
  - rewrite (analyzer_header_step s1 frame b bytes H1 Hd).
    rewrite (analyzer_header_step s2 frame b bytes H2 Hd).
    rewrite HD. split; [done|by left].
  - unfold analyzer.onReceived. rewrite Hd. split; [done|by right].
Qed.

Lemma analyzer_alike_run (frames : list InFrame) :
  forall s1 s2, analyzer_alike s1 s2 ->
    (analyzer.run s1 frames).1 = (analyzer.run s2 frames).1.
Proof.
  induction frames as [|f frames IH]; intros s1 s2 H; [done|]. simpl.
  destruct (analyzer_alike_decode s1 s2 f H) as [Ho Hs].
  destruct (analyzer.decode s1 f) as [o1 t1], (analyzer.decode s2 f) as [o2 t2].
  simpl in Ho, Hs. subst o2. specialize (IH t1 t2 Hs).
  destruct (analyzer.run t1 frames), (analyzer.run t2 frames).
  simpl in *. by subst.
Qed.

Lemma Hla_alike_decode (s1 s2 : Hla.decoder) (frame : InFrame) :
  Hla_alike s1 s2 ->
  (Hla.decode s1 frame).1 = (Hla.decode s2 frame).1
  /\ Hla_alike (Hla.decode s1 frame).2 (Hla.decode s2 frame).2.
Proof.
  intros [->|(H1 & H2 & HD)]; [split; [done|by left]|].
  unfold Hla.decode.
  destruct (negb _); [split; [done|by right]|].
  destruct (bool_decide _); [split; [done|by right]|].
  destruct (get_data frame) as [[|b bytes]|] eqn:Hd.
  - unfold Hla.onReceived. rewrite Hd, H1, H2. simpl.
    split; [done|by right].
  - rewrite (Hla_header_step s1 frame b bytes H1 Hd).
    rewrite (Hla_header_step s2 frame b bytes H2 Hd).
    rewrite HD. split; [done|by left].
  - unfold Hla.onReceived. rewrite Hd. split; [done|by right].
Qed.

Lemma Hla_alike_run (frames : list InFrame) :
  forall s1 s2, Hla_alike s1 s2 ->
    (Hla.run s1 frames).1 = (Hla.run s2 frames).1.
Proof.
  induction frames as [|f frames IH]; intros s1 s2 H; [done|]. simpl.
  destruct (Hla_alike_decode s1 s2 f H) as [Ho Hs].
  destruct (Hla.decode s1 f) as [o1 t1], (Hla.decode s2 f) as [o2 t2].
  simpl in Ho, Hs. subst o2. specialize (IH t1 t2 Hs).
  destruct (Hla.run t1 frames), (Hla.run t2 frames).
  simpl in *. by subst.
Qed.

(** C8 as stated fails.  After the frame result of a complete Single
    Device Write frame the object is not what [__init__] leaves: the
    packet attributes exist and still hold the packet just reported.  The
    same after a Transfer Timeout, where they hold the abandoned packet. *)
Lemma state_after_result_keeps_packet :
  let done := analyzer.run (analyzer.init (1 # 100))
                (chunks_from 1 0 [0x90; 0x05; 0x00; 0x2A; 0xFF; 0x00; 0x00]) in
  let late := analyzer.run (analyzer.init (1 # 100))
                (chunks_from 20 0 [0x90; 0x05]) in
  (exists r, last done.1 = Some (Returns (Some r)) /\ type r = "frame") /\
  done.2 <> analyzer.init (1 # 100) /\
  done.2 = analyzer.mkDecoder (1 # 100) analyzer.WAIT_INIT
             (Some (mkPacket COMMAND_FRAME (Some (0 # 1000)) 0 "0xFF " 0
                      SINGLE_DEVICE_WRITE 0x05 0x2A)) /\
  last late.1 = Some (Returns (Some (timeout_frame (0 # 1000) (40 # 1000)))) /\
  late.2 <> analyzer.init (1 # 100) /\
  late.2 = analyzer.mkDecoder (1 # 100) analyzer.WAIT_INIT
             (Some (mkPacket COMMAND_FRAME (Some (0 # 1000)) 0 "" 1
                      SINGLE_DEVICE_WRITE 0 0)).
Proof.
  split; [eexists; split; reflexivity|].
  split; [discriminate|]. split; [reflexivity|].
  split; [reflexivity|]. split; [discriminate|reflexivity].
Qed.

(** C8, amended.  A call that returns a result, a frame or an error,
    leaves the object in [WAIT_INIT], the state [__init__] sets.  The
    packet attributes are not cleared, but they are not read before the
    next header byte re-initialises them all: whatever frames follow, the
    object answers them exactly as a new object with the same setting. *)
Theorem after_result_answers_as_new :
  (forall self frame r self',
     analyzer.decode self frame = (Returns (Some r), self') ->
     analyzer.currentState self' = analyzer.WAIT_INIT /\
     forall frames,
       (analyzer.run self' frames).1 =
       (analyzer.run (analyzer.init (analyzer.frame_timeout self)) frames).1) /\
  (forall self frame r self',
     Hla.decode self frame = (Returns (Some r), self') ->
     Hla.currentState self' = Hla.WAIT_INIT /\
     forall frames,
       (Hla.run self' frames).1 =
       (Hla.run (Hla.init (Hla.frame_timeout self)) frames).1).
Proof.
  split; intros self frame r self' Hdec.
  - pose proof (analyzer_result_resets self self' frame r Hdec) as Hs.
    split; [done|]. intros frames. apply analyzer_alike_run. right.
    repeat split; [done|].
    pose proof (analyzer_decode_frame_timeout self frame) as HD.
    by rewrite Hdec in HD.
  - pose proof (Hla_result_resets self self' frame r Hdec) as Hs.
    split; [done|]. intros frames. apply Hla_alike_run. right.
    repeat split; [done|].
    pose proof (Hla_decode_frame_timeout self frame) as HD.
    by rewrite Hdec in HD.
Qed.

Lemma after_result_answers_as_new_witness :
  let self :=
    (analyzer.decode (analyzer.init (1 # 100)) (chunk [0x90] 0 (1 # 1000))).2 in
  let frame := chunk [0x05] 1 2 in
  let self' := analyzer.set_currentState analyzer.WAIT_INIT self in
  let frames := chunks_from 1 3000 [0xA0; 0x01; 0x00; 0xBC; 0x00; 0x00] in
  analyzer.decode self frame = (Returns (Some (timeout_frame 0 2)), self') /\
  analyzer.currentState self' = analyzer.WAIT_INIT /\
  (analyzer.run self' frames).1 =
  (analyzer.run (analyzer.init (1 # 100)) frames).1.
Proof.
  intros self frame self' frames.
  split; [reflexivity|].
  destruct (proj1 after_result_answers_as_new self frame
              (timeout_frame 0 2) self' eq_refl) as [Hstate Hsame].
  split; [exact Hstate|exact (Hsame frames)].
Defined.

(** * Objects a host can reach *)

(** From [__init__] on, an object is either still without packet
    attributes and in [WAIT_INIT], or has them with [lastPacketTime] set:
    the timeout check never meets a missing attribute or a [None]. *)
Lemma analyzer_on_byte_started (frame : InFrame) (b : Z)
    (self : analyzer.decoder) (result : option OutFrame) :
  (analyzer.currentState self = analyzer.WAIT_INIT
   \/ started (analyzer.packet self)) ->
  started (analyzer.packet (analyzer.on_byte frame b self result).2).
Proof.
  unfold analyzer.on_byte, analyzer.with_packet, started.
  intros [Hs|(q & T & Hq & HT)].
  - rewrite Hs. repeat case_match; simpl; eauto.
  - rewrite Hq. repeat case_match; simpl; eauto.
Qed.

Lemma analyzer_loop_started (frame : InFrame) (bytes : list Z) :
  forall (self : analyzer.decoder) (result : option OutFrame),
    (analyzer.currentState self = analyzer.WAIT_INIT
     /\ analyzer.packet self = None)
    \/ started (analyzer.packet self) ->
    let self' := (analyzer.for_byte_in frame bytes self result).2 in
    (analyzer.currentState self' = analyzer.WAIT_INIT
     /\ analyzer.packet self' = None)
    \/ started (analyzer.packet self').
Proof.
  induction bytes as [|b bytes IH]; intros self result Hinv; simpl; [done|].
  pose proof (analyzer_on_byte_started frame b self result
                ltac:(destruct Hinv as [[? _]|?]; eauto)) as Hs1.
  destruct (analyzer.on_byte frame b self result) as [fl s1].
  destruct fl; simpl in *; [by right| |by right].
  apply IH. by right.
Qed.

Lemma analyzer_decode_started (self : analyzer.decoder) (frame : InFrame) :
  (analyzer.currentState self = analyzer.WAIT_INIT
   /\ analyzer.packet self = None)
  \/ started (analyzer.packet self) ->
  let self' := (analyzer.decode self frame).2 in
  (analyzer.currentState self' = analyzer.WAIT_INIT
   /\ analyzer.packet self' = None)
  \/ started (analyzer.packet self').
Proof.
  intros Hinv.
  assert (Hpk : forall p, analyzer.packet self = Some p ->
                          started (analyzer.packet self))
    by (intros p Hp; destruct Hinv as [[_ ?]|?]; [congruence|done]).
  pose proof (fun bytes => analyzer_loop_started frame bytes self None Hinv)
    as Hloop.
  unfold analyzer.decode, analyzer.onReceived.
  destruct (get_data frame) as [bytes|]; [specialize (Hloop bytes)|];
    destruct (negb _); try done; destruct (bool_decide (is_Some _)); try done.
  destruct (bool_decide (_ <> _)); [|done].
  case_eq (analyzer.packet self); [intros p Hp|done].
  destruct (lastPacketTime p); [|done].
  destruct (time_lt _ _); [|done].
  right. simpl. by apply (Hpk p).
Qed.

Lemma analyzer_run_started (frames : list InFrame) :
  forall self,
    (analyzer.currentState self = analyzer.WAIT_INIT
     /\ analyzer.packet self = None)
    \/ started (analyzer.packet self) ->
    let self' := (analyzer.run self frames).2 in
    (analyzer.currentState self' = analyzer.WAIT_INIT
     /\ analyzer.packet self' = None)
    \/ started (analyzer.packet self').
Proof.
  induction frames as [|f frames IH]; intros self Hinv; [done|]. simpl.
  pose proof (analyzer_decode_started self f Hinv) as Hs1.
  destruct (analyzer.decode self f) as [o s1].
  specialize (IH s1 Hs1). by destruct (analyzer.run s1 frames).
Qed.

Lemma analyzer_run_frame_timeout (frames : list InFrame) :
  forall self,
    analyzer.frame_timeout (analyzer.run self frames).2
    = analyzer.frame_timeout self.
Proof.
  induction frames as [|f frames IH]; intros self; [done|]. simpl.
  pose proof (analyzer_decode_frame_timeout self f) as Hf.
  destruct (analyzer.decode self f) as [o s1]. specialize (IH s1).
  destruct (analyzer.run s1 frames). simpl in *. congruence.
Qed.

(** X2.  In [analyzer], on every object a host can reach with a transfer in
    progress, a chunk that ends later than [frame_timeout] after the
    start of the header chunk is answered with the Transfer Timeout error
    from that start to the end of the chunk; the state goes back to
    [WAIT_INIT] and nothing else changes: no byte of the chunk is taken. *)
Lemma analyzer_timeout_on_reachable (timeout : Q) (frames : list InFrame) :
  let self := (analyzer.run (analyzer.init timeout) frames).2 in
  analyzer.currentState self <> analyzer.WAIT_INIT ->
  exists p T,
    analyzer.packet self = Some p /\ lastPacketTime p = Some T /\
    analyzer.frame_timeout self = timeout /\
    forall frame bytes,
      get_data frame = Some bytes ->
      (T + timeout < end_time frame)%Q ->
      analyzer.onReceived self frame =
        (Returns (Some (timeout_frame T (end_time frame))),
         analyzer.set_currentState analyzer.WAIT_INIT self).
Proof.
  intros self Hs.
  destruct (analyzer_run_started frames (analyzer.init timeout)
              ltac:(by left)) as [[? _]|(p & T & Hp & HT)]; [done|].
  assert (HD : analyzer.frame_timeout self = timeout)
    by apply analyzer_run_frame_timeout.
  exists p, T. repeat split; try done.
  intros frame bytes Hd Hlt.
  apply (analyzer_timeout_fires self frame bytes p T); try done.
  by rewrite HD.
Qed.

(** * Further properties of the two classes *)

Lemma Hla_on_byte_started (frame : InFrame) (b : Z) (self : Hla.decoder) :
  (Hla.currentState self = Hla.WAIT_INIT \/ started (Hla.packet self)) ->
  started (Hla.packet (Hla.on_byte frame b self).2).
Proof.
  unfold Hla.on_byte, Hla.with_packet, started.
  intros [Hs|(q & T & Hq & HT)].
  - rewrite Hs. simpl. repeat case_match; simpl; eauto.
  - rewrite Hq. repeat case_match; simplify_eq/=; eauto.
Qed.

Lemma Hla_loop_started (frame : InFrame) (bytes : list Z) :
  forall (self : Hla.decoder),
    (Hla.currentState self = Hla.WAIT_INIT /\ Hla.packet self = None)
    \/ started (Hla.packet self) ->
    let self' := (Hla.for_byte_in frame bytes self).2 in
    (Hla.currentState self' = Hla.WAIT_INIT /\ Hla.packet self' = None)
    \/ started (Hla.packet self').
Proof.
  induction bytes as [|b bytes IH]; intros self Hinv; simpl; [done|].
  pose proof (Hla_on_byte_started frame b self
                ltac:(destruct Hinv as [[? _]|?]; eauto)) as Hs1.
  destruct (Hla.on_byte frame b self) as [fl s1].
  destruct fl; simpl in *; [by right| |by right].
  apply IH. by right.
Qed.

Lemma Hla_decode_started (self : Hla.decoder) (frame : InFrame) :
  (Hla.currentState self = Hla.WAIT_INIT /\ Hla.packet self = None)
  \/ started (Hla.packet self) ->
  let self' := (Hla.decode self frame).2 in
  (Hla.currentState self' = Hla.WAIT_INIT /\ Hla.packet self' = None)
  \/ started (Hla.packet self').
Proof.
  intros Hinv.
  assert (Hpk : forall p, Hla.packet self = Some p -> started (Hla.packet self))
    by (intros p Hp; destruct Hinv as [[_ ?]|?]; [congruence|done]).
  pose proof (fun bytes => Hla_loop_started frame bytes self Hinv) as Hloop.
  unfold Hla.decode, Hla.onReceived.
  destruct (get_data frame) as [bytes|]; [specialize (Hloop bytes)|];
    destruct (negb (String.eqb _ _)); try done;
    destruct (bool_decide (is_Some _)); try done.
  destruct (negb (_ =? _)); [|done].
  case_eq (Hla.packet self); [intros p Hp|done].
  destruct (lastPacketTime p); [|done].
  destruct (time_lt _ _); [|done].
  right. simpl. by apply (Hpk p).
Qed.

Lemma Hla_run_started (frames : list InFrame) :
  forall self,
    (Hla.currentState self = Hla.WAIT_INIT /\ Hla.packet self = None)
    \/ started (Hla.packet self) ->
    let self' := (Hla.run self frames).2 in
    (Hla.currentState self' = Hla.WAIT_INIT /\ Hla.packet self' = None)
    \/ started (Hla.packet self').
Proof.
  induction frames as [|f frames IH]; intros self Hinv; [done|]. simpl.
  pose proof (Hla_decode_started self f Hinv) as Hs1.
  destruct (Hla.decode self f) as [o s1].
  specialize (IH s1 Hs1). by destruct (Hla.run s1 frames).
Qed.

Lemma Hla_run_frame_timeout (frames : list InFrame) :
  forall self,
    Hla.frame_timeout (Hla.run self frames).2 = Hla.frame_timeout self.
Proof.
  induction frames as [|f frames IH]; intros self; [done|]. simpl.
  pose proof (Hla_decode_frame_timeout self f) as Hf.
  destruct (Hla.decode self f) as [o s1]. specialize (IH s1).
  destruct (Hla.run s1 frames). simpl in *. congruence.
Qed.

(** The state of [Hla] stays one of its seven constants. *)
Lemma Hla_on_byte_state (frame : InFrame) (b : Z) (self : Hla.decoder) :
  0 <= Hla.currentState self <= 6 ->
  0 <= Hla.currentState (Hla.on_byte frame b self).2 <= 6.
Proof.
  intros Hs. unfold Hla.on_byte, Hla.with_packet.
  repeat case_match; simpl; done.
Qed.

Lemma Hla_loop_state (frame : InFrame) (bytes : list Z) :
  forall self,
    0 <= Hla.currentState self <= 6 ->
    0 <= Hla.currentState (Hla.for_byte_in frame bytes self).2 <= 6.
Proof.
  induction bytes as [|b bytes IH]; intros self Hs; simpl; [done|].
  pose proof (Hla_on_byte_state frame b self Hs) as Hs1.
  destruct (Hla.on_byte frame b self) as [fl s1].
  destruct fl; simpl in *; [done|by apply IH|done].
Qed.

Lemma Hla_decode_state (self : Hla.decoder) (frame : InFrame) :
  0 <= Hla.currentState self <= 6 ->
  0 <= Hla.currentState (Hla.decode self frame).2 <= 6.
Proof.
  intros Hs. unfold Hla.decode, Hla.onReceived.
  destruct (get_data frame) as [bytes|].
  - pose proof (Hla_loop_state frame bytes self Hs).
    repeat case_match; simpl; done.
  - repeat case_match; simpl; done.
Qed.

Lemma Hla_run_state (frames : list InFrame) :
  forall self,
    0 <= Hla.currentState self <= 6 ->
    0 <= Hla.currentState (Hla.run self frames).2 <= 6.
Proof.
  induction frames as [|f frames IH]; intros self Hs; [done|]. simpl.
  pose proof (Hla_decode_state self f Hs) as Hs1.
  destruct (Hla.decode self f) as [o s1].
  specialize (IH s1 Hs1). by destruct (Hla.run s1 frames).
Qed.

(** X1.  Whatever frames a new object has been handed, its setting is
    still the one it was built with, its state is one of the seven states
    (in [Hla], one of the seven numbers, so that the chain of tests in the
    loop body always finds its branch), and while the state is not
    [WAIT_INIT] the packet attributes exist and [lastPacketTime] holds a
    time. *)
Theorem reachable_objects_well_formed (timeout : Q) (frames : list InFrame) :
  (let self := (analyzer.run (analyzer.init timeout) frames).2 in
   analyzer.frame_timeout self = timeout
   /\ (analyzer.currentState self <> analyzer.WAIT_INIT ->
       started (analyzer.packet self))) /\
  (let self := (Hla.run (Hla.init timeout) frames).2 in
   Hla.frame_timeout self = timeout
   /\ 0 <= Hla.currentState self <= 6
   /\ (Hla.currentState self <> Hla.WAIT_INIT -> started (Hla.packet self))).
Proof.
  split.
  - split; [apply analyzer_run_frame_timeout|]. intros Hs.
    by destruct (analyzer_run_started frames (analyzer.init timeout)
                   ltac:(by left)) as [[? _]|?].
  - split; [apply Hla_run_frame_timeout|].
    split; [by apply Hla_run_state|]. intros Hs.
    by destruct (Hla_run_started frames (Hla.init timeout)
                   ltac:(by left)) as [[? _]|?].
Qed.

Lemma analyzer_timeout_on_reachable_witness :
  let self :=
    (analyzer.run (analyzer.init (1 # 2)) (chunks_from 1 0 [0x90; 0x05])).2 in
  let p := mkPacket COMMAND_FRAME (Some (0 # 1000)) 0 "" 1 SINGLE_DEVICE_WRITE
             0x05 0 in
  analyzer.currentState self <> analyzer.WAIT_INIT /\
  exists p T,
    analyzer.packet self = Some p /\ lastPacketTime p = Some T /\
    analyzer.frame_timeout self = (1 # 2) /\
    forall frame bytes,
      get_data frame = Some bytes ->
      (T + (1 # 2) < end_time frame)%Q ->
      analyzer.onReceived self frame =
        (Returns (Some (timeout_frame T (end_time frame))),
         analyzer.set_currentState analyzer.WAIT_INIT self).
Proof.
  split; [discriminate|].
  apply (analyzer_timeout_on_reachable (1 # 2) (chunks_from 1 0 [0x90; 0x05])).
  discriminate.
Defined.

(** X3.  In [Hla], on every object a host can reach with a transfer in
    progress, a chunk that ends later than [0.01] after the start of the
    header chunk is answered with the Transfer Timeout error from that
    start to the end of the chunk; the state goes back to [WAIT_INIT] and
    nothing else changes: no byte of the chunk is taken. *)
Theorem Hla_timeout_on_reachable (timeout : Q) (frames : list InFrame) :
  let self := (Hla.run (Hla.init timeout) frames).2 in
  Hla.currentState self <> Hla.WAIT_INIT ->
  exists p T,
    Hla.packet self = Some p /\ lastPacketTime p = Some T /\
    forall frame bytes,
      get_data frame = Some bytes ->
      (T + (1 # 100) < end_time frame)%Q ->
      Hla.onReceived self frame =
        (Returns (Some (timeout_frame T (end_time frame))),
         Hla.set_currentState Hla.WAIT_INIT self).
Proof.
  intros self Hs.
  destruct (Hla_run_started frames (Hla.init timeout)
              ltac:(by left)) as [[? _]|(p & T & Hp & HT)]; [done|].
  exists p, T. repeat split; try done.
  intros frame bytes Hd Hlt.
  by apply (Hla_timeout_fires self frame bytes p T).
Qed.

Lemma Hla_timeout_on_reachable_witness :
  let self := (Hla.run (Hla.init 5) (chunks_from 1 0 [0x90; 0x05])).2 in
  Hla.currentState self <> Hla.WAIT_INIT /\
  exists p T,
    Hla.packet self = Some p /\ lastPacketTime p = Some T /\
    forall frame bytes,
      get_data frame = Some bytes ->
      (T + (1 # 100) < end_time frame)%Q ->
      Hla.onReceived self frame =
        (Returns (Some (timeout_frame T (end_time frame))),
         Hla.set_currentState Hla.WAIT_INIT self).
Proof.
  split; [discriminate|].
  apply (Hla_timeout_on_reachable 5 (chunks_from 1 0 [0x90; 0x05])).
  discriminate.
Defined.

(** * Exceptions *)

Lemma analyzer_on_byte_raises (frame : InFrame) (b : Z)
    (self : analyzer.decoder) (result : option OutFrame) (e : exn) :
  (analyzer.currentState self = analyzer.WAIT_INIT
   \/ started (analyzer.packet self)) ->
  (analyzer.on_byte frame b self result).1 = Raise e -> e = KeyError.
Proof.
  unfold analyzer.on_byte, analyzer.with_packet, analyzer.formatResult,
    getitem, started.
  intros [Hs|(q & T & Hq & HT)].
  - rewrite Hs. repeat case_match; simpl; done.
  - rewrite Hq. intros H.
    repeat (case_match; simplify_eq/=; try done).
Qed.

Lemma analyzer_loop_raises (frame : InFrame) (bytes : list Z) (e : exn) :
  forall (self : analyzer.decoder) (result : option OutFrame),
    (analyzer.currentState self = analyzer.WAIT_INIT
     \/ started (analyzer.packet self)) ->
    (analyzer.for_byte_in frame bytes self result).1 = Raises e ->
    e = KeyError.
Proof.
  induction bytes as [|b bytes IH]; intros self result Hinv; simpl; [done|].
  pose proof (analyzer_on_byte_raises frame b self result e Hinv) as Hr.
  pose proof (analyzer_on_byte_started frame b self result Hinv) as Hs1.
  destruct (analyzer.on_byte frame b self result) as [fl s1].
  destruct fl; simpl in *; [done| |].
  - apply IH. by right.
  - intros [= <-]. by apply Hr.
Qed.

Lemma analyzer_decode_raises (self : analyzer.decoder) (frame : InFrame)
    (e : exn) :
  (analyzer.currentState self = analyzer.WAIT_INIT /\ analyzer.packet self = None)
  \/ started (analyzer.packet self) ->
  (analyzer.decode self frame).1 = Raises e -> e = KeyError.
Proof.
  intros Hinv.
  assert (Hinv' : analyzer.currentState self = analyzer.WAIT_INIT
                  \/ started (analyzer.packet self))
    by (destruct Hinv as [[? _]|?]; eauto).
  pose proof (fun bytes => analyzer_loop_raises frame bytes e self None Hinv')
    as Hloop.
  unfold analyzer.decode, analyzer.onReceived.
  destruct (get_data frame) as [bytes|]; [specialize (Hloop bytes)|];
    destruct (negb _); try done; destruct (bool_decide (is_Some _)); try done.
  case_bool_decide as Hs; [|done].
  destruct Hinv as [[? _]|(q & T & Hq & HT)]; [done|].
  rewrite Hq, HT. by destruct (time_lt _ _).
Qed.

Lemma analyzer_run_raises (frames : list InFrame) :
  forall self,
    (analyzer.currentState self = analyzer.WAIT_INIT /\ analyzer.packet self = None)
    \/ started (analyzer.packet self) ->
    Forall (fun o => forall e, o = Raises e -> e = KeyError)
      (analyzer.run self frames).1.
Proof.
  induction frames as [|f frames IH]; intros self Hinv; simpl; [done|].
  pose proof (analyzer_decode_raises self f) as Hr.
  pose proof (analyzer_decode_started self f Hinv) as Hs1.
  destruct (analyzer.decode self f) as [o s1].
  specialize (IH s1 Hs1). destruct (analyzer.run s1 frames) as [out final].
  simpl in *. constructor; [|done].
  intros e ->. by apply Hr.
Qed.

Lemma Hla_on_byte_raises (frame : InFrame) (b : Z) (self : Hla.decoder)
    (e : exn) :
  (Hla.currentState self = Hla.WAIT_INIT \/ started (Hla.packet self)) ->
  (Hla.on_byte frame b self).1 = Raise e -> e = KeyError.
Proof.
  unfold Hla.on_byte, Hla.with_packet, Hla.frame_result, getitem, started.
  intros [Hs|(q & T & Hq & HT)].
  - rewrite Hs. simpl. repeat case_match; simpl; done.
  - rewrite Hq. intros H.
    repeat (case_match; simplify_eq/=; try done).
Qed.

Lemma Hla_loop_raises (frame : InFrame) (bytes : list Z) (e : exn) :
  forall (self : Hla.decoder),
    (Hla.currentState self = Hla.WAIT_INIT \/ started (Hla.packet self)) ->
    (Hla.for_byte_in frame bytes self).1 = Raises e ->
    e = KeyError.
Proof.
  induction bytes as [|b bytes IH]; intros self Hinv; simpl; [done|].
  pose proof (Hla_on_byte_raises frame b self e Hinv) as Hr.
  pose proof (Hla_on_byte_started frame b self Hinv) as Hs1.
  destruct (Hla.on_byte frame b self) as [fl s1].
  destruct fl; simpl in *; [done| |].
  - apply IH. by right.
  - intros [= <-]. by apply Hr.
Qed.

Lemma Hla_decode_raises (self : Hla.decoder) (frame : InFrame) (e : exn) :
  (Hla.currentState self = Hla.WAIT_INIT /\ Hla.packet self = None)
  \/ started (Hla.packet self) ->
  (Hla.decode self frame).1 = Raises e -> e = KeyError.
Proof.
  intros Hinv.
  assert (Hinv' : Hla.currentState self = Hla.WAIT_INIT
                  \/ started (Hla.packet self))
    by (destruct Hinv as [[? _]|?]; eauto).
  pose proof (fun bytes => Hla_loop_raises frame bytes e self Hinv') as Hloop.
  unfold Hla.decode, Hla.onReceived.
  destruct (get_data frame) as [bytes|]; [specialize (Hloop bytes)|];
    destruct (negb (String.eqb _ _)); try done;
    destruct (bool_decide (is_Some _)); try done.
  destruct (Z.eqb_spec (Hla.currentState self) Hla.WAIT_INIT) as [Hs|Hs];
    simpl; [done|].
  destruct Hinv as [[? _]|(q & T & Hq & HT)]; [done|].
  rewrite Hq, HT. by destruct (time_lt _ _).
Qed.

Lemma Hla_run_raises (frames : list InFrame) :
  forall self,
    (Hla.currentState self = Hla.WAIT_INIT /\ Hla.packet self = None)
    \/ started (Hla.packet self) ->
    Forall (fun o => forall e, o = Raises e -> e = KeyError)
      (Hla.run self frames).1.
Proof.
  induction frames as [|f frames IH]; intros self Hinv; simpl; [done|].
  pose proof (Hla_decode_raises self f) as Hr.
  pose proof (Hla_decode_started self f Hinv) as Hs1.
  destruct (Hla.decode self f) as [o s1].
  specialize (IH s1 Hs1). destruct (Hla.run s1 frames) as [out final].
  simpl in *. constructor; [|done].
  intros e ->. by apply Hr.
Qed.

(** X4.  Whatever frames a new object is handed, no call ever fails on a
    missing packet attribute or on a [lastPacketTime] that is [None]: the
    only exception a call can raise is the [KeyError] of a table lookup. *)
Theorem only_KeyError_is_raised (timeout : Q) (frames : list InFrame) :
  Forall (fun o => forall e, o = Raises e -> e = KeyError)
    (analyzer.run (analyzer.init timeout) frames).1 /\
  Forall (fun o => forall e, o = Raises e -> e = KeyError)
    (Hla.run (Hla.init timeout) frames).1.
Proof.
  split; [apply analyzer_run_raises|apply Hla_run_raises]; by left.
Qed.

(** * Idle objects, chunk tails *)

(** X5.  A call that finds the object in [WAIT_INIT] returns [None],
    whatever the frame and however long after the previous one: there is
    no timeout without a packet in progress, and a first byte is only ever
    taken as a header.  If the frame carries no byte the object is left as
    it was. *)
Theorem idle_call_returns_nothing (frame : InFrame) :
  (forall self,
     analyzer.currentState self = analyzer.WAIT_INIT ->
     (analyzer.decode self frame).1 = Returns None
     /\ (get_data frame = None \/ get_data frame = Some [] ->
         (analyzer.decode self frame).2 = self)) /\
  (forall self,
     Hla.currentState self = Hla.WAIT_INIT ->
     (Hla.decode self frame).1 = Returns None
     /\ (get_data frame = None \/ get_data frame = Some [] ->
         (Hla.decode self frame).2 = self)).
Proof.
  split; intros self Hs.
  - unfold analyzer.decode.
    destruct (negb _); [done|]. destruct (bool_decide _); [done|].
    destruct (get_data frame) as [[|b bytes]|] eqn:Hd.
    + unfold analyzer.onReceived. rewrite Hd, Hs. done.
    + rewrite (analyzer_header_step self frame b bytes Hs Hd).
      split; [done|]. by intros [?|?].
    + unfold analyzer.onReceived. rewrite Hd. done.
  - unfold Hla.decode.
    destruct (negb _); [done|]. destruct (bool_decide _); [done|].
    destruct (get_data frame) as [[|b bytes]|] eqn:Hd.
    + unfold Hla.onReceived. rewrite Hd, Hs. done.
    + rewrite (Hla_header_step self frame b bytes Hs Hd).
      split; [done|]. by intros [?|?].
    + unfold Hla.onReceived. rewrite Hd. done.
Qed.

Lemma idle_call_returns_nothing_witness :
  (analyzer.decode (analyzer.init (1 # 100)) (chunk [] 0 1)).1 = Returns None
  /\ (analyzer.decode (analyzer.init (1 # 100)) (chunk [] 0 1)).2
     = analyzer.init (1 # 100).
Proof.
  destruct (proj1 (idle_call_returns_nothing (chunk [] 0 1))
              (analyzer.init (1 # 100)) eq_refl) as [Hnone Hsame].
  split; [exact Hnone|]. apply Hsame. right. reflexivity.
Defined.

(** X6.  A call looks at the first byte of a chunk only: in [Hla] in
    each of the seven states, in [analyzer] in every state but
    [WAIT_CRC_2], the loop gives the same result and leaves the same
    object for a chunk as for its first byte alone. *)
Theorem chunk_tail_is_ignored (frame : InFrame) (byte : Z) (rest : list Z) :
  (forall self result,
     analyzer.currentState self <> analyzer.WAIT_CRC_2 ->
     analyzer.for_byte_in frame (byte :: rest) self result =
     analyzer.for_byte_in frame [byte] self result) /\
  (forall self,
     0 <= Hla.currentState self <= 6 ->
     Hla.for_byte_in frame (byte :: rest) self =
     Hla.for_byte_in frame [byte] self).
Proof.
  split.
  - intros self result Hs. by apply analyzer_only_first_byte.
  - intros self Hs. by apply Hla_only_first_byte.
Qed.

Lemma chunk_tail_is_ignored_witness :
  Hla.for_byte_in (chunk [0x90; 0x05] 0 1) [0x90; 0x05] (Hla.init 5)
  = Hla.for_byte_in (chunk [0x90; 0x05] 0 1) [0x90] (Hla.init 5).
Proof.
  apply (proj2 (chunk_tail_is_ignored (chunk [0x90; 0x05] 0 1) 0x90 [0x05])).
  vm_compute. split; discriminate.
Defined.

(** X7.  In [analyzer], a chunk whose first byte is the last checksum
    byte of a packet and which carries a further byte returns [None]: the
    frame result built for the checksum byte is dropped, and the second
    byte is taken as the header of the next packet, which starts at the
    start time of this same chunk. *)
Theorem analyzer_frame_dropped_by_following_header (self : analyzer.decoder)
    (frame : InFrame) (p : Packet) (T : Q) (r : OutFrame)
    (byte header : Z) (rest : list Z) :
  analyzer.currentState self = analyzer.WAIT_CRC_2 ->
  analyzer.packet self = Some p ->
  lastPacketTime p = Some T ->
  (end_time frame <= T + analyzer.frame_timeout self)%Q ->
  analyzer.formatResult
    (analyzer.set_currentState analyzer.WAIT_INIT
       (analyzer.set_packet
          (set_lastPacketChecksum (Z.lor (lastPacketChecksum p) byte) p) self))
    frame = inr r ->
  (get_data frame = Some [byte] ->
   (analyzer.onReceived self frame).1 = Returns (Some r)) /\
  (get_data frame = Some (byte :: header :: rest) ->
   analyzer.onReceived self frame =
     (Returns None,
      analyzer.mkDecoder (analyzer.frame_timeout self)
        (if Z.testbit header 7 &&
            negb (bool_decide (Z.land header REQ_TYPE_MASK = SINGLE_DEVICE_READ
                               \/ Z.land header REQ_TYPE_MASK = SINGLE_DEVICE_WRITE))
         then analyzer.WAIT_REG_ADDR_1 else analyzer.WAIT_DEV_ADDR)
        (Some (if Z.testbit header 7
               then mkPacket COMMAND_FRAME (Some (start_time frame)) 0 ""
                      (Z.land header REQ_DATA_SIZE_MASK + 1)
                      (Z.land header REQ_TYPE_MASK) 0 0
               else mkPacket RESPONSE_FRAME (Some (start_time frame)) 0 ""
                      (Z.land header RES_DATA_SIZE_MASK + 1) 0 0 0)))).
Proof.
  intros Hs Hp HT Hw Hfmt. split; intros Hd.
  - rewrite (analyzer_no_timeout self frame [byte] p T Hd Hp HT Hw).
    simpl. unfold analyzer.on_byte, analyzer.with_packet.
    by rewrite Hs, Hp, Hfmt.
  - rewrite (analyzer_no_timeout self frame _ p T Hd Hp HT Hw).
    cbn [analyzer.for_byte_in]. unfold analyzer.on_byte at 1, analyzer.with_packet.
    rewrite Hs, Hp, Hfmt. cbn [analyzer.for_byte_in].
    by rewrite analyzer_header_byte.
Qed.

Lemma analyzer_frame_dropped_by_following_header_witness :
  let self :=
    (analyzer.run (analyzer.init 1)
       (chunks_from 1 0 [0x90; 0x05; 0x00; 0x2A; 0xFF; 0x00])).2 in
  let frame := chunk [0x00; 0xA0] (6 # 1000) (7 # 1000) in
  analyzer.currentState self = analyzer.WAIT_CRC_2 /\
  analyzer.onReceived self frame =
    (Returns None,
     analyzer.mkDecoder 1 analyzer.WAIT_REG_ADDR_1
       (Some (mkPacket COMMAND_FRAME (Some (6 # 1000)) 0 "" 1 STACK_READ 0 0))).
Proof.
  intros self frame. split; [reflexivity|].
  apply (proj2 (analyzer_frame_dropped_by_following_header self frame
                  (mkPacket COMMAND_FRAME (Some (0 # 1000)) 0 "0xFF " 0
                     SINGLE_DEVICE_WRITE 0x05 0x2A)
                  (0 # 1000)
                  (mkAnalyzerFrame "frame" (0 # 1000) (7 # 1000)
                     {["message" :=
                         "Command - Single Device Write Device: 0x0005 Register: 0x002A Data: 0xFF "]})
                  0x00 0xA0 []
                  eq_refl eq_refl eq_refl
                  ltac:(by apply Qle_bool_iff) eq_refl)).
  reflexivity.
Defined.

(** * The payload counter *)

Lemma analyzer_on_byte_counter (frame : InFrame) (b : Z)
    (self : analyzer.decoder) (result : option OutFrame) :
  (forall p, analyzer.packet self = Some p ->
             counter_ok (state_value (analyzer.currentState self)) p) ->
  let self' := (analyzer.on_byte frame b self result).2 in
  forall p, analyzer.packet self' = Some p ->
            counter_ok (state_value (analyzer.currentState self')) p.
Proof.
  intros Hinv. unfold analyzer.on_byte, analyzer.with_packet.
  pose proof (Z.mod_pos_bound b 8 ltac:(lia)).
  pose proof (Z.mod_pos_bound b 128 ltac:(lia)).
  destruct (analyzer.packet self) as [q|] eqn:Hq.
  - destruct (Hinv q eq_refl) as (Hr & Hlow & Hzero). clear Hinv.
    unfold counter_ok.
    destruct (analyzer.currentState self); simpl in *;
      repeat (case_match; simplify_eq/=; try done);
      intros p Hp; try congruence; injection Hp as <-; simpl;
      rewrite ?land_REQ_DATA_SIZE_MASK, ?land_RES_DATA_SIZE_MASK; lia.
  - clear Hinv. unfold counter_ok.
    destruct (analyzer.currentState self); simpl in *;
      repeat (case_match; simplify_eq/=; try done);
      intros p Hp; try congruence; injection Hp as <-; simpl;
      rewrite ?land_REQ_DATA_SIZE_MASK, ?land_RES_DATA_SIZE_MASK; lia.
Qed.

Lemma analyzer_loop_counter (frame : InFrame) (bytes : list Z) :
  forall (self : analyzer.decoder) (result : option OutFrame),
    (forall p, analyzer.packet self = Some p ->
               counter_ok (state_value (analyzer.currentState self)) p) ->
    let self' := (analyzer.for_byte_in frame bytes self result).2 in
    forall p, analyzer.packet self' = Some p ->
              counter_ok (state_value (analyzer.currentState self')) p.
Proof.
  induction bytes as [|b bytes IH]; intros self result Hinv; simpl; [done|].
  pose proof (analyzer_on_byte_counter frame b self result Hinv) as Hs1.
  destruct (analyzer.on_byte frame b self result) as [fl s1].
  destruct fl; simpl in *; [done|by apply IH|done].
Qed.

Lemma analyzer_decode_counter (self : analyzer.decoder) (frame : InFrame) :
  (forall p, analyzer.packet self = Some p ->
             counter_ok (state_value (analyzer.currentState self)) p) ->
  let self' := (analyzer.decode self frame).2 in
  forall p, analyzer.packet self' = Some p ->
            counter_ok (state_value (analyzer.currentState self')) p.
Proof.
  intros Hinv.
  pose proof (fun bytes => analyzer_loop_counter frame bytes self None Hinv)
    as Hloop.
  assert (Hto : forall p, analyzer.packet self = Some p -> counter_ok 0 p).
  { intros p Hp. destruct (Hinv p Hp) as (? & _ & _). split; [done|]. lia. }
  unfold analyzer.decode, analyzer.onReceived.
  destruct (get_data frame) as [bytes|]; [specialize (Hloop bytes)|];
    destruct (negb _); try done; destruct (bool_decide (is_Some _)); try done.
  destruct (bool_decide (_ <> _)); [|done].
  case_eq (analyzer.packet self); [intros q Hq|done].
  destruct (lastPacketTime q); [|done].
  destruct (time_lt _ _); [|done].
  simpl. intros p Hp. apply Hto. congruence.
Qed.

Lemma analyzer_run_counter (frames : list InFrame) :
  forall self,
    (forall p, analyzer.packet self = Some p ->
               counter_ok (state_value (analyzer.currentState self)) p) ->
    let self' := (analyzer.run self frames).2 in
    forall p, analyzer.packet self' = Some p ->
              counter_ok (state_value (analyzer.currentState self')) p.
Proof.
  induction frames as [|f frames IH]; intros self Hinv; [done|]. simpl.
  pose proof (analyzer_decode_counter self f Hinv) as Hs1.
  destruct (analyzer.decode self f) as [o s1].
  specialize (IH s1 Hs1). by destruct (analyzer.run s1 frames).
Qed.

Lemma Hla_on_byte_counter (frame : InFrame) (b : Z) (self : Hla.decoder) :
  (forall p, Hla.packet self = Some p -> counter_ok (Hla.currentState self) p) ->
  let self' := (Hla.on_byte frame b self).2 in
  forall p, Hla.packet self' = Some p -> counter_ok (Hla.currentState self') p.
Proof.
  intros Hinv. unfold Hla.on_byte, Hla.with_packet.
  pose proof (Z.mod_pos_bound b 8 ltac:(lia)).
  pose proof (Z.mod_pos_bound b 128 ltac:(lia)).
  unfold Hla.WAIT_INIT, Hla.WAIT_DEV_ADDR, Hla.WAIT_REG_ADDR_1,
    Hla.WAIT_REG_ADDR_2, Hla.WAIT_DATA, Hla.WAIT_CRC_1, Hla.WAIT_CRC_2.
  destruct (Hla.packet self) as [q|] eqn:Hq.
  - destruct (Hinv q eq_refl) as (Hr & Hlow & Hzero). clear Hinv.
    unfold counter_ok.
    repeat (case_match; simplify_eq/=; try done);
      intros p Hp; try congruence; rewrite ?Hq in Hp; injection Hp as <-;
      simpl; rewrite ?land_REQ_DATA_SIZE_MASK, ?land_RES_DATA_SIZE_MASK; lia.
  - clear Hinv. unfold counter_ok.
    repeat (case_match; simplify_eq/=; try done);
      intros p Hp; try congruence; rewrite ?Hq in Hp; injection Hp as <-;
      simpl; rewrite ?land_REQ_DATA_SIZE_MASK, ?land_RES_DATA_SIZE_MASK; lia.
Qed.

Lemma Hla_loop_counter (frame : InFrame) (bytes : list Z) :
  forall (self : Hla.decoder),
    (forall p, Hla.packet self = Some p -> counter_ok (Hla.currentState self) p) ->
    let self' := (Hla.for_byte_in frame bytes self).2 in
    forall p, Hla.packet self' = Some p -> counter_ok (Hla.currentState self') p.
Proof.
  induction bytes as [|b bytes IH]; intros self Hinv; simpl; [done|].
  pose proof (Hla_on_byte_counter frame b self Hinv) as Hs1.
  destruct (Hla.on_byte frame b self) as [fl s1].
  destruct fl; simpl in *; [done|by apply IH|done].
Qed.

Lemma Hla_decode_counter (self : Hla.decoder) (frame : InFrame) :
  (forall p, Hla.packet self = Some p -> counter_ok (Hla.currentState self) p) ->
  let self' := (Hla.decode self frame).2 in
  forall p, Hla.packet self' = Some p -> counter_ok (Hla.currentState self') p.
Proof.
  intros Hinv.
  pose proof (fun bytes => Hla_loop_counter frame bytes self Hinv) as Hloop.
  assert (Hto : forall p, Hla.packet self = Some p -> counter_ok 0 p).
  { intros p Hp. destruct (Hinv p Hp) as (? & _ & _). split; [done|]. lia. }
  unfold Hla.decode, Hla.onReceived.
  destruct (get_data frame) as [bytes|]; [specialize (Hloop bytes)|];
    destruct (negb (String.eqb _ _)); try done;
    destruct (bool_decide (is_Some _)); try done.
  destruct (negb (_ =? _)); [|done].
  case_eq (Hla.packet self); [intros q Hq|done].
  destruct (lastPacketTime q); [|done].
  destruct (time_lt _ _); [|done].
  simpl. intros p Hp. apply Hto. congruence.
Qed.

Lemma Hla_run_counter (frames : list InFrame) :
  forall self,
    (forall p, Hla.packet self = Some p -> counter_ok (Hla.currentState self) p) ->
    let self' := (Hla.run self frames).2 in
    forall p, Hla.packet self' = Some p -> counter_ok (Hla.currentState self') p.
Proof.
  induction frames as [|f frames IH]; intros self Hinv; [done|]. simpl.
  pose proof (Hla_decode_counter self f Hinv) as Hs1.
  destruct (Hla.decode self f) as [o s1].
  specialize (IH s1 Hs1). by destruct (Hla.run s1 frames).
Qed.

(** X8.  Whatever frames a new object has been handed, and whatever
    numbers they carry, the remaining-payload counter [lastPacketDataSize]
    is between 0 and 128; it is at least 1 from the header until the last
    payload byte (states [WAIT_DEV_ADDR] to [WAIT_DATA]) and exactly 0
    while the checksum is awaited.  So the test [lastPacketDataSize <= 0]
    only ever meets 0, never a negative count. *)
Theorem payload_counter_stays_in_range (timeout : Q) (frames : list InFrame) :
  (let self := (analyzer.run (analyzer.init timeout) frames).2 in
   forall p, analyzer.packet self = Some p ->
     0 <= lastPacketDataSize p <= 128
     /\ (analyzer.currentState self = analyzer.WAIT_DEV_ADDR
         \/ analyzer.currentState self = analyzer.WAIT_REG_ADDR_1
         \/ analyzer.currentState self = analyzer.WAIT_REG_ADDR_2
         \/ analyzer.currentState self = analyzer.WAIT_DATA ->
         1 <= lastPacketDataSize p)
     /\ (analyzer.currentState self = analyzer.WAIT_CRC_1
         \/ analyzer.currentState self = analyzer.WAIT_CRC_2 ->
         lastPacketDataSize p = 0)) /\
  (let self := (Hla.run (Hla.init timeout) frames).2 in
   forall p, Hla.packet self = Some p ->
     0 <= lastPacketDataSize p <= 128
     /\ (Hla.currentState self = Hla.WAIT_DEV_ADDR
         \/ Hla.currentState self = Hla.WAIT_REG_ADDR_1
         \/ Hla.currentState self = Hla.WAIT_REG_ADDR_2
         \/ Hla.currentState self = Hla.WAIT_DATA ->
         1 <= lastPacketDataSize p)
     /\ (Hla.currentState self = Hla.WAIT_CRC_1
         \/ Hla.currentState self = Hla.WAIT_CRC_2 ->
         lastPacketDataSize p = 0)).
Proof.
  split; intros self p Hp.
  - destruct (analyzer_run_counter frames (analyzer.init timeout)
                ltac:(done) p Hp) as (Hr & Hlow & Hzero).
    fold self in Hlow, Hzero.
    split; [done|]. split.
    + intros Hs. apply Hlow.
      destruct Hs as [->|[->|[->| ->]]]; simpl; lia.
    + intros Hs. apply Hzero. destruct Hs as [->| ->]; simpl; lia.
  - destruct (Hla_run_counter frames (Hla.init timeout)
                ltac:(done) p Hp) as (Hr & Hlow & Hzero).
    fold self in Hlow, Hzero.
    split; [done|]. split.
    + intros Hs. apply Hlow.
      destruct Hs as [->|[->|[->| ->]]]; unfold Hla.WAIT_DEV_ADDR,
        Hla.WAIT_REG_ADDR_1, Hla.WAIT_REG_ADDR_2, Hla.WAIT_DATA; lia.
    + intros Hs. apply Hzero.
      destruct Hs as [->| ->]; unfold Hla.WAIT_CRC_1, Hla.WAIT_CRC_2; lia.
Qed.

Lemma payload_counter_stays_in_range_witness :
  let self := (Hla.run (Hla.init 5) (chunks_from 1 0 [0x93; 0x05])).2 in
  exists p,
    Hla.packet self = Some p
    /\ 0 <= lastPacketDataSize p <= 128
    /\ (Hla.currentState self = Hla.WAIT_DEV_ADDR
        \/ Hla.currentState self = Hla.WAIT_REG_ADDR_1
        \/ Hla.currentState self = Hla.WAIT_REG_ADDR_2
        \/ Hla.currentState self = Hla.WAIT_DATA ->
        1 <= lastPacketDataSize p)
    /\ (Hla.currentState self = Hla.WAIT_CRC_1
        \/ Hla.currentState self = Hla.WAIT_CRC_2 ->
        lastPacketDataSize p = 0).
Proof.
  intros self.
  exists (mkPacket COMMAND_FRAME (Some (0 * 1 # 1000)) 0 "" 4
            SINGLE_DEVICE_WRITE 0x05 0).
  split; [reflexivity|].
  apply (proj2 (payload_counter_stays_in_range 5
                  (chunks_from 1 0 [0x93; 0x05]))).
  reflexivity.
Defined.

(** * What the header fixes *)

(** X9.  A byte met in any state but [WAIT_INIT] leaves [lastPacketTime],
    [lastPacketType] and [lastPacketCommandType] as the header set them:
    the time the timeout is counted from is the start of the header chunk
    until the packet ends, and is not moved by the bytes that follow. *)
Theorem header_fields_kept_by_later_bytes (frame : InFrame) (b : Z) :
  (forall self result p,
     analyzer.currentState self <> analyzer.WAIT_INIT ->
     analyzer.packet self = Some p ->
     exists p',
       analyzer.packet (analyzer.on_byte frame b self result).2 = Some p'
       /\ lastPacketTime p' = lastPacketTime p
       /\ lastPacketType p' = lastPacketType p
       /\ lastPacketCommandType p' = lastPacketCommandType p) /\
  (forall self p,
     Hla.currentState self <> Hla.WAIT_INIT ->
     Hla.packet self = Some p ->
     exists p',
       Hla.packet (Hla.on_byte frame b self).2 = Some p'
       /\ lastPacketTime p' = lastPacketTime p
       /\ lastPacketType p' = lastPacketType p
       /\ lastPacketCommandType p' = lastPacketCommandType p).
Proof.
  split.
  - intros self result p Hs Hp. unfold analyzer.on_byte, analyzer.with_packet.
    rewrite Hp.
    destruct (analyzer.currentState self); [done|..]; simpl;
      repeat case_match; simpl; eauto.
  - intros self p Hs Hp. unfold Hla.on_byte, Hla.with_packet.
    rewrite Hp. apply Z.eqb_neq in Hs. rewrite Hs.
    repeat case_match; simpl; eauto.
Qed.

Lemma header_fields_kept_by_later_bytes_witness :
  let p := mkPacket COMMAND_FRAME (Some 0%Q) 0 "" 2 SINGLE_DEVICE_WRITE
             0x05 0x0102 in
  let self := Hla.mkDecoder 5 Hla.WAIT_DATA (Some p) in
  exists p',
    Hla.packet (Hla.on_byte (chunk [0xAA] 1 2) 0xAA self).2 = Some p'
    /\ lastPacketTime p' = lastPacketTime p
    /\ lastPacketType p' = lastPacketType p
    /\ lastPacketCommandType p' = lastPacketCommandType p.
Proof.
  intros p self.
  apply (proj2 (header_fields_kept_by_later_bytes (chunk [0xAA] 1 2) 0xAA)
           self p); [vm_compute; discriminate|reflexivity].
Defined.

(** * What a result is *)

Lemma analyzer_formatResult_shape (self : analyzer.decoder) (frame : InFrame)
    (r : OutFrame) :
  analyzer.formatResult self frame = inr r ->
  type r = "frame" /\ end_time r = end_time frame
  /\ (exists p, analyzer.packet self = Some p
                /\ lastPacketTime p = Some (start_time r))
  /\ exists message, data r = {["message" := message]}.
Proof.
  unfold analyzer.formatResult, getitem.
  destruct (analyzer.packet self) as [p|]; [|done]. intros H.
  repeat (case_match; simplify_eq/=; try done); eauto 10.
Qed.

Lemma analyzer_loop_shape (frame : InFrame) (bytes : list Z) :
  forall (self self' : analyzer.decoder) (result : option OutFrame) (r : OutFrame),
    (forall r0, result = Some r0 -> analyzer.formatResult self frame = inr r0) ->
    analyzer.for_byte_in frame bytes self result = (Returns (Some r), self') ->
    analyzer.formatResult self' frame = inr r.
Proof.
  induction bytes as [|b bytes IH]; intros self self' result r Hres; simpl.
  - intros [= -> ->]. by apply Hres.
  - destruct (analyzer.on_byte frame b self result) as [fl s1] eqn:E.
    unfold analyzer.on_byte, analyzer.with_packet in E.
    destruct fl as [r1|result1|e]; [| |done].
    + intros [= -> ->].
      repeat (case_match; simplify_eq/=; try done).
    + apply IH. intros r0 ->.
      repeat (case_match; simplify_eq/=; try done).
Qed.

Lemma Hla_frame_result_shape (p : Packet) (frame : InFrame) (r : OutFrame) :
  Hla.frame_result p frame = inr r ->
  type r = "frame" /\ end_time r = end_time frame
  /\ lastPacketTime p = Some (start_time r)
  /\ exists frame_type command_type,
       data r = frame_fields frame_type command_type
                  (lastPacketDeviceAddress p) (lastPacketRegisterAddress p)
                  (lastPacketData p).
Proof.
  unfold Hla.frame_result, getitem. intros H.
  repeat (case_match; simplify_eq/=; try done); eauto 10.
Qed.

Lemma Hla_loop_shape (frame : InFrame) (bytes : list Z) :
  forall (self self' : Hla.decoder) (r : OutFrame),
    Hla.for_byte_in frame bytes self = (Returns (Some r), self') ->
    exists p, Hla.packet self' = Some p /\ Hla.frame_result p frame = inr r.
Proof.
  induction bytes as [|b bytes IH]; intros self self' r; simpl; [done|].
  destruct (Hla.on_byte frame b self) as [fl s1] eqn:E.
  unfold Hla.on_byte, Hla.with_packet in E.
  destruct fl as [r1|result1|e]; [|by apply IH|done].
  intros [= -> ->].
  repeat (case_match; simplify_eq/=; try done); eauto.
Qed.

(** X10.  Every result a call returns ends at the end of the frame just
    handed in and starts at [lastPacketTime], the start of the header
    chunk of the packet it reports, and the object is left in
    [WAIT_INIT].  It is either a frame, of type ['frame'], whose
    dictionary in [analyzer] is the one entry ['message'] and in [Hla]
    the five entries of the packet, or the error of type ['error_frame']
    with the one entry ['error_reason'], ['Transfer Timeout']. *)
Theorem result_span_and_entries :
  (forall self frame r self',
     analyzer.decode self frame = (Returns (Some r), self') ->
     end_time r = end_time frame
     /\ analyzer.currentState self' = analyzer.WAIT_INIT
     /\ (exists p, analyzer.packet self' = Some p
                   /\ lastPacketTime p = Some (start_time r))
     /\ ((type r = "frame" /\ exists message, data r = {["message" := message]})
         \/ (type r = "error_frame"
             /\ data r = {["error_reason" := "Transfer Timeout"]}))) /\
  (forall self frame r self',
     Hla.decode self frame = (Returns (Some r), self') ->
     end_time r = end_time frame
     /\ Hla.currentState self' = Hla.WAIT_INIT
     /\ exists p, Hla.packet self' = Some p
          /\ lastPacketTime p = Some (start_time r)
          /\ ((type r = "frame"
               /\ exists frame_type command_type,
                    data r = frame_fields frame_type command_type
                               (lastPacketDeviceAddress p)
                               (lastPacketRegisterAddress p) (lastPacketData p))
              \/ (type r = "error_frame"
                  /\ data r = {["error_reason" := "Transfer Timeout"]}))).
Proof.
  split; intros self frame r self' Hdec.
  - split; [|split; [by eapply analyzer_result_resets|]]; revert Hdec;
      unfold analyzer.decode, analyzer.onReceived;
      (destruct (get_data frame) as [bytes|];
       [pose proof (analyzer_loop_shape frame bytes self self' None r
                      ltac:(done)) as Hloop|]);
      destruct (negb _); try done; destruct (bool_decide (is_Some _)); try done.
    + destruct (bool_decide (_ <> _));
        [|by intros (_ & ? & _)%Hloop%analyzer_formatResult_shape].
      destruct (analyzer.packet self) as [p|]; [|done].
      destruct (lastPacketTime p); [|done].
      destruct (time_lt _ _);
        [|by intros (_ & ? & _)%Hloop%analyzer_formatResult_shape].
      by intros [= <- <-].
    + destruct (bool_decide (_ <> _));
        [|intros (? & _ & ? & ?)%Hloop%analyzer_formatResult_shape; eauto].
      destruct (analyzer.packet self) as [p|] eqn:Hp; [|done].
      destruct (lastPacketTime p) eqn:HT; [|done].
      destruct (time_lt _ _);
        [|intros (? & _ & ? & ?)%Hloop%analyzer_formatResult_shape; eauto].
      intros [= <- <-]. simpl. split; [eauto|]. by right.
  - split; [|split; [by eapply Hla_result_resets|]]; revert Hdec;
      unfold Hla.decode, Hla.onReceived;
      (destruct (get_data frame) as [bytes|];
       [pose proof (Hla_loop_shape frame bytes self self' r) as Hloop|]);
      destruct (negb (String.eqb _ _)); try done;
      destruct (bool_decide (is_Some _)); try done.
    + destruct (negb (_ =? _));
        [|by intros (? & _ & (_ & ? & _)%Hla_frame_result_shape)%Hloop].
      destruct (Hla.packet self) as [p|]; [|done].
      destruct (lastPacketTime p); [|done].
      destruct (time_lt _ _);
        [|by intros (? & _ & (_ & ? & _)%Hla_frame_result_shape)%Hloop].
      by intros [= <- <-].
    + destruct (negb (_ =? _));
        [|intros (pk & ? & (? & _ & ? & ?)%Hla_frame_result_shape)%Hloop;
          exists pk; eauto].
      destruct (Hla.packet self) as [p|] eqn:Hp; [|done].
      destruct (lastPacketTime p) eqn:HT; [|done].
      destruct (time_lt _ _);
        [|intros (pk & ? & (? & _ & ? & ?)%Hla_frame_result_shape)%Hloop;
          exists pk; eauto].
      intros [= <- <-]. simpl. exists p. split; [done|]. split; [done|]. by right.
Qed.

Lemma result_span_and_entries_witness :
  let self :=
    analyzer.mkDecoder (1 # 100) analyzer.WAIT_CRC_2
      (Some (mkPacket RESPONSE_FRAME (Some (0 # 1000)) 0x1200 "0xAA " 0 0
               0x01 0x10)) in
  let frame := chunk [0x34] (1 # 1000) (2 # 1000) in
  exists r self',
    analyzer.decode self frame = (Returns (Some r), self')
    /\ end_time r = end_time frame
    /\ analyzer.currentState self' = analyzer.WAIT_INIT
    /\ (exists p, analyzer.packet self' = Some p
                  /\ lastPacketTime p = Some (start_time r))
    /\ ((type r = "frame" /\ exists message, data r = {["message" := message]})
        \/ (type r = "error_frame"
            /\ data r = {["error_reason" := "Transfer Timeout"]})).
Proof.
  intros self frame.
  exists (mkAnalyzerFrame "frame" (0 # 1000) (2 # 1000)
            {["message" :=
                frame_message "Response" None (Some 0x01) 0x10 "0xAA "]}),
         (analyzer.mkDecoder (1 # 100) analyzer.WAIT_INIT
            (Some (mkPacket RESPONSE_FRAME (Some (0 # 1000)) 0x1234 "0xAA " 0
                     0 0x01 0x10))).
  split; [vm_compute; reflexivity|].
  apply (proj1 result_span_and_entries self frame).
  vm_compute; reflexivity.
Defined.

(** X11.  [result_types] declares a display format for the types
    ['frame'] and ['error'] only.  Every frame result a call returns has
    a declared format; every Transfer Timeout result has none, its type
    being ['error_frame']. *)
Theorem timeout_result_has_no_declared_format :
  (forall self frame r self',
     analyzer.decode self frame = (Returns (Some r), self') ->
     (is_Some (analyzer_result_types !! type r) /\ type r = "frame")
     \/ (analyzer_result_types !! type r = None
         /\ exists T, r = timeout_frame T (end_time frame))) /\
  (forall self frame r self',
     Hla.decode self frame = (Returns (Some r), self') ->
     (is_Some (Hla_result_types !! type r) /\ type r = "frame")
     \/ (Hla_result_types !! type r = None
         /\ exists T, r = timeout_frame T (end_time frame))).
Proof.
  split; intros self frame r self'.
  - unfold analyzer.decode.
    destruct (negb _); [done|]. destruct (bool_decide _); [done|].
    intros [Ht|[T ->]]%analyzer_results.
    + left. rewrite Ht. split; [by eexists|done].
    + right. split; [done|by exists T].
  - unfold Hla.decode.
    destruct (negb _); [done|]. destruct (bool_decide _); [done|].
    intros [Ht|[T ->]]%Hla_results.
    + left. rewrite Ht. split; [by eexists|done].
    + right. split; [done|by exists T].
Qed.

Lemma timeout_result_has_no_declared_format_witness :
  let self :=
    Hla.mkDecoder 5 Hla.WAIT_DEV_ADDR
      (Some (mkPacket COMMAND_FRAME (Some (0 # 1000)) 0 "" 1
               SINGLE_DEVICE_WRITE 0 0)) in
  let frame := chunk [0x05] (20 # 1000) (21 # 1000) in
  let r := timeout_frame (0 # 1000) (21 # 1000) in
  Hla.decode self frame = (Returns (Some r), Hla.set_currentState Hla.WAIT_INIT self)
  /\ ((is_Some (Hla_result_types !! type r) /\ type r = "frame")
      \/ (Hla_result_types !! type r = None
          /\ exists T, r = timeout_frame T (end_time frame))).
Proof.
  intros self frame r.
  split; [vm_compute; reflexivity|].
  apply (proj2 timeout_result_has_no_declared_format self frame r
           (Hla.set_currentState Hla.WAIT_INIT self)).
  vm_compute; reflexivity.
Defined.

(** * Whole frames of the other kinds *)

(** X12.  A whole Response frame, one byte per chunk and in time: a
    header with bit 7 clear, one device address byte, two register
    address bytes, [(header & 0x7f) + 1] payload bytes and two checksum
    bytes.  Nothing is returned before the last checksum byte; on it one
    frame is returned, from the start of the header chunk to the end of
    the last chunk.  In [analyzer] its message names the category
    Response, the device, the register [(high << 8) | low] and the
    payload bytes in order, and no command.  In [Hla] its ['command_type']
    is ['Single Device Read'], the label of the [0] that [initPacket]
    leaves in [lastPacketCommandType]. *)
Theorem response_frame_decoded
    (h dev rh rl ch cl : Z) (payload : list Z)
    (f0 fdev frh frl fch fcl : InFrame) (fpay : list InFrame) :
  Z.testbit h 7 = false ->
  Z.of_nat (length payload) = Z.land h 0x7f + 1 ->
  one_byte f0 h -> one_byte fdev dev -> one_byte frh rh -> one_byte frl rl ->
  Forall2 one_byte fpay payload ->
  one_byte fch ch -> one_byte fcl cl ->
  let rest := (fdev :: frh :: frl :: fpay ++ [fch; fcl])%list in
  let register := Z.lor (Z.shiftl rh 8) rl in
  (forall self,
     analyzer.currentState self = analyzer.WAIT_INIT ->
     Forall (within (start_time f0) (analyzer.frame_timeout self)) rest ->
     (analyzer.run self (f0 :: rest)).1 =
       (replicate (5 + length payload) (Returns None)
        ++ [Returns (Some (mkAnalyzerFrame "frame" (start_time f0) (end_time fcl)
              {["message" :=
                  frame_message "Response" None (Some dev) register
                    (payload_text true payload "")]}))])%list) /\
  (forall self,
     Hla.currentState self = Hla.WAIT_INIT ->
     Forall (within (start_time f0) (1 # 100)) rest ->
     (Hla.run self (f0 :: rest)).1 =
       (replicate (5 + length payload) (Returns None)
        ++ [Returns (Some (mkAnalyzerFrame "frame" (start_time f0) (end_time fcl)
              (frame_fields "Response" "Single Device Read" dev register
                 (payload_text false payload ""))))])%list).
Proof.
  intros Hbit Hlen Hf0 Hdev Hrh Hrl Hpay Hch Hcl rest register.
  split; intros self Hs Hw.
  - pose proof (analyzer_frame_run self h dev rh rl ch cl payload
                  f0 frh frl fch fcl [fdev] fpay) as Hrun.
    cbv zeta in Hrun. rewrite Hbit in Hrun. cbn [negb orb] in Hrun.
    rewrite analyzer_formatResult_response in Hrun.
    subst rest. simpl app in Hrun |- *.
    rewrite Hrun by (done || by constructor). done.
  - pose proof (Hla_frame_run self h dev rh rl ch cl payload
                  f0 frh frl fch fcl [fdev] fpay) as Hrun.
    cbv zeta in Hrun. rewrite Hbit in Hrun. cbn [negb orb] in Hrun.
    rewrite Hla_frame_result_response in Hrun.
    subst rest. simpl app in Hrun |- *.
    rewrite Hrun by (done || by constructor). done.
Qed.

Lemma response_frame_decoded_witness :
  (Hla.run (Hla.init 1)
     (chunks_from 1 0 [0x01; 0x02; 0x00; 0x10; 0xAA; 0xBB; 0x12; 0x34])).1 =
  (replicate 7 (Returns None)
   ++ [Returns (Some (mkAnalyzerFrame "frame" (0 # 1000) (8 # 1000)
         (frame_fields "Response" "Single Device Read" 0x02 0x10
            "0xaa 0xbb ")))])%list.
Proof.
  apply (proj2 (response_frame_decoded 0x01 0x02 0x00 0x10 0x12 0x34 [0xAA; 0xBB]
                  (chunk [0x01] (0 # 1000) (1 # 1000))
                  (chunk [0x02] (1 # 1000) (2 # 1000))
                  (chunk [0x00] (2 # 1000) (3 # 1000))
                  (chunk [0x10] (3 # 1000) (4 # 1000))
                  (chunk [0x12] (6 # 1000) (7 # 1000))
                  (chunk [0x34] (7 # 1000) (8 # 1000))
                  [chunk [0xAA] (4 # 1000) (5 # 1000);
                   chunk [0xBB] (5 # 1000) (6 # 1000)]
                  eq_refl eq_refl
                  ltac:(by repeat split) ltac:(by repeat split)
                  ltac:(by repeat split) ltac:(by repeat split)
                  ltac:(by repeat constructor)
                  ltac:(by repeat split) ltac:(by repeat split))
           (Hla.init 1) eq_refl).
  repeat constructor; by apply Qle_bool_iff.
Defined.

(** X13.  A whole Stack or Broadcast command frame, one byte per chunk and
    in time: a header with bit 7 set whose command type is in the table
    and is neither Single Device Read nor Single Device Write, then at
    once the two register address bytes, [(header & 0x07) + 1] payload
    bytes and two checksum bytes: no byte is taken as a device address.
    On the last checksum byte one frame is returned.  In [analyzer] its
    message has no device part; in [Hla] its ['device_address'] is the
    [hex] of the [0] that [initPacket] set. *)
Theorem stack_or_broadcast_frame_decoded
    (h rh rl ch cl : Z) (label : string) (payload : list Z)
    (f0 frh frl fch fcl : InFrame) (fpay : list InFrame) :
  Z.testbit h 7 = true ->
  COMMAND_TYPE_MAP !! Z.land h REQ_TYPE_MASK = Some label ->
  Z.land h REQ_TYPE_MASK <> SINGLE_DEVICE_READ ->
  Z.land h REQ_TYPE_MASK <> SINGLE_DEVICE_WRITE ->
  Z.of_nat (length payload) = Z.land h 0x07 + 1 ->
  one_byte f0 h -> one_byte frh rh -> one_byte frl rl ->
  Forall2 one_byte fpay payload ->
  one_byte fch ch -> one_byte fcl cl ->
  let rest := (frh :: frl :: fpay ++ [fch; fcl])%list in
  let register := Z.lor (Z.shiftl rh 8) rl in
  (forall self,
     analyzer.currentState self = analyzer.WAIT_INIT ->
     Forall (within (start_time f0) (analyzer.frame_timeout self)) rest ->
     (analyzer.run self (f0 :: rest)).1 =
       (replicate (4 + length payload) (Returns None)
        ++ [Returns (Some (mkAnalyzerFrame "frame" (start_time f0) (end_time fcl)
              {["message" :=
                  frame_message "Command" (Some label) None register
                    (payload_text true payload "")]}))])%list) /\
  (forall self,
     Hla.currentState self = Hla.WAIT_INIT ->
     Forall (within (start_time f0) (1 # 100)) rest ->
     (Hla.run self (f0 :: rest)).1 =
       (replicate (4 + length payload) (Returns None)
        ++ [Returns (Some (mkAnalyzerFrame "frame" (start_time f0) (end_time fcl)
              (frame_fields "Command" label 0 register
                 (payload_text false payload ""))))])%list).
Proof.
  intros Hbit Hlabel Hnr Hnw Hlen Hf0 Hrh Hrl Hpay Hch Hcl rest register.
  assert (Hns : ~ (Z.land h REQ_TYPE_MASK = SINGLE_DEVICE_READ
                   \/ Z.land h REQ_TYPE_MASK = SINGLE_DEVICE_WRITE)) by tauto.
  split; intros self Hs Hw.
  - pose proof (analyzer_frame_run self h 0 rh rl ch cl payload
                  f0 frh frl fch fcl [] fpay) as Hrun.
    cbv zeta in Hrun. rewrite Hbit in Hrun. cbn [negb orb] in Hrun.
    rewrite (bool_decide_eq_false_2 _ Hns) in Hrun.
    rewrite (analyzer_formatResult_command _ _ _ _ _ _ _ _ _ label) in Hrun by done.
    rewrite (bool_decide_eq_false_2 _ Hns) in Hrun.
    subst rest. simpl app in Hrun |- *.
    rewrite Hrun by (done || by constructor). done.
  - pose proof (Hla_frame_run self h 0 rh rl ch cl payload
                  f0 frh frl fch fcl [] fpay) as Hrun.
    cbv zeta in Hrun. rewrite Hbit in Hrun. cbn [negb orb] in Hrun.
    rewrite (bool_decide_eq_false_2 _ Hns) in Hrun.
    rewrite (Hla_frame_result_command _ _ _ _ _ _ _ label) in Hrun.
    2:{ rewrite <- Hlabel. f_equal.
        rewrite <- Z.land_assoc. by rewrite Z.land_diag. }
    subst rest. simpl app in Hrun |- *.
    rewrite Hrun by (done || by constructor). done.
Qed.

Lemma stack_or_broadcast_frame_decoded_witness :
  (analyzer.run (analyzer.init 1)
     (chunks_from 1 0 [0xE1; 0x03; 0x07; 0x11; 0x22; 0x00; 0x00])).1 =
  (replicate 6 (Returns None)
   ++ [Returns (Some (mkAnalyzerFrame "frame" (0 # 1000) (7 # 1000)
         {["message" :=
             "Command - Broadcast Write Reverse Register: 0x0307 Data: 0x11 0x22 "]}))])%list.
Proof.
  apply (proj1 (stack_or_broadcast_frame_decoded 0xE1 0x03 0x07 0x00 0x00
                  "Broadcast Write Reverse" [0x11; 0x22]
                  (chunk [0xE1] (0 # 1000) (1 # 1000))
                  (chunk [0x03] (1 # 1000) (2 # 1000))
                  (chunk [0x07] (2 # 1000) (3 # 1000))
                  (chunk [0x00] (5 # 1000) (6 # 1000))
                  (chunk [0x00] (6 # 1000) (7 # 1000))
                  [chunk [0x11] (3 # 1000) (4 # 1000);
                   chunk [0x22] (4 # 1000) (5 # 1000)]
                  eq_refl eq_refl ltac:(discriminate) ltac:(discriminate) eq_refl
                  ltac:(by repeat split)
                  ltac:(by repeat split) ltac:(by repeat split)
                  ltac:(by repeat constructor)
                  ltac:(by repeat split) ltac:(by repeat split))
           (analyzer.init 1) eq_refl).
  repeat constructor; by apply Qle_bool_iff.
Defined.

(** X14.  A whole command frame whose command bits are in no entry of the
    table (header bits 6-4 all set), one byte per chunk and in time: the
    header, at once the two register address bytes, [(header & 0x07) + 1]
    payload bytes and two checksum bytes.  Every call returns [None] but
    the last, which raises [KeyError] from the lookup of the command
    label; by then the state is back to [WAIT_INIT] and the packet is
    complete, so the object goes on as after a frame. *)
Theorem unknown_command_frame_raises
    (h rh rl ch cl : Z) (payload : list Z)
    (f0 frh frl fch fcl : InFrame) (fpay : list InFrame) :
  Z.testbit h 7 = true ->
  COMMAND_TYPE_MAP !! Z.land h REQ_TYPE_MASK = None ->
  Z.of_nat (length payload) = Z.land h 0x07 + 1 ->
  one_byte f0 h -> one_byte frh rh -> one_byte frl rl ->
  Forall2 one_byte fpay payload ->
  one_byte fch ch -> one_byte fcl cl ->
  let rest := (frh :: frl :: fpay ++ [fch; fcl])%list in
  let packet upper :=
    mkPacket COMMAND_FRAME (Some (start_time f0)) (Z.lor (Z.shiftl ch 8) cl)
      (payload_text upper payload "") 0 0x70 0 (Z.lor (Z.shiftl rh 8) rl) in
  (forall self,
     analyzer.currentState self = analyzer.WAIT_INIT ->
     Forall (within (start_time f0) (analyzer.frame_timeout self)) rest ->
     analyzer.run self (f0 :: rest) =
       ((replicate (4 + length payload) (Returns None)
         ++ [Raises KeyError])%list,
        analyzer.mkDecoder (analyzer.frame_timeout self) analyzer.WAIT_INIT
          (Some (packet true)))) /\
  (forall self,
     Hla.currentState self = Hla.WAIT_INIT ->
     Forall (within (start_time f0) (1 # 100)) rest ->
     Hla.run self (f0 :: rest) =
       ((replicate (4 + length payload) (Returns None)
         ++ [Raises KeyError])%list,
        Hla.mkDecoder (Hla.frame_timeout self) Hla.WAIT_INIT
          (Some (packet false)))).
Proof.
  intros Hbit Hcmd Hlen Hf0 Hrh Hrl Hpay Hch Hcl rest packet.
  apply unknown_command_pattern in Hcmd.
  assert (Hns : ~ (Z.land h REQ_TYPE_MASK = SINGLE_DEVICE_READ
                   \/ Z.land h REQ_TYPE_MASK = SINGLE_DEVICE_WRITE))
    by (rewrite Hcmd; by intros [?|?]).
  split; intros self Hs Hw.
  - pose proof (analyzer_frame_run self h 0 rh rl ch cl payload
                  f0 frh frl fch fcl [] fpay) as Hrun.
    cbv zeta in Hrun. rewrite Hbit in Hrun. cbn [negb orb] in Hrun.
    rewrite (bool_decide_eq_false_2 _ Hns), Hcmd in Hrun.
    subst rest packet. simpl app in Hrun |- *.
    rewrite Hrun by (done || by constructor). done.
  - pose proof (Hla_frame_run self h 0 rh rl ch cl payload
                  f0 frh frl fch fcl [] fpay) as Hrun.
    cbv zeta in Hrun. rewrite Hbit in Hrun. cbn [negb orb] in Hrun.
    rewrite (bool_decide_eq_false_2 _ Hns), Hcmd in Hrun.
    subst rest packet. simpl app in Hrun |- *.
    rewrite Hrun by (done || by constructor). done.
Qed.

Lemma unknown_command_frame_raises_witness :
  analyzer.run (analyzer.init 1)
    (chunks_from 1 0 [0xF0; 0x03; 0x07; 0x11; 0x00; 0x00]) =
  ((replicate 5 (Returns None) ++ [Raises KeyError])%list,
   analyzer.mkDecoder 1 analyzer.WAIT_INIT
     (Some (mkPacket COMMAND_FRAME (Some (0 # 1000)) 0 "0x11 " 0 0x70 0 0x0307))).
Proof.
  apply (proj1 (unknown_command_frame_raises 0xF0 0x03 0x07 0x00 0x00 [0x11]
                  (chunk [0xF0] (0 # 1000) (1 # 1000))
                  (chunk [0x03] (1 # 1000) (2 # 1000))
                  (chunk [0x07] (2 # 1000) (3 # 1000))
                  (chunk [0x00] (4 # 1000) (5 # 1000))
                  (chunk [0x00] (5 # 1000) (6 # 1000))
                  [chunk [0x11] (3 # 1000) (4 # 1000)]
                  eq_refl eq_refl eq_refl
                  ltac:(by repeat split)
                  ltac:(by repeat split) ltac:(by repeat split)
                  ltac:(by repeat constructor)
                  ltac:(by repeat split) ltac:(by repeat split))
           (analyzer.init 1) eq_refl).
  repeat constructor; by apply Qle_bool_iff.
Defined.

(** * Reading the rendered numbers back *)

Lemma hex_digit_value (upper : bool) (d : Z) :
  0 <= d < 16 ->
  HexString.ascii_to_digit (hex_digit upper d) = Some (Z.to_N d).
Proof.
  intros Hd.
  assert (d = 0 \/ d = 1 \/ d = 2 \/ d = 3 \/ d = 4 \/ d = 5 \/ d = 6 \/ d = 7
          \/ d = 8 \/ d = 9 \/ d = 10 \/ d = 11 \/ d = 12 \/ d = 13 \/ d = 14
          \/ d = 15) as H by lia.
  destruct upper; repeat (destruct H as [->|H]; [done|]); by subst.
Qed.

Lemma hex_digits_value (upper : bool) (fuel : nat) :
  forall (n : Z) (acc : string),
    0 <= n < 16 ^ Z.of_nat fuel ->
    HexString.Raw.to_N (hex_digits fuel upper n acc) 0
    = HexString.Raw.to_N acc (Z.to_N n).
Proof.
  induction fuel as [|fuel IH]; intros n acc Hn.
  - simpl in *. by replace n with 0 by lia.
  - cbn [hex_digits].
    pose proof (Z.mod_pos_bound n 16 ltac:(lia)) as Hm.
    destruct (Z.ltb_spec n 16) as [Hlt|Hge].
    + cbn [HexString.Raw.to_N]. rewrite hex_digit_value by done.
      rewrite Z.mod_small by lia. f_equal. lia.
    + rewrite IH.
      * cbn [HexString.Raw.to_N]. rewrite hex_digit_value by done.
        f_equal. rewrite (Z.div_mod n 16) at 3 by lia.
        pose proof (Z.div_pos n 16 ltac:(lia) ltac:(lia)). lia.
      * split; [apply Z.div_pos; lia|].
        apply Z.div_lt_upper_bound; [lia|].
        replace (Z.of_nat (S fuel)) with (1 + Z.of_nat fuel) in Hn by lia.
        rewrite Z.pow_add_r in Hn by lia. lia.
Qed.

Lemma zeros_value (k : nat) (s : string) :
  HexString.Raw.to_N (zeros k ++ s) 0 = HexString.Raw.to_N s 0.
Proof. induction k as [|k IH]; simpl; done. Qed.

(** X15.  The digits ['{:0wX}'] and ['{:0wx}'] render for a number that
    is not negative denote that number: read back as hexadecimal, with
    the padding zeros, they give it again, for every width. *)
Theorem format_hex_reads_back (upper : bool) (w : nat) (n : Z) :
  0 <= n ->
  HexString.Raw.to_N (format_hex upper w n) 0 = Z.to_N n.
Proof.
  intros Hn. unfold format_hex, hex_of_nonneg.
  destruct (Z.ltb_spec n 0) as [|_]; [lia|].
  rewrite Z.abs_eq by lia. cbn [String.append String.length Nat.sub].
  rewrite zeros_value, hex_digits_value; [done|].
  split; [done|]. by apply hex_of_nonneg_fuel_enough.
Qed.

Lemma format_hex_reads_back_witness :
  0 <= 0x2A /\
  HexString.Raw.to_N (format_hex true 4 0x2A) 0 = Z.to_N 0x2A.
Proof. split; [lia|]. apply (format_hex_reads_back true 4 0x2A). lia. Defined.

(** * The two classes side by side *)

Lemma same_fields_time (p q : Packet) :
  same_fields p q -> lastPacketTime p = lastPacketTime q.
Proof. destruct p, q. unfold same_fields. simpl. by intros [= -> -> -> -> -> -> ->]. Qed.

(** One byte through both loop bodies. *)
Lemma variants_agree_on_byte (frame : InFrame) (b : Z)
    (a : analyzer.decoder) (h : Hla.decoder) :
  variants_agree a h ->
  let '(fa, a') := analyzer.on_byte frame b a None in
  let '(fh, h') := Hla.on_byte frame b h in
  variants_agree a' h'
  /\ match fa, fh with
     | Return None, Return None => True
     | Continue (Some r1), Return (Some r2) =>
         type r1 = type r2 /\ start_time r1 = start_time r2
         /\ end_time r1 = end_time r2
     | Raise e1, Raise e2 => e1 = e2
     | _, _ => False
     end.
Proof.
  destruct a as [D s pa], h as [D' sh ph].
  unfold variants_agree. simpl. intros [-> Hp].
  unfold analyzer.on_byte, Hla.on_byte, analyzer.with_packet, Hla.with_packet.
  destruct s; simpl.
  1:{ (* the header *)
    rewrite is_command_testbit. unfold same_fields, header_fields.
    destruct (Z.testbit b 7); simpl.
    - assert (Z.land (Z.land b REQ_TYPE_MASK) REQ_TYPE_MASK
              = Z.land b REQ_TYPE_MASK) as Hm
        by (by rewrite <- Z.land_assoc, Z.land_diag).
      destruct (_ || _); simpl; (split; [|done]); (split; [done|]);
        (split; [done|by left]).
    - split; [|done]. split; [done|]. split; [done|by right]. }
  all: destruct pa as [[ty t chk d n cmd dev reg]|],
         ph as [[ty' t' chk' d' n' cmd' dev' reg']|]; try done; simpl.
  all: destruct Hp as [Hf Hh]; unfold same_fields, header_fields in *;
       simpl in *; simplify_eq.
  1-3, 5: done.
  - destruct (_ <=? 0); done.
  - (* the last checksum byte *)
    unfold analyzer.formatResult, Hla.frame_result, getitem. simpl.
    destruct Hh as [[-> Hm]|[-> ->]]; simpl in *.
    + rewrite FRAME_TYPE_MAP_command. simpl. rewrite Hm.
      destruct (COMMAND_TYPE_MAP !! _); simpl;
        [destruct t'; simpl|]; repeat split; try done; by left.
    + rewrite FRAME_TYPE_MAP_response. simpl.
      destruct t'; simpl; repeat split; try done; by right.
Qed.

Lemma variants_agree_decode (a : analyzer.decoder) (h : Hla.decoder)
    (frame : InFrame) :
  analyzer.frame_timeout a = (1 # 100)%Q ->
  (forall bytes, get_data frame = Some bytes -> (length bytes <= 1)%nat) ->
  variants_agree a h ->
  same_outcome (analyzer.decode a frame).1 (Hla.decode h frame).1
  /\ variants_agree (analyzer.decode a frame).2 (Hla.decode h frame).2.
Proof.
  intros HD Hone Hag.
  unfold analyzer.decode, Hla.decode.
  destruct (negb _); [done|]. destruct (bool_decide (is_Some _)); [done|].
  unfold analyzer.onReceived, Hla.onReceived.
  destruct (get_data frame) as [bytes|] eqn:Hd; [|done].
  assert (Hloop :
    same_outcome (analyzer.for_byte_in frame bytes a None).1
      (Hla.for_byte_in frame bytes h).1
    /\ variants_agree (analyzer.for_byte_in frame bytes a None).2
         (Hla.for_byte_in frame bytes h).2).
  { specialize (Hone bytes eq_refl).
    destruct bytes as [|b [|? ?]]; [done| |simpl in Hone; lia].
    pose proof (variants_agree_on_byte frame b a h Hag) as Hb. simpl.
    destruct (analyzer.on_byte frame b a None) as [fa a'].
    destruct (Hla.on_byte frame b h) as [fh h'].
    destruct Hb as [Hag' Hfl].
    destruct fa as [[r1|]|[r1|]|e1], fh as [[r2|]|[r2|]|e2]; done. }
  pose proof Hag as Hag0. destruct Hag as [Hs Hp]. rewrite Hs, HD.
  assert (Hfire :
    match analyzer.packet a, Hla.packet h with
    | Some p, Some q =>
        match lastPacketTime p, lastPacketTime q with
        | Some T, Some T' =>
            T = T'
            /\ (time_lt (T + (1 # 100))%Q (end_time frame) = true ->
                variants_agree (analyzer.set_currentState analyzer.WAIT_INIT a)
                  (Hla.set_currentState Hla.WAIT_INIT h))
        | None, None => True
        | _, _ => False
        end
    | None, None => True
    | _, _ => False
    end).
  { destruct (analyzer.packet a) as [p|] eqn:Hpa,
             (Hla.packet h) as [q|] eqn:Hph; try done.
    destruct Hp as [Hf Hh]. rewrite <- (same_fields_time p q Hf).
    destruct (lastPacketTime p); [|done].
    split; [done|]. intros _. unfold variants_agree. simpl.
    by rewrite Hpa, Hph. }
  destruct (analyzer.currentState a); simpl; try done.
  all: destruct (analyzer.packet a) as [p|], (Hla.packet h) as [q|];
    try done.
  all: destruct (lastPacketTime p) as [T|], (lastPacketTime q) as [T'|];
    try done.
  all: destruct Hfire as [<- Hfire].
  all: destruct (time_lt _ _); [|done].
  all: split; [done|by apply Hfire].
Qed.

Lemma variants_agree_run (frames : list InFrame) :
  forall (a : analyzer.decoder) (h : Hla.decoder),
    analyzer.frame_timeout a = (1 # 100)%Q ->
    Forall (fun f => forall bytes, get_data f = Some bytes ->
                                   (length bytes <= 1)%nat) frames ->
    variants_agree a h ->
    Forall2 same_outcome (analyzer.run a frames).1 (Hla.run h frames).1
    /\ variants_agree (analyzer.run a frames).2 (Hla.run h frames).2.
Proof.
  induction frames as [|f frames IH]; intros a h HD Hone Hag; [by split|].
  apply Forall_cons in Hone as [Hf Hfs]. simpl.
  destruct (variants_agree_decode a h f HD Hf Hag) as [Ho Hag'].
  pose proof (analyzer_decode_frame_timeout a f) as HD'.
  destruct (analyzer.decode a f) as [oa a'], (Hla.decode h f) as [oh h'].
  simpl in *. rewrite HD in HD'.
  destruct (IH a' h' HD' Hfs Hag') as [Hos Hfin].
  destruct (analyzer.run a' frames), (Hla.run h' frames). simpl in *.
  split; [by constructor|done].
Qed.

(** X16.  Handed the same frames, none of them carrying more than one
    byte, a new [analyzer] whose [frame_timeout] is [0.01] and a new
    [Hla] (whatever its [frame_timeout]) go through the same states with
    the same packet attributes but for the case of the payload text, and
    answer call by call alike: both [None], or results of the same type
    over the same span, or the same exception. *)
Theorem variants_answer_alike (timeout : Q) (frames : list InFrame) :
  Forall (fun f => forall bytes, get_data f = Some bytes ->
                                 (length bytes <= 1)%nat) frames ->
  Forall2 same_outcome
    (analyzer.run (analyzer.init (1 # 100)) frames).1
    (Hla.run (Hla.init timeout) frames).1
  /\ variants_agree
       (analyzer.run (analyzer.init (1 # 100)) frames).2
       (Hla.run (Hla.init timeout) frames).2.
Proof. intros Hone. by apply variants_agree_run. Qed.

Lemma variants_answer_alike_witness :
  Forall2 same_outcome
    (analyzer.run (analyzer.init (1 # 100))
       (chunks_from 3 0 [0x90; 0x05; 0x00; 0x2A; 0xFF; 0x00; 0x00])).1
    (Hla.run (Hla.init 7)
       (chunks_from 3 0 [0x90; 0x05; 0x00; 0x2A; 0xFF; 0x00; 0x00])).1
  /\ variants_agree
       (analyzer.run (analyzer.init (1 # 100))
          (chunks_from 3 0 [0x90; 0x05; 0x00; 0x2A; 0xFF; 0x00; 0x00])).2
       (Hla.run (Hla.init 7)
          (chunks_from 3 0 [0x90; 0x05; 0x00; 0x2A; 0xFF; 0x00; 0x00])).2.
Proof.
  apply (variants_answer_alike 7
           (chunks_from 3 0 [0x90; 0x05; 0x00; 0x2A; 0xFF; 0x00; 0x00])).
  cbv [chunks_from chunk]; simpl.
  repeat (constructor;
            [intros bytes Hb; vm_compute in Hb; injection Hb as <-;
             simpl; lia|]).
  constructor.
Defined.
